(** * GitLab provider adapter: pagination, identifiers, discussion assembly,
      pending reviews, the pull-request cache and error classification.

    The development follows [GitLabProvider] (the class registered with
    [@lspProvider("gitlab")]).  JavaScript strings are sequences of code
    units; they are embedded as [string], one character per code unit in the
    range 0..255.  Asynchronous methods are embedded as state-passing
    functions that return either a value or the thrown exception; the remote
    server is an oracle that answers each call from the history of the calls
    made so far. *)

From Stdlib Require Import ZArith Ascii String List Lia Bool Sorting.Permutation Sorting.Sorted.
From stdpp Require Import base option list sorting gmap strings.

Local Open Scope Z_scope.

(** ** JavaScript string primitives used by the provider *)

Module Js.

Definition dquote : ascii := "034"%char.

(** [WhiteSpace] and [LineTerminator] code units below 256: TAB, LF, VT, FF,
    CR, SP and NBSP. *)
Definition isWhiteSpace (c : ascii) : bool :=
  match c with
  | "009" | "010" | "011" | "012" | "013" | " " | "160" => true
  | _ => false
  end%char.

Fixpoint trimStart (s : string) : string :=
  match s with
  | EmptyString => EmptyString
  | String c r => if isWhiteSpace c then trimStart r else s
  end.

Fixpoint trimEnd (s : string) : string :=
  match s with
  | EmptyString => EmptyString
  | String c r =>
      match trimEnd r with
      | EmptyString => if isWhiteSpace c then EmptyString else String c EmptyString
      | r' => String c r'
      end
  end.

(** [String.prototype.trim] *)
Definition trim (s : string) : string := trimEnd (trimStart s).

(** [String.prototype.split] with a one-character separator: the result is
    never empty, and splitting the empty string gives one empty piece. *)
Fixpoint split (sep : ascii) (s : string) : list string :=
  match s with
  | EmptyString => [EmptyString]
  | String c r =>
      if Ascii.eqb c sep then EmptyString :: split sep r
      else match split sep r with
           | h :: t => String c h :: t
           | [] => [String c EmptyString]
           end
  end.

Definition clamp (len i : Z) : Z := Z.max 0 (Z.min i len).

(** [String.prototype.substring(start, end)]: both indices are clamped to
    [0, length] and swapped when [start > end]. *)
Definition substring (s : string) (i j : Z) : string :=
  let len := Z.of_nat (String.length s) in
  let a := clamp len i in
  let b := clamp len j in
  let lo := Z.min a b in
  let hi := Z.max a b in
  String.substring (Z.to_nat lo) (Z.to_nat (hi - lo)) s.

Fixpoint skip (n : nat) (s : string) : string :=
  match n, s with
  | O, _ => s
  | S n', EmptyString => EmptyString
  | S n', String _ r => skip n' r
  end.

(** [String.prototype.replace(pattern, replacement)] with a string pattern:
    only the first occurrence is replaced.  The replacements used by the
    provider contain no [$], so no replacement pattern is expanded. *)
Fixpoint replace (pat rep s : string) : string :=
  if String.prefix pat s then rep +:+ skip (String.length pat) s
  else match s with
       | EmptyString => EmptyString
       | String c r => String c (replace pat rep r)
       end.

(** [s.match(new RegExp(pat))] is truthy, for a pattern without
    metacharacters, exactly when [pat] occurs in [s]. *)
Fixpoint includes (pat s : string) : bool :=
  String.prefix pat s ||
  match s with
  | EmptyString => false
  | String _ r => includes pat r
  end.

Fixpoint noChar (c : ascii) (s : string) : bool :=
  match s with
  | EmptyString => true
  | String d r => negb (Ascii.eqb d c) && noChar c r
  end.

End Js.

(** ** The JSON codec on identifiers

    Pull-request identifiers are JSON texts of objects whose members are
    strings.  [stringify] and [parse] follow [JSON.stringify] and
    [JSON.parse] on that fragment; a text outside it is not parsed. *)

Module JSON.

Definition hexLower (n : N) : ascii :=
  ascii_of_N (if (n <? 10)%N then 48 + n else 87 + n)%N.

(** [QuoteJSONString] on one code unit. *)
Definition quoteChar (c : ascii) : string :=
  match c with
  | ("034")%char => String "\" (String Js.dquote "")
  | ("\")%char => "\\"
  | ("008")%char => "\b"
  | ("012")%char => "\f"
  | ("010")%char => "\n"
  | ("013")%char => "\r"
  | ("009")%char => "\t"
  | _ =>
      let n := N_of_ascii c in
      if (n <? 32)%N then
        "\u00" +:+ String (hexLower (n / 16)) (String (hexLower (n mod 16)) "")
      else String c ""
  end.

Fixpoint quoteChars (s : string) : string :=
  match s with
  | EmptyString => EmptyString
  | String c r => quoteChar c +:+ quoteChars r
  end.

Definition quote (s : string) : string :=
  String Js.dquote (quoteChars s +:+ String Js.dquote "").

Fixpoint members (fields : list (string * string)) : string :=
  match fields with
  | [] => ""
  | [(k, v)] => quote k +:+ ":" +:+ quote v
  | (k, v) :: rest => quote k +:+ ":" +:+ quote v +:+ "," +:+ members rest
  end.

(** [JSON.stringify] of an object with the given string members, in order. *)
Definition stringify (fields : list (string * string)) : string :=
  "{" +:+ members fields +:+ "}".

Definition unhex (c : ascii) : option N :=
  let n := N_of_ascii c in
  if ((48 <=? n) && (n <=? 57))%N then Some (n - 48)%N
  else if ((97 <=? n) && (n <=? 102))%N then Some (n - 87)%N
  else if ((65 <=? n) && (n <=? 70))%N then Some (n - 55)%N
  else None.

Definition cons_char (c : ascii) (r : option (string * string)) : option (string * string) :=
  match r with
  | Some (t, rest) => Some (String c t, rest)
  | None => None
  end.

(** The characters of a string literal after its opening quote, up to the
    closing quote; the result is the string and the text after the quote. *)
Fixpoint unquoteChars (s : string) : option (string * string) :=
  match s with
  | EmptyString => None
  | String c r =>
      match c with
      | ("034")%char => Some (EmptyString, r)
      | ("\")%char =>
          match r with
          | String e r1 =>
              match e with
              | ("034" | "\" | "/")%char => cons_char e (unquoteChars r1)
              | ("b")%char => cons_char "008"%char (unquoteChars r1)
              | ("f")%char => cons_char "012"%char (unquoteChars r1)
              | ("n")%char => cons_char "010"%char (unquoteChars r1)
              | ("r")%char => cons_char "013"%char (unquoteChars r1)
              | ("t")%char => cons_char "009"%char (unquoteChars r1)
              | ("u")%char =>
                  match r1 with
                  | String h1 (String h2 (String h3 (String h4 r2))) =>
                      match unhex h1, unhex h2, unhex h3, unhex h4 with
                      | Some a, Some b, Some c', Some d =>
                          let n := (((a * 16 + b) * 16 + c') * 16 + d)%N in
                          if (n <? 256)%N then cons_char (ascii_of_N n) (unquoteChars r2)
                          else None
                      | _, _, _, _ => None
                      end
                  | _ => None
                  end
              | _ => None
              end
          | EmptyString => None
          end
      | _ => if (N_of_ascii c <? 32)%N then None else cons_char c (unquoteChars r)
      end
  end.

(** A string literal at the start of [s]. *)
Definition unquote (s : string) : option (string * string) :=
  match s with
  | String "034"%char r => unquoteChars r
  | _ => None
  end.

(** The members of an object after [{] or [,], up to the closing [}] that
    ends the text. *)
Fixpoint parseMembers (fuel : nat) (s : string) : option (list (string * string)) :=
  match fuel with
  | O => None
  | S fuel' =>
      match unquote s with
      | Some (k, String ":"%char r) =>
          match unquote r with
          | Some (v, String "}"%char EmptyString) => Some [(k, v)]
          | Some (v, String ","%char r') =>
              match parseMembers fuel' r' with
              | Some rest => Some ((k, v) :: rest)
              | None => None
              end
          | _ => None
          end
      | _ => None
      end
  end.

Definition parse (s : string) : option (list (string * string)) :=
  match s with
  | String "{"%char (String "}"%char EmptyString) => Some []
  | String "{"%char r => parseMembers (String.length r) r
  | _ => None
  end.

(** Property access on a parsed object: the last member of that name. *)
Fixpoint property (name : string) (fields : list (string * string)) : option string :=
  match fields with
  | [] => None
  | (k, v) :: rest =>
      match property name rest with
      | Some v' => Some v'
      | None => if String.eqb k name then Some v else None
      end
  end.

End JSON.

(** ** Outcomes of asynchronous operations *)

(** The failure objects the provider inspects: an optional [message] and an
    optional structured [response] with its own [message] and a list of
    [errors], each with an optional [type]. *)
Record ExResponse := {
  resp_message : option string;
  resp_errors : option (list (option string))
}.

Record Ex := {
  ex_message : option string;
  ex_response : option ExResponse
}.

Inductive ReportSuppressedMessages :=
| AccessTokenInvalid
| ConnectionError
| NetworkError.

Inductive Thrown :=
| Raised (ex : Ex)
| InternalError (kind : ReportSuppressedMessages) (inner : option Ex)
| ErrorOf (message : string)
| TypeError
| SyntaxError.

Inductive Result (A : Type) :=
| Ok (a : A)
| Throw (t : Thrown).
Arguments Ok {A} a.
Arguments Throw {A} t.

(** ** Pagination *)

Section Pagination.

Variable baseUrl : string.

Definition relNext : string :=
  "rel=" +:+ String Js.dquote ("next" +:+ String Js.dquote "").

(** The [for (const link of links)] loop of [nextPage].  A segment without
    [;] leaves [rawRel] undefined, and [rawRel.trim()] throws. *)
Fixpoint nextPage_links (links : list string) : Result (option string) :=
  match links with
  | [] => Ok None
  | link :: rest =>
      match Js.split ";" link with
      | rawUrl :: rawRel :: _ =>
          let url := Js.trim rawUrl in
          let rel := Js.trim rawRel in
          if String.eqb rel relNext then
            Ok (Some (Js.replace baseUrl ""
                        (Js.substring url 1 (Z.of_nat (String.length url) - 1))))
          else nextPage_links rest
      | _ => Throw TypeError
      end
  end.

(** [nextPage(response)]; the argument is [response.headers.get("Link")]. *)
Definition nextPage (link : option string) : Result (option string) :=
  let linkHeader := match link with Some h => h | None => "" end in
  if (String.length (Js.trim linkHeader) =? 0)%nat then Ok None
  else nextPage_links (Js.split "," linkHeader).

End Pagination.

(** ** The remote server and the provider's state *)

(** Request bodies and GraphQL variables. *)
#[warnings="-register-all"]
Inductive Value :=
| Undefined
| Null
| Bool (b : bool)
| Num (z : Z)
| Str (s : string)
| Arr (items : list Value)
| Obj (fields : list (string * Value)).

Definition ofOption (o : option string) : Value :=
  match o with Some s => Str s | None => Undefined end.

Definition ofOptionZ (o : option Z) : Value :=
  match o with Some z => Num z | None => Undefined end.

(** One entry of the history: what was sent over the wire. *)
Inductive Call :=
| GET (url : string)
| POST (url : string) (body : Value)
| PUT (url : string) (body : Value)
| GRAPHQL (operation : string) (variables : list (string * Value)).

(** Items of the REST merge-request listing ([GitLabPullRequest]). *)
Record GitLabPullRequest := {
  pr_id : Z;
  pr_iid : Z;
  pr_number : option Z;
  pr_title : string;
  pr_web_url : string;
  pr_state : string;
  pr_target_branch : string;
  pr_source_branch : string
}.

Record Page := {
  page_body : list GitLabPullRequest;
  page_link : option string
}.

Record Author := {
  author_name : string;
  author_username : string;
  author_avatarUrl : string
}.

Record NotePosition := {
  oldPath : option string;
  newPath : option string;
  newLine : option Z
}.

(** A note of a discussion.  [note_databaseId] and
    [note_mergeRequestIdComputed] are absent in the server's answer and are
    filled in by [getPullRequest]; [note_pending] and [note_state] are only
    set on the synthetic notes of a pending review. *)
Record Note := {
  note_id : string;
  note_author : Author;
  note_body : option string;
  note_createdAt : string;
  note_discussion_id : option string;
  note_position : option NotePosition;
  note_databaseId : option string;
  note_mergeRequestIdComputed : option string;
  note_pending : bool;
  note_state : option string
}.

(** The head note of an assembled discussion carries [replies]. *)
Record HeadNote := {
  head : Note;
  replies : option (list Note)
}.

(** A discussion as the server returns it. *)
Record RawDiscussion := {
  raw_id : string;
  raw_createdAt : string;
  raw_notes : option (list Note)
}.

Record Discussion := {
  disc_id : string;
  disc_createdAt : string;
  disc_pending : bool;
  disc_notes : option (list HeadNote)
}.

(** Activity, label and milestone events as they enter the timeline. *)
Record Event := {
  ev_type : string;
  ev_createdAt : string;
  ev_action : string;
  ev_id : Z
}.

Inductive TimelineNode :=
| NodeDiscussion (d : Discussion)
| NodeEvent (e : Event).

Definition createdAt (n : TimelineNode) : string :=
  match n with
  | NodeDiscussion d => disc_createdAt d
  | NodeEvent e => ev_createdAt e
  end.

Record RawProjectEvent := {
  rpe_action_name : string;
  rpe_created_at : string;
  rpe_id : Z
}.

Record RawResourceEvent := {
  rre_action : string;
  rre_created_at : string;
  rre_id : Z
}.

Record DiffRefs := {
  baseSha : string;
  headSha : string;
  startSha : string
}.

Record SourceProject := {
  sp_name : string;
  sp_webUrl : string;
  sp_fullPath : string
}.

(** [project.mergeRequest] in the answer to the [GetPullRequest] query,
    restricted to the fields the assembly reads.  [sourceProject] is null
    when the project the merge request comes from is gone. *)
Record MergeRequestAnswer := {
  a_id : string;
  a_iid : string;
  a_createdAt : string;
  a_sourceBranch : string;
  a_targetBranch : string;
  a_title : string;
  a_state : string;
  a_mergedAt : option string;
  a_reference : string;
  a_diffRefs : option DiffRefs;
  a_sourceProject : option SourceProject;
  a_discussions : list RawDiscussion
}.

(** The answer to the [GetPullRequest] query.  [currentUser], [project] and
    [project.mergeRequest] are nullable: [qa_currentUser] is
    [currentUser.username] when there is a current user, and [qa_project] is
    the merge request of the project, [None] when [project] is null and
    [Some None] when [project.mergeRequest] is. *)
Record QueryAnswer := {
  qa_currentUser : option string;
  qa_project : option (option MergeRequestAnswer)
}.

(** The answer as the assembly has it once it has read the current user, the
    merge request and its source project. *)
Record QueryData := {
  q_currentUser_username : string;
  q_id : string;
  q_iid : string;
  q_createdAt : string;
  q_sourceBranch : string;
  q_targetBranch : string;
  q_title : string;
  q_state : string;
  q_mergedAt : option string;
  q_reference : string;
  q_diffRefs : option DiffRefs;
  q_sourceProject : SourceProject;
  q_discussions : list RawDiscussion
}.

Record Repository := {
  repo_name : string;
  repo_nameWithOwner : string;
  repo_url : string
}.

(** [response.project.mergeRequest] while it is being assembled.  The fields
    the server sends are kept in [mr_data]; every other field is undefined
    until [getPullRequest] assigns it. *)
Record MergeRequest := {
  mr_data : QueryData;
  mr_nodes : list TimelineNode;
  mr_viewer_login : option string;
  mr_providerId : option string;
  mr_baseRefOid : option string;
  mr_baseRefName : option string;
  mr_headRefOid : option string;
  mr_headRefName : option string;
  mr_repository : option Repository;
  mr_url : option string;
  mr_merged : option bool;
  mr_references_full : option string;
  mr_idComputed : option string;
  mr_pendingReview_totalCount : option nat
}.

(** The assignments [getPullRequest] had made to an answer when an exception
    ended them: none; [viewer]; or [viewer], [reactionGroups], [providerId]
    and the four [baseRef...] and [headRef...] fields. *)
Inductive Assigned :=
| NothingAssigned
| ViewerAssigned
| RefsAssigned (providerId : option string).

(** The value [getPullRequest] returns: the empty object [{}] it starts from,
    the response of the query with its merge request, or the answer on which
    the assembly was interrupted, with the assignments made until then. *)
Inductive Detail :=
| EmptyResponse
| Response (mr : MergeRequest)
| Interrupted (a : QueryAnswer) (assigned : Assigned).

(** What the transport gives back: the answer, or the failure it rejects
    with. *)
Inductive Reply (A : Type) :=
| Answer (a : A)
| Failure (ex : Ex).
Arguments Answer {A} a.
Arguments Failure {A} ex.

(** The server answers each call from the history of earlier calls.  The
    answers the assembly takes apart are typed; every other body is a
    [Value]. *)
Record Server := {
  getMergeRequests : list Call -> string -> Reply Page;
  requestGetPullRequest : list Call -> string -> string -> Reply QueryAnswer;
  getEvents : list Call -> string -> Reply (list RawProjectEvent);
  getResourceLabelEvents : list Call -> string -> Reply (list RawResourceEvent);
  getResourceMilestoneEvents : list Call -> string -> Reply (list RawResourceEvent);
  respond : list Call -> Call -> Reply Value
}.

(** A staged comment.  The first comment of a review is stored as the
    request itself, every later one as an object [{ request }]. *)
Record ReviewCommentRequest := {
  rc_pullRequestId : string;
  rc_text : string;
  rc_filePath : option string;
  rc_startLine : option Z;
  rc_position : option Z;
  rc_leftSha : option string;
  rc_sha : option string
}.

Inductive Pending :=
| Bare (request : ReviewCommentRequest)
| Wrapped (request : ReviewCommentRequest).

Inductive Notification :=
| DidChangePullRequestComments
    (pullRequestId : option string) (filePath : option string) (commentId : option string).

Record TokenError := {
  te_error : Ex;
  te_occurredAt : Z;
  te_isConnectionError : bool
}.

(** Keys of the two maps are the [id] of a parsed identifier, which is
    undefined when the identifier is empty or has no [id]. *)
Record State := {
  _pullRequestCache : gmap (option string) Detail;
  _pendingReviewStore : gmap (option string) (list Pending);
  _client : bool;
  accessToken : option string;
  tokenError : option TokenError;
  _gitlabUsername : option string;
  notifications : list Notification;
  calls : list Call
}.

Definition withCalls (st : State) (c : list Call) : State :=
  {| _pullRequestCache := _pullRequestCache st;
     _pendingReviewStore := _pendingReviewStore st;
     _client := _client st;
     accessToken := accessToken st;
     tokenError := tokenError st;
     _gitlabUsername := _gitlabUsername st;
     notifications := notifications st;
     calls := c |}.

Definition withCache (st : State) (c : gmap (option string) Detail) : State :=
  {| _pullRequestCache := c;
     _pendingReviewStore := _pendingReviewStore st;
     _client := _client st;
     accessToken := accessToken st;
     tokenError := tokenError st;
     _gitlabUsername := _gitlabUsername st;
     notifications := notifications st;
     calls := calls st |}.

Definition withPending (st : State) (p : gmap (option string) (list Pending)) : State :=
  {| _pullRequestCache := _pullRequestCache st;
     _pendingReviewStore := p;
     _client := _client st;
     accessToken := accessToken st;
     tokenError := tokenError st;
     _gitlabUsername := _gitlabUsername st;
     notifications := notifications st;
     calls := calls st |}.

Definition withClient (st : State) (c : bool) : State :=
  {| _pullRequestCache := _pullRequestCache st;
     _pendingReviewStore := _pendingReviewStore st;
     _client := c;
     accessToken := accessToken st;
     tokenError := tokenError st;
     _gitlabUsername := _gitlabUsername st;
     notifications := notifications st;
     calls := calls st |}.

Definition withTokenError (st : State) (e : option TokenError) : State :=
  {| _pullRequestCache := _pullRequestCache st;
     _pendingReviewStore := _pendingReviewStore st;
     _client := _client st;
     accessToken := accessToken st;
     tokenError := e;
     _gitlabUsername := _gitlabUsername st;
     notifications := notifications st;
     calls := calls st |}.

Definition withUsername (st : State) (u : option string) : State :=
  {| _pullRequestCache := _pullRequestCache st;
     _pendingReviewStore := _pendingReviewStore st;
     _client := _client st;
     accessToken := accessToken st;
     tokenError := tokenError st;
     _gitlabUsername := u;
     notifications := notifications st;
     calls := calls st |}.

Definition sendNotification (st : State) (n : Notification) : State :=
  {| _pullRequestCache := _pullRequestCache st;
     _pendingReviewStore := _pendingReviewStore st;
     _client := _client st;
     accessToken := accessToken st;
     tokenError := tokenError st;
     _gitlabUsername := _gitlabUsername st;
     notifications := notifications st ++ [n];
     calls := calls st |}.

Definition record (st : State) (c : Call) : State :=
  withCalls st (calls st ++ [c]).

(** ** Walking the pages of a merge-request listing *)

Section Provider.

Variable server : Server.
Variable baseUrl : string.

(** [encodeURIComponent]: unreserved characters are kept, every other code
    unit is written as the [%XX] escapes of its UTF-8 encoding. *)
Definition hexUpper (n : N) : ascii :=
  ascii_of_N (if (n <? 10)%N then 48 + n else 55 + n)%N.

Definition percent (n : N) : string :=
  String "%" (String (hexUpper (n / 16)) (String (hexUpper (n mod 16)) "")).

Definition isUnreserved (c : ascii) : bool :=
  let n := N_of_ascii c in
  ((48 <=? n) && (n <=? 57) || (65 <=? n) && (n <=? 90) || (97 <=? n) && (n <=? 122))%N
  || match c with
     | "-" | "_" | "." | "!" | "~" | "*" | "'" | "(" | ")" => true
     | _ => false
     end%char.

Fixpoint encodeURIComponent (s : string) : string :=
  match s with
  | EmptyString => EmptyString
  | String c r =>
      let n := N_of_ascii c in
      (if isUnreserved c then String c ""
       else if (n <? 128)%N then percent n
       else percent (192 + n / 64) +:+ percent (128 + n mod 64))
      +:+ encodeURIComponent r
  end.

(** [this.get(url)] on a merge-request listing: the call is recorded and the
    server answers it. *)
Definition get_mergeRequests (st : State) (url : string) : Reply Page * State :=
  (getMergeRequests server (calls st) url, record st (GET url)).

(** The [do ... while (url)] loop of [_getPullRequestsByState], inside its
    [try]: an exception thrown by the transport or by [nextPage] is logged
    and ends the loop with the items collected so far.  [None] means the
    loop is still running when the fuel is used up. *)
Fixpoint getPullRequestsByState_loop (fuel : nat) (st : State) (url : string)
    (prs : list GitLabPullRequest) : option (list GitLabPullRequest * State) :=
  match fuel with
  | O => None
  | S fuel' =>
      match get_mergeRequests st url with
      | (Failure _, st1) => Some (prs, st1)
      | (Answer apiResponse, st1) =>
          let prs1 := prs ++ page_body apiResponse in
          match nextPage baseUrl (page_link apiResponse) with
          | Throw _ => Some (prs1, st1)
          | Ok None => Some (prs1, st1)
          | Ok (Some next) =>
              if String.eqb next "" then Some (prs1, st1)
              else getPullRequestsByState_loop fuel' st1 next prs1
          end
      end
  end.

Definition setNumber (pr : GitLabPullRequest) : GitLabPullRequest :=
  {| pr_id := pr_id pr;
     pr_iid := pr_iid pr;
     pr_number := Some (pr_iid pr);
     pr_title := pr_title pr;
     pr_web_url := pr_web_url pr;
     pr_state := pr_state pr;
     pr_target_branch := pr_target_branch pr;
     pr_source_branch := pr_source_branch pr |}.

Definition mergeRequestsUrl (remotePath state : string) : string :=
  "/projects/" +:+ encodeURIComponent remotePath +:+ "/merge_requests?state=" +:+ state.

(** [_getPullRequestsByState(remotePath, state)] *)
Definition _getPullRequestsByState (fuel : nat) (st : State) (remotePath state : string)
    : option (list GitLabPullRequest * State) :=
  match getPullRequestsByState_loop fuel st (mergeRequestsUrl remotePath state) [] with
  | None => None
  | Some (prs, st1) => Some (map setNumber prs, st1)
  end.


(** ** Sequencing of asynchronous operations *)

Definition M (A : Type) : Type := State -> Result A * State.

Definition ret {A} (a : A) : M A := fun st => (Ok a, st).

Definition throw {A} (t : Thrown) : M A := fun st => (Throw t, st).

Definition lift {A} (r : Result A) : M A := fun st => (r, st).

Definition bind {A B} (m : M A) (k : A -> M B) : M B :=
  fun st =>
    match m st with
    | (Ok a, st1) => k a st1
    | (Throw t, st1) => (Throw t, st1)
    end.

Definition catch {A} (m : M A) (handler : Thrown -> M A) : M A :=
  fun st =>
    match m st with
    | (Ok a, st1) => (Ok a, st1)
    | (Throw t, st1) => handler t st1
    end.

Definition modify (f : State -> State) : M unit := fun st => (Ok tt, f st).

Notation "'let*' x := m 'in' k" := (bind m (fun x => k))
  (at level 10, x name, m at level 100, k at level 200).

(** ** Identifiers *)

(** [JSON.parse(pullRequestId)], on the identifiers the provider hands out:
    the texts [JSON.stringify] writes for an object whose members are
    strings.  [JSON.parse] accepts more (white space between the tokens,
    members that are not strings, texts that are not objects); such
    identifiers are outside this model, which answers them as it answers a
    malformed text. *)
Definition JSON_parse (s : string) : Result (list (string * string)) :=
  match JSON.parse s with
  | Some fields => Ok fields
  | None => Throw SyntaxError
  end.

(** [JSON.stringify({ id, full })], the identifier [getPullRequest] computes. *)
Definition mergeRequestFullId (id full : string) : string :=
  JSON.stringify [("id", id); ("full", full)].

(** [JSON.stringify({ full, id })], the identifier [getRepoInfo] computes. *)
Definition repoInfoId (full iid : string) : string :=
  JSON.stringify [("full", full); ("id", iid)].

Record ParsedId := {
  projectFullPath : string;
  iid : option string
}.

(** [parsed.full.split("!")[0]] and [parsed.full.split("!")[1]]; reading
    [split] of an undefined [full] throws. *)
Definition splitFull (parsed : list (string * string)) : Result ParsedId :=
  match JSON.property "full" parsed with
  | None => Throw TypeError
  | Some full =>
      let parts := Js.split "!" full in
      Ok {| projectFullPath := nth 0 parts ""; iid := nth_error parts 1 |}
  end.

(** [parseId(pullRequestId)] *)
Definition parseId (pullRequestId : string) : Result ParsedId :=
  match JSON_parse pullRequestId with
  | Throw t => Throw t
  | Ok parsed => splitFull parsed
  end.

(** The guarded prologue
    [if (request.pullRequestId) { const parsed = JSON.parse(...);
       actualPullRequestId = parsed.id; }]. *)
Definition actualPullRequestId (pullRequestId : string) : Result (option string) :=
  if String.eqb pullRequestId "" then Ok None
  else match JSON_parse pullRequestId with
       | Throw t => Throw t
       | Ok parsed => Ok (JSON.property "id" parsed)
       end.

(** A template literal prints an undefined value as [undefined]. *)
Definition show (o : option string) : string :=
  match o with Some s => s | None => "undefined" end.

Definition mergeRequestUrl (p : ParsedId) : string :=
  "/projects/" +:+ encodeURIComponent (projectFullPath p) +:+ "/merge_requests/" +:+ show (iid p).

(** ** Error classification *)

Definition networkErrors : list string :=
  [ "ENOTFOUND"; "ETIMEDOUT"; "EAI_AGAIN"; "ECONNRESET"; "ECONNREFUSED";
    "ENETDOWN"; "ENETUNREACH"; "socket disconnected before secure";
    "socket hang up" ].

Definition truthy (o : option string) : bool :=
  match o with
  | Some s => negb (String.eqb s "")
  | None => false
  end.

Definition messageMatches (pat : string) (ex : Ex) : bool :=
  match ex_message ex with
  | Some m => truthy (Some m) && Js.includes pat m
  | None => false
  end.

Definition isForbidden (e : option string) : bool :=
  match e with
  | Some t => String.eqb t "FORBIDDEN"
  | None => false
  end.

Definition badCredentials (ex : Ex) : bool :=
  match ex_response ex with
  | Some r =>
      match resp_message r with
      | Some m => String.eqb m "Bad credentials"
      | None => false
      end
  | None => false
  end.

Definition forbidden (ex : Ex) : bool :=
  match ex_response ex with
  | Some r =>
      match resp_errors r with
      | Some errors => existsb isForbidden errors
      | None => false
      end
  | None => false
  end.

(** [_isSuppressedException(ex)] *)
Definition _isSuppressedException (ex : Ex) : option ReportSuppressedMessages :=
  if existsb (fun e => messageMatches e ex) networkErrors then Some NetworkError
  else if messageMatches "GraphQL Error (Code: 404)" ex then Some ConnectionError
  else if badCredentials ex || forbidden ex then Some AccessTokenInvalid
  else None.

Variable now : Z.

(** [client()]: the handle is created when missing; a missing access token
    throws. *)
Definition client : M unit :=
  fun st =>
    let st1 := if _client st then st else withClient st true in
    if truthy (accessToken st1) then (Ok tt, st1)
    else (Throw (ErrorOf "Could not get a GitLab personal access token"), st1).

Definition noToken : Ex :=
  {| ex_message := Some "Could not get a GitLab personal access token";
     ex_response := None |}.

(** The [catch] block of [query].

    Modelled from the spec: [session.api.setThirdPartyProviderInfo] is not
    part of the provider; it persists the token-error record into the
    provider's connection state, which [query] reads back as
    [_providerInfo.tokenError]. *)
Definition query_catch {T} (ex : Ex) (rethrown : Thrown) : M T :=
  fun st =>
    match _isSuppressedException ex with
    | Some exType =>
        let st1 :=
          match exType with
          | NetworkError => st
          | _ =>
              withClient
                (withTokenError st
                   (Some {| te_error := ex;
                            te_occurredAt := now;
                            te_isConnectionError :=
                              match exType with ConnectionError => true | _ => false end |}))
                false
          end in
        (Throw (InternalError exType (Some ex)), st1)
    | None => (Throw rethrown, st)
    end.

(** [query(query, variables)]: [ask] is the server's answer to the request. *)
Definition query {T} (operation : string) (variables : list (string * Value))
    (ask : list Call -> Reply T) : M T :=
  fun st =>
    match tokenError st with
    | Some _ => (Throw (InternalError AccessTokenInvalid None), withClient st false)
    | None =>
        match client st with
        | (Throw t, st1) => query_catch noToken t st1
        | (Ok _, st1) =>
            let st2 := record st1 (GRAPHQL operation variables) in
            match ask (calls st1) with
            | Answer response => (Ok response, st2)
            | Failure ex => query_catch ex (Raised ex) st2
            end
        end
    end.

(** [mutate(query, variables)]: failures are not classified. *)
Definition mutate (operation : string) (variables : list (string * Value)) : M Value :=
  let* _ := client in
  fun st =>
    let c := GRAPHQL operation variables in
    match respond server (calls st) c with
    | Answer response => (Ok response, record st c)
    | Failure ex => (Throw (Raised ex), record st c)
    end.

(** [restGet], [restPost], [restPut] on bodies that are not taken apart. *)
Definition rest (c : Call) : M Value :=
  fun st =>
    match respond server (calls st) c with
    | Answer body => (Ok body, record st c)
    | Failure ex => (Throw (Raised ex), record st c)
    end.

Definition restTyped {T} (url : string) (ask : list Call -> string -> Reply T) : M T :=
  fun st =>
    match ask (calls st) url with
    | Answer body => (Ok body, record st (GET url))
    | Failure ex => (Throw (Raised ex), record st (GET url))
    end.

(** ** Pull-request detail: normalisation, discussion assembly, timeline *)

Variable nowISO : string.
Variable providerId : option string.

(** The activity streams merged into the timeline. *)
Definition keptActivity (e : RawProjectEvent) : bool :=
  negb (String.eqb (rpe_action_name e) "commented on")
  && negb (String.eqb (rpe_action_name e) "pushed to").

Definition projectEvent (e : RawProjectEvent) : Event :=
  {| ev_type := "merge-request";
     ev_createdAt := rpe_created_at e;
     ev_action := rpe_action_name e;
     ev_id := rpe_id e |}.

Definition resourceEvent (type : string) (e : RawResourceEvent) : Event :=
  {| ev_type := type;
     ev_createdAt := rre_created_at e;
     ev_action := rre_action e;
     ev_id := rre_id e |}.

(** [_projectEvents(projectFullPath, iid)] *)
Definition _projectEvents (p : ParsedId) : M (list TimelineNode) :=
  let* body := restTyped ("/projects/" +:+ encodeURIComponent (projectFullPath p) +:+ "/events")
                 (getEvents server) in
  ret (map (fun e => NodeEvent (projectEvent e)) (List.filter keptActivity body)).

(** [_labelEvents(projectFullPath, iid)] *)
Definition _labelEvents (p : ParsedId) : M (list TimelineNode) :=
  let* body := restTyped (mergeRequestUrl p +:+ "/resource_label_events")
                 (getResourceLabelEvents server) in
  ret (map (fun e => NodeEvent (resourceEvent "label" e)) body).

(** [_milestoneEvents(projectFullPath, iid)] *)
Definition _milestoneEvents (p : ParsedId) : M (list TimelineNode) :=
  let* body := restTyped (mergeRequestUrl p +:+ "/resource_milestone_events")
                 (getResourceMilestoneEvents server) in
  ret (map (fun e => NodeEvent (resourceEvent "milestone" e)) body).

(** [Promise.all([_projectEvents, _labelEvents, _milestoneEvents])]: the
    three fetches are all issued, and the whole rejects as soon as one of
    them does.  When several fail, the model reports the first in array
    order. *)
Definition auxiliaryEvents (p : ParsedId) : M (list (list TimelineNode)) :=
  fun st =>
    let '(r1, st1) := _projectEvents p st in
    let '(r2, st2) := _labelEvents p st1 in
    let '(r3, st3) := _milestoneEvents p st2 in
    match r1, r2, r3 with
    | Ok a, Ok b, Ok c => (Ok [a; b; c], st3)
    | Throw t, _, _ => (Throw t, st3)
    | _, Throw t, _ => (Throw t, st3)
    | _, _, Throw t => (Throw t, st3)
    end.

(** The comparator handed to [sort]: [-1], [1] or [0] on the code units of
    [createdAt]. *)
Definition byCreatedAt (a b : TimelineNode) : Z :=
  if String.ltb (createdAt a) (createdAt b) then -1
  else if String.ltb (createdAt b) (createdAt a) then 1
  else 0.

(** [Array.prototype.sort] is a stable sort; for a consistent comparator its
    result does not depend on the algorithm.  Insertion from the right keeps
    equal elements in their order. *)
Fixpoint sort_insert {A} (cmp : A -> A -> Z) (x : A) (l : list A) : list A :=
  match l with
  | [] => [x]
  | y :: r => if (cmp x y <=? 0)%Z then x :: y :: r else y :: sort_insert cmp x r
  end.

Fixpoint sort {A} (cmp : A -> A -> Z) (l : list A) : list A :=
  match l with
  | [] => []
  | x :: r => sort_insert cmp x (sort cmp r)
  end.

(** The merge of the timeline: the three streams are appended to the
    discussion nodes in array order and the whole is sorted. *)
Definition mergeTimeline (nodes : list TimelineNode) (streams : list (list TimelineNode))
    : list TimelineNode :=
  sort byCreatedAt (nodes ++ concat streams).

(** The notes of a discussion before it is split. *)
Definition unsplit (d : RawDiscussion) : Discussion :=
  {| disc_id := raw_id d;
     disc_createdAt := raw_createdAt d;
     disc_pending := false;
     disc_notes :=
       match raw_notes d with
       | Some ns => Some (map (fun n => {| head := n; replies := None |}) ns)
       | None => None
       end |}.

(** The inner [forEach]: a note with a discussion id gets [databaseId] and
    [mergeRequestIdComputed]. *)
Definition annotate (fullId : string) (n : Note) : Note :=
  if truthy (note_discussion_id n) then
    {| note_id := note_id n;
       note_author := note_author n;
       note_body := note_body n;
       note_createdAt := note_createdAt n;
       note_discussion_id := note_discussion_id n;
       note_position := note_position n;
       note_databaseId :=
         Some (Js.replace "gid://gitlab/IndividualNoteDiscussion/" ""
                 (Js.replace "gid://gitlab/DiffDiscussion/" ""
                    (show (note_discussion_id n))));
       note_mergeRequestIdComputed := Some fullId;
       note_pending := note_pending n;
       note_state := note_state n |}
  else n.

(** The outer [forEach]: the first note keeps the others as [replies], and
    the note list is cut to length 1. *)
Definition splitNotes (fullId : string) (d : RawDiscussion) : Discussion :=
  match raw_notes d with
  | Some (n0 :: rest) =>
      let nodes := map (annotate fullId) (n0 :: rest) in
      let first := annotate fullId n0 in
      {| disc_id := raw_id d;
         disc_createdAt := raw_createdAt d;
         disc_pending := false;
         disc_notes :=
           Some [ {| head := first;
                     replies :=
                       Some (List.filter (fun x => negb (String.eqb (note_id x) (note_id first)))
                               nodes) |} ] |}
  | _ => unsplit d
  end.

Definition pendingAuthor : Author :=
  {| author_name := "Pending";
     author_username := "pending";
     author_avatarUrl := "https://about.gitlab.com/images/press/logo/png/gitlab-icon-rgb.png" |}.

(** Property reads on a staged entry: an entry stored as [{ request }] has
    no [text], [filePath] or [startLine] of its own. *)
Definition pending_text (p : Pending) : option string :=
  match p with Bare r => Some (rc_text r) | Wrapped _ => None end.

Definition pending_filePath (p : Pending) : option string :=
  match p with Bare r => rc_filePath r | Wrapped _ => None end.

Definition pending_startLine (p : Pending) : option Z :=
  match p with Bare r => rc_startLine r | Wrapped _ => None end.

Definition pendingNote (p : Pending) : HeadNote :=
  {| head :=
       {| note_id := "undefined";
          note_author := pendingAuthor;
          note_body := pending_text p;
          note_createdAt := nowISO;
          note_discussion_id := None;
          note_position :=
            Some {| oldPath := pending_filePath p;
                    newPath := pending_filePath p;
                    newLine := pending_startLine p |};
          note_databaseId := None;
          note_mergeRequestIdComputed := None;
          note_pending := true;
          note_state := Some "PENDING" |};
     replies := None |}.

Definition pendingDiscussion (pendingReview : list Pending) : Discussion :=
  {| disc_id := "undefined";
     disc_createdAt := nowISO;
     disc_pending := true;
     disc_notes := Some (map pendingNote pendingReview) |}.

Definition referencesFull (d : QueryData) : string :=
  sp_fullPath (q_sourceProject d) +:+ q_reference d.

(** The field assignments between the award request and the cache write,
    with the discussions split. *)
Definition normalized (d : QueryData) : MergeRequest :=
  let fullId := mergeRequestFullId (q_id d) (referencesFull d) in
  {| mr_data := d;
     mr_nodes := map (fun x => NodeDiscussion (splitNotes fullId x)) (q_discussions d);
     mr_viewer_login := Some (q_currentUser_username d);
     mr_providerId := providerId;
     mr_baseRefOid := match q_diffRefs d with Some r => Some (baseSha r) | None => None end;
     mr_baseRefName := Some (q_targetBranch d);
     mr_headRefOid := match q_diffRefs d with Some r => Some (headSha r) | None => None end;
     mr_headRefName := Some (q_sourceBranch d);
     mr_repository :=
       Some {| repo_name := sp_name (q_sourceProject d);
               repo_nameWithOwner := sp_fullPath (q_sourceProject d);
               repo_url := sp_webUrl (q_sourceProject d) |};
     mr_url := Some (sp_webUrl (q_sourceProject d));
     mr_merged := Some (truthy (q_mergedAt d));
     mr_references_full := Some (referencesFull d);
     mr_idComputed := Some fullId;
     mr_pendingReview_totalCount := None |}.

Definition withNodes (mr : MergeRequest) (nodes : list TimelineNode) : MergeRequest :=
  {| mr_data := mr_data mr;
     mr_nodes := nodes;
     mr_viewer_login := mr_viewer_login mr;
     mr_providerId := mr_providerId mr;
     mr_baseRefOid := mr_baseRefOid mr;
     mr_baseRefName := mr_baseRefName mr;
     mr_headRefOid := mr_headRefOid mr;
     mr_headRefName := mr_headRefName mr;
     mr_repository := mr_repository mr;
     mr_url := mr_url mr;
     mr_merged := mr_merged mr;
     mr_references_full := mr_references_full mr;
     mr_idComputed := mr_idComputed mr;
     mr_pendingReview_totalCount := mr_pendingReview_totalCount mr |}.

(** The [if (pendingReview)] block: an array, even an empty one, is truthy. *)
Definition withPendingReview (mr : MergeRequest) (pendingReview : option (list Pending))
    : MergeRequest :=
  match pendingReview with
  | None => mr
  | Some staged =>
      {| mr_data := mr_data mr;
         mr_nodes := mr_nodes mr ++ [NodeDiscussion (pendingDiscussion staged)];
         mr_viewer_login := mr_viewer_login mr;
         mr_providerId := mr_providerId mr;
         mr_baseRefOid := mr_baseRefOid mr;
         mr_baseRefName := mr_baseRefName mr;
         mr_headRefOid := mr_headRefOid mr;
         mr_headRefName := mr_headRefName mr;
         mr_repository := mr_repository mr;
         mr_url := mr_url mr;
         mr_merged := mr_merged mr;
         mr_references_full := mr_references_full mr;
         mr_idComputed := mr_idComputed mr;
         mr_pendingReview_totalCount := Some (length staged) |}
  end.

(** The cached response and the returned response are one object: what is
    assigned to it after [_pullRequestCache.set] shows in the cache too. *)
Definition cacheSet (key : option string) (mr : MergeRequest) (st : State) : State :=
  withCache st (<[key := Response mr]> (_pullRequestCache st)).

(** The answer with the current user, the merge request and the source
    project that were read from it. *)
Definition queryData (username : string) (m : MergeRequestAnswer) (sp : SourceProject)
    : QueryData :=
  {| q_currentUser_username := username;
     q_id := a_id m;
     q_iid := a_iid m;
     q_createdAt := a_createdAt m;
     q_sourceBranch := a_sourceBranch m;
     q_targetBranch := a_targetBranch m;
     q_title := a_title m;
     q_state := a_state m;
     q_mergedAt := a_mergedAt m;
     q_reference := a_reference m;
     q_diffRefs := a_diffRefs m;
     q_sourceProject := sp;
     q_discussions := a_discussions m |}.

Definition nullish (v : Value) : bool :=
  match v with
  | Undefined | Null => true
  | _ => false
  end.

(** [groupBy(awards.body, _ => _.name)]: the callback reads [name] of every
    element of an array and of every value of an object, and throws on an
    element that is null or undefined; a body that is neither has nothing to
    read.  Only whether it throws is kept. *)
Definition groupByName (collection : Value) : Result unit :=
  let elements :=
    match collection with
    | Arr xs => xs
    | Obj fields => map snd fields
    | _ => []
    end in
  if existsb nullish elements then Throw TypeError else Ok tt.

(** The [try] of [getPullRequest] from the query up to the pending review.
    [inl r] means that an exception was caught on the way and that [r], the
    response as it was then, is returned; [inr mr] is the merge request,
    written to the cache, on which the event streams are merged next.

    The assignment of [viewer] throws when [project], [project.mergeRequest]
    or [currentUser] is null, before anything else is done; the assignment
    of [repository] throws when [sourceProject] is null, after the awards
    were requested and before the cache is written. *)
Definition assemble (key : option string) (p : ParsedId) (iid0 : string)
    : State -> (Detail + MergeRequest) * State :=
  fun st =>
    match query "GetPullRequest"
            [("fullPath", Str (projectFullPath p)); ("iid", Str iid0)]
            (fun h => requestGetPullRequest server h (projectFullPath p) iid0) st with
    | (Throw _, st1) => (inl EmptyResponse, st1)
    | (Ok a, st1) =>
        match qa_project a, qa_currentUser a with
        | Some (Some m), Some username =>
            let st2 := withUsername st1 (Some username) in
            match rest (GET (mergeRequestUrl p +:+ "/award_emoji")) st2 with
            | (Throw _, st3) => (inl (Interrupted a ViewerAssigned), st3)
            | (Ok awards, st3) =>
                match groupByName awards, a_sourceProject m with
                | Throw _, _ => (inl (Interrupted a ViewerAssigned), st3)
                | Ok _, None => (inl (Interrupted a (RefsAssigned providerId)), st3)
                | Ok _, Some sp =>
                    let d := queryData username m sp in
                    let mr := normalized d in
                    let st4 := cacheSet key mr st3 in
                    let mr1 :=
                      withPendingReview mr (_pendingReviewStore st4 !! Some (q_id d)) in
                    (inr mr1, cacheSet key mr1 st4)
                end
            end
        | _, _ => (inl (Interrupted a NothingAssigned), st1)
        end
    end.

(** The body of the [try] of [getPullRequest] together with its [catch],
    which logs and falls through to [return response].  Without an [iid]
    the call [iid.toString()] throws before anything is sent. *)
Definition fetchPullRequest (key : option string) (p : option ParsedId) : M Detail :=
  fun st =>
    match p with
    | Some {| projectFullPath := path; iid := Some iid0 |} =>
        let p := {| projectFullPath := path; iid := Some iid0 |} in
        match assemble key p iid0 st with
        | (inl response, st1) => (Ok response, st1)
        | (inr mr1, st5) =>
            match auxiliaryEvents p st5 with
            | (Throw _, st6) => (Ok (Response mr1), st6)
            | (Ok streams, st6) =>
                let mr2 := withNodes mr1 (mergeTimeline (mr_nodes mr1) streams) in
                (Ok (Response mr2), cacheSet key mr2 st6)
            end
        end
    | _ => (Ok EmptyResponse, st)
    end.

(** The prologue shared by the operations that read all three parts of the
    identifier; an empty identifier leaves them undefined. *)
Definition identify (pullRequestId : string) : Result (option string * option ParsedId) :=
  if String.eqb pullRequestId "" then Ok (None, None)
  else match JSON_parse pullRequestId with
       | Throw t => Throw t
       | Ok parsed =>
           match splitFull parsed with
           | Throw t => Throw t
           | Ok p => Ok (JSON.property "id" parsed, Some p)
           end
       end.

(** [getPullRequest({ pullRequestId, force })], for a connected provider
    ([ensureConnected] returns at once). *)
Definition getPullRequest (pullRequestId : string) (force : bool) : M Detail :=
  let* ids := lift (identify pullRequestId) in
  let '(key, p) := ids in
  fun st =>
    if force then
      fetchPullRequest key p (withCache st (delete key (_pullRequestCache st)))
    else
      match _pullRequestCache st !! key with
      | Some cached => (Ok cached, st)
      | None => fetchPullRequest key p st
      end.

(** ** Comments and the pending review *)

Inductive Directive :=
| Directive_ (type : string) (data : Value).

(** The request of [createPullRequestInlineComment]; a field that the caller
    did not supply is undefined. *)
Record InlineCommentRequest := {
  ic_pullRequestId : string;
  ic_text : option string;
  ic_filePath : option string;
  ic_startLine : option Z;
  ic_leftSha : option string;
  ic_sha : option string;
  ic_rightSha : option string
}.

(** [createCommitComment(request)], reached with
    [path := request.filePath] and [sha := request.sha || request.rightSha]. *)
Definition createCommitComment (request : InlineCommentRequest) : M Value :=
  let* parsed := lift (JSON_parse (ic_pullRequestId request)) in
  let key := JSON.property "id" parsed in
  let* p := lift (splitFull parsed) in
  let sha := if truthy (ic_sha request) then ic_sha request else ic_rightSha request in
  let payload :=
    Obj [ ("body", ofOption (ic_text request));
          ("position",
           Obj [ ("base_sha", ofOption (ic_leftSha request));
                 ("head_sha", ofOption sha);
                 ("start_sha", ofOption (ic_leftSha request));
                 ("position_type", Str "text");
                 ("new_path", ofOption (ic_filePath request));
                 ("new_line", ofOptionZ (ic_startLine request)) ]) ] in
  let* body := rest (POST (mergeRequestUrl p +:+ "/discussions") payload) in
  let* _ := modify (fun st => withCache st (delete key (_pullRequestCache st))) in
  let* _ := modify (fun st => sendNotification st (DidChangePullRequestComments key None None)) in
  ret body.

(** [createPullRequestInlineComment(request)] *)
Definition createPullRequestInlineComment (request : InlineCommentRequest) : M Value :=
  createCommitComment request.

(** [createPullRequestReviewComment(request)]: the comment is staged, the
    cached detail is dropped and a notification is sent. *)
Definition createPullRequestReviewComment (request : ReviewCommentRequest) : M bool :=
  let* key := lift (actualPullRequestId (rc_pullRequestId request)) in
  let* _ :=
    modify (fun st =>
      match _pendingReviewStore st !! key with
      | Some existingPendingReviews =>
          withPending st (<[key := existingPendingReviews ++ [Wrapped request]]>
                            (_pendingReviewStore st))
      | None => withPending st (<[key := [Bare request]]> (_pendingReviewStore st))
      end) in
  let* _ := modify (fun st => withCache st (delete key (_pullRequestCache st))) in
  let* _ :=
    modify (fun st =>
      sendNotification st (DidChangePullRequestComments key (rc_filePath request) None)) in
  ret true.

(** [createPullRequestInlineReviewComment(request)] *)
Definition createPullRequestInlineReviewComment (request : ReviewCommentRequest) : M bool :=
  createPullRequestReviewComment request.

(** [getPendingReview({ pullRequestId })] *)
Definition getPendingReview (pullRequestId : string) : M bool :=
  let* key := lift (actualPullRequestId pullRequestId) in
  fun st => (Ok (bool_decide (is_Some (_pendingReviewStore st !! key))), st).

(** [getPullRequestReviewId({ pullRequestId })] *)
Definition getPullRequestReviewId (pullRequestId : string) : M bool :=
  getPendingReview pullRequestId.

(** Property reads on a [Value]; reading a property of [undefined] or [null]
    throws. *)
Fixpoint field (name : string) (fields : list (string * Value)) : Value :=
  match fields with
  | [] => Undefined
  | (k, v) :: rest =>
      match field name rest with
      | Undefined => if String.eqb k name then v else Undefined
      | v' => v'
      end
  end.

Definition prop (name : string) (v : Value) : Result Value :=
  match v with
  | Undefined | Null => Throw TypeError
  | Obj fields => Ok (field name fields)
  | _ => Ok Undefined
  end.

Fixpoint path (names : list string) (v : Value) : Result Value :=
  match names with
  | [] => Ok v
  | n :: rest =>
      match prop n v with
      | Ok v' => path rest v'
      | Throw t => Throw t
      end
  end.

Definition strictEq (a b : Value) : bool :=
  match a, b with
  | Undefined, Undefined => true
  | Null, Null => true
  | Bool x, Bool y => Bool.eqb x y
  | Num x, Num y => (x =? y)%Z
  | Str x, Str y => String.eqb x y
  | _, _ => false
  end.

(** [xs.find(f)] for a callback that may throw. *)
Fixpoint find_ (f : Value -> Result bool) (xs : list Value) : Result Value :=
  match xs with
  | [] => Ok Undefined
  | x :: rest =>
      match f x with
      | Throw t => Throw t
      | Ok true => Ok x
      | Ok false => find_ f rest
      end
  end.

Definition items (v : Value) : Result (list Value) :=
  match v with
  | Arr xs => Ok xs
  | _ => Throw TypeError
  end.

(** [ToBoolean] on a [Value]. *)
Definition truthyValue (v : Value) : bool :=
  match v with
  | Undefined | Null => false
  | Bool b => b
  | Num z => negb (z =? 0)%Z
  | Str s => negb (String.eqb s "")
  | Arr _ | Obj _ => true
  end.

(** The search for the discussion that holds the created note. *)
Definition addedNode (response : Value) : Result Value :=
  match path ["createNote"; "note"; "id"] response with
  | Throw t => Throw t
  | Ok noteId =>
      match path ["createNote"; "note"; "project"; "mergeRequest"; "discussions"; "nodes"]
              response with
      | Throw t => Throw t
      | Ok nodes =>
          match items nodes with
          | Throw t => Throw t
          | Ok ds =>
              find_ (fun d =>
                       match path ["notes"; "nodes"] d with
                       | Throw t => Throw t
                       | Ok ns =>
                           match items ns with
                           | Throw t => Throw t
                           | Ok ns' =>
                               match find_ (fun n =>
                                              match prop "id" n with
                                              | Throw t => Throw t
                                              | Ok i => Ok (strictEq i noteId)
                                              end) ns' with
                               | Throw t => Throw t
                               | Ok found => Ok (truthyValue found)
                               end
                           end
                       end) ds
          end
      end
  end.

(** [createPullRequestComment({ pullRequestId, text })], for a request that
    carries no [iid] of its own (as [submitReview] builds it).  Neither the
    cache nor the notifications are touched. *)
Definition createPullRequestComment (pullRequestId : string) (text : string)
    : M (list Directive) :=
  let* ids := lift (identify pullRequestId) in
  let '(noteableId, p) := ids in
  match p with
  | Some {| projectFullPath := _; iid := Some iid0 |} =>
      let* response :=
        mutate "CreateNote"
          [("noteableId", ofOption noteableId); ("body", Str text); ("iid", Str iid0)] in
      let* node := lift (addedNode response) in
      ret [Directive_ "addNode" node]
  | _ => throw TypeError
  end.

Record SubmitReviewRequest := {
  sr_pullRequestId : string;
  sr_text : string;
  sr_eventType : option string
}.

(** [{ ...comment, pullRequestId: request.pullRequestId }] *)
Definition spread (comment : Pending) (pullRequestId : string) : InlineCommentRequest :=
  match comment with
  | Bare r =>
      {| ic_pullRequestId := pullRequestId;
         ic_text := Some (rc_text r);
         ic_filePath := rc_filePath r;
         ic_startLine := rc_startLine r;
         ic_leftSha := rc_leftSha r;
         ic_sha := rc_sha r;
         ic_rightSha := None |}
  | Wrapped _ =>
      {| ic_pullRequestId := pullRequestId;
         ic_text := None;
         ic_filePath := None;
         ic_startLine := None;
         ic_leftSha := None;
         ic_sha := None;
         ic_rightSha := None |}
  end.

(** The [for (const comment of existingReviewComments)] loop: a failed post
    is logged and the loop goes on. *)
Fixpoint postStaged (pullRequestId : string) (comments : list Pending) : M unit :=
  match comments with
  | [] => ret tt
  | comment :: rest =>
      let* _ :=
        catch (let* _ := createPullRequestInlineComment (spread comment pullRequestId) in ret tt)
              (fun _ => ret tt) in
      postStaged pullRequestId rest
  end.

Definition validEventType (eventType : string) : bool :=
  String.eqb eventType "COMMENT" || String.eqb eventType "APPROVE"
  || String.eqb eventType "REQUEST_CHANGES".

(** The [if (existingReviewComments?.length)] block: the staged comments are
    posted and the entry is set to the empty list. *)
Definition flushStaged (pullRequestId : string) (key : option string) : M unit :=
  fun st =>
    match _pendingReviewStore st !! key with
    | Some (c :: cs) =>
        (let* _ := postStaged pullRequestId (c :: cs) in
         modify (fun st' => withPending st' (<[key := []]> (_pendingReviewStore st')))) st
    | _ => (Ok tt, st)
    end.

(** The [if (request.text)] block: the summary comment. *)
Definition postSummary (pullRequestId text : string) : M unit :=
  if negb (String.eqb text "") then
    let* _ := createPullRequestComment pullRequestId text in
    ret tt
  else ret tt.

(** [submitReview({ pullRequestId, text, eventType })] *)
Definition submitReview (request : SubmitReviewRequest) : M bool :=
  let* key := lift (actualPullRequestId (sr_pullRequestId request)) in
  let eventType :=
    if truthy (sr_eventType request) then show (sr_eventType request) else "COMMENT" in
  if negb (validEventType eventType) then throw (ErrorOf "Invalid eventType")
  else
    let* _ := flushStaged (sr_pullRequestId request) key in
    let* _ := postSummary (sr_pullRequestId request) (sr_text request) in
    ret true.

(** ** Operations that change a merge request on the server *)

(** [lockPullRequest] and [unlockPullRequest] *)
Definition setLocked (locked : bool) (pullRequestId : string) : M (list Directive) :=
  let* p := lift (parseId pullRequestId) in
  let* body := rest (PUT (mergeRequestUrl p) (Obj [("discussion_locked", Bool locked)])) in
  let* v := lift (prop "discussion_locked" body) in
  ret [Directive_ "updatePullRequest" (Obj [("discussionLocked", v)])].

Definition lockPullRequest : string -> M (list Directive) := setLocked true.
Definition unlockPullRequest : string -> M (list Directive) := setLocked false.

(** [deletePullRequestComment({ id, pullRequestId })] *)
Definition deletePullRequestComment (noteId pullRequestId : string) : M (list Directive) :=
  let* key := lift (actualPullRequestId pullRequestId) in
  let* _ := mutate "DestroyNote" [("id", Str noteId)] in
  let* _ := modify (fun st => withCache st (delete key (_pullRequestCache st))) in
  let* _ :=
    modify (fun st => sendNotification st (DidChangePullRequestComments key None (Some noteId))) in
  ret [Directive_ "removeNode" (Obj [("id", Str noteId)])].

(** The operations below wrap their request in [try]; on a failure they log
    and return [undefined], here [None]. *)
Definition orUndefined {A} (m : M A) : M (option A) :=
  catch (let* a := m in ret (Some a)) (fun _ => ret None).

(** [toggleMilestoneOnPullRequest({ pullRequestId, milestoneId })] *)
Definition toggleMilestoneOnPullRequest (pullRequestId milestoneId : string)
    : M (option (list Directive)) :=
  let* p := lift (parseId pullRequestId) in
  orUndefined
    (let* body := rest (PUT (mergeRequestUrl p) (Obj [("milestone_id", Str milestoneId)])) in
     let* v := lift (prop "milestone" body) in
     ret [Directive_ "updatePullRequest" (Obj [("milestone", v)])]).

(** [setWorkInProgressOnPullRequest({ pullRequestId, onOff })] *)
Definition setWorkInProgressOnPullRequest (pullRequestId : string) (onOff : bool)
    : M (option (list Directive)) :=
  let* p := lift (parseId pullRequestId) in
  orUndefined
    (let* response :=
       mutate "MergeRequestSetWip"
         [("projectPath", Str (projectFullPath p)); ("iid", ofOption (iid p));
          ("wip", Bool onOff)] in
     let* wip := lift (path ["mergeRequestSetWip"; "mergeRequest"; "workInProgress"] response) in
     let* title := lift (path ["mergeRequestSetWip"; "mergeRequest"; "title"] response) in
     ret [Directive_ "updatePullRequest" (Obj [("workInProgress", wip); ("title", title)])]).

(** [setLabelOnPullRequest({ pullRequestId, labelIds })] *)
Definition setLabelOnPullRequest (pullRequestId : string) (labelIds : list string)
    : M (option (list Directive)) :=
  let* p := lift (parseId pullRequestId) in
  orUndefined
    (let* response :=
       mutate "MergeRequestSetLabels"
         [("projectPath", Str (projectFullPath p)); ("iid", ofOption (iid p));
          ("labelIds", Arr (map Str labelIds))] in
     let* labels := lift (path ["mergeRequestSetLabels"; "mergeRequest"; "labels"] response) in
     ret [Directive_ "setLabels" labels]).

(** [mergePullRequest({ pullRequestId, message, deleteSourceBranch,
    squashCommits })] *)
Definition mergePullRequest (pullRequestId message : string)
    (deleteSourceBranch squashCommits : option bool) : M (option (list Directive)) :=
  let* p := lift (parseId pullRequestId) in
  orUndefined
    (let* body :=
       rest (PUT (mergeRequestUrl p +:+ "/merge")
               (Obj [ ("merge_commit_message", Str message);
                      ("squash", match squashCommits with Some b => Bool b | None => Undefined end);
                      ("should_remove_source_branch",
                       match deleteSourceBranch with Some b => Bool b | None => Undefined end) ])) in
     let* state := lift (prop "state" body) in
     let* mergedAt := lift (prop "merged_at" body) in
     let* updatedAt := lift (prop "updated_at" body) in
     ret [Directive_ "updatePullRequest"
            (Obj [ ("merged", Bool true); ("state", state); ("mergedAt", mergedAt);
                   ("updatedAt", updatedAt) ])]).

(** [approved_by.map(_ => ({ avatarUrl, username, name }))] *)
Fixpoint approvers (xs : list Value) : Result (list Value) :=
  match xs with
  | [] => Ok []
  | x :: rest =>
      match path ["user"; "avatar_url"] x, path ["user"; "username"] x,
            path ["user"; "name"] x with
      | Ok a, Ok u, Ok n =>
          match approvers rest with
          | Ok r => Ok (Obj [("avatarUrl", a); ("username", u); ("name", n)] :: r)
          | Throw t => Throw t
          end
      | Throw t, _, _ => Throw t
      | _, Throw t, _ => Throw t
      | _, _, Throw t => Throw t
      end
  end.

Definition approvedBy (body : Value) : Result Value :=
  match prop "approved_by" body with
  | Throw t => Throw t
  | Ok v =>
      match items v with
      | Throw t => Throw t
      | Ok xs =>
          match approvers xs with
          | Ok r => Ok (Arr r)
          | Throw t => Throw t
          end
      end
  end.

(** [togglePullRequestApproval({ pullRequestId, approve })]: a failed
    [unapprove] is logged and leaves the directive without data. *)
Definition togglePullRequestApproval (pullRequestId : string) (approve : bool)
    : M (list Directive) :=
  let* p := lift (parseId pullRequestId) in
  if approve then
    let* body := rest (POST (mergeRequestUrl p +:+ "/approve") (Obj [])) in
    let* data := lift (approvedBy body) in
    ret [Directive_ "addApprovedBy" data]
  else
    let* response :=
      orUndefined (rest (POST (mergeRequestUrl p +:+ "/unapprove") (Obj []))) in
    match response with
    | Some body =>
        let* data := lift (approvedBy body) in
        ret [Directive_ "removeApprovedBy" data]
    | None => ret [Directive_ "removeApprovedBy" Undefined]
    end.

(** ** Replies, closing and reopening, the GraphQL endpoint *)

(** [get graphQlBaseUrl()] *)
Definition graphQlBaseUrl : string := Js.replace "/v4" "" baseUrl +:+ "/graphql".

(** [createCommentReply({ pullRequestId, commentId, text })]: with an empty
    identifier the path and the internal id stay undefined, and the template
    literal prints them as [undefined]. *)
Definition createCommentReply (pullRequestId commentId text : string) : M Value :=
  let* ids := lift (identify pullRequestId) in
  let projectFullPath_ :=
    match snd ids with Some p => projectFullPath p | None => "undefined" end in
  let iid_ := match snd ids with Some p => iid p | None => None end in
  rest (POST ("/projects/" +:+ encodeURIComponent projectFullPath_ +:+ "/merge_requests/"
              +:+ show iid_ +:+ "/discussions/" +:+ commentId +:+ "/notes")
          (Obj [("body", Str text)])).

(** The directives of [createPullRequestCommentAndClose] and
    [createPullRequestCommentAndReopen]: those of the comment, the update of
    the merge request, and [addNodes] with the activity stream as its data. *)
Inductive StateDirective :=
| Plain (d : Directive)
| AddNodes (nodes : list TimelineNode).

(** The two methods differ in the [state_event] they send and in nothing
    else. *)
Definition commentAndSetState (stateEvent : string) (pullRequestId text : string)
    : M (list StateDirective) :=
  let* p := lift (parseId pullRequestId) in
  let* directives :=
    if truthy (Some text) then
      let* response1 := createPullRequestComment pullRequestId text in
      ret (map Plain response1)
    else ret [] in
  let* body := rest (PUT (mergeRequestUrl p) (Obj [("state_event", Str stateEvent)])) in
  let* mergedAt := lift (prop "merged_at" body) in
  let* mergeStatus := lift (prop "merge_status" body) in
  let* state := lift (prop "state" body) in
  let* updatedAt := lift (prop "updated_at" body) in
  let* closedAt := lift (prop "closed_at" body) in
  let* closedBy := lift (prop "closed_by" body) in
  let* events := _projectEvents p in
  ret (directives
       ++ [ Plain (Directive_ "updatePullRequest"
                     (Obj [ ("mergedAt", mergedAt); ("mergeStatus", mergeStatus);
                            ("state", state); ("updatedAt", updatedAt);
                            ("closedAt", closedAt); ("closedBy", closedBy) ]));
            AddNodes events ]).

(** [createPullRequestCommentAndClose({ pullRequestId, text })] *)
Definition createPullRequestCommentAndClose : string -> string -> M (list StateDirective) :=
  commentAndSetState "close".

(** [createPullRequestCommentAndReopen({ pullRequestId, text })] *)
Definition createPullRequestCommentAndReopen : string -> string -> M (list StateDirective) :=
  commentAndSetState "reopen".
End Provider.

(** ** Link headers as the listing endpoints produce them *)

Record Link := {
  link_url : string;
  link_rel : string
}.

(** One segment [<url>; rel="name"]. *)
Definition renderLink (l : Link) : string :=
  "<" +:+ link_url l +:+ ">; rel=" +:+ String Js.dquote (link_rel l +:+ String Js.dquote "").

(** The segments joined by a comma and a space. *)
Fixpoint renderLinks (ls : list Link) : string :=
  match ls with
  | [] => ""
  | [l] => renderLink l
  | l :: rest => renderLink l +:+ ", " +:+ renderLinks rest
  end.

Definition plain (s : string) : bool := Js.noChar "," s && Js.noChar ";" s.

Definition wellFormedLink (l : Link) : bool := plain (link_url l) && plain (link_rel l).

Definition isNext (l : Link) : bool := String.eqb (link_rel l) "next".

Record ServedPage := {
  served_items : list GitLabPullRequest;
  served_links : list Link
}.

(** [serves server baseUrl history url pages]: asked for [url] after
    [history], the server answers with the first page; every page but the
    last advertises the next one in a [rel="next"] segment under [baseUrl],
    and the last page has no such segment. *)
Fixpoint serves (server : Server) (baseUrl : string) (history : list Call) (url : string)
    (pages : list ServedPage) : Prop :=
  match pages with
  | [] => False
  | p :: rest =>
      getMergeRequests server history url
      = Answer {| page_body := served_items p;
                  page_link := Some (renderLinks (served_links p)) |}
      /\ forallb wellFormedLink (served_links p) = true
      /\ match rest with
         | [] => forallb (fun l => negb (isNext l)) (served_links p) = true
         | _ :: _ =>
             exists next,
               next <> ""
               /\ find isNext (served_links p)
                  = Some {| link_url := baseUrl +:+ next; link_rel := "next" |}
               /\ serves server baseUrl (history ++ [GET url]) next rest
         end
  end.

(** The page a well-formed header advertises: the target of its first
    [rel="next"] segment, relative to [baseUrl]. *)
Definition advertised (baseUrl : string) (links : list Link) : option string :=
  match find isNext links with
  | Some l => Some (Js.replace baseUrl "" (link_url l))
  | None => None
  end.

(** The requests the walker sends for a chain of pages starting at [url]. *)
Fixpoint requests (baseUrl url : string) (pages : list ServedPage) : list Call :=
  match pages with
  | [] => []
  | p :: rest =>
      GET url ::
      match advertised baseUrl (served_links p) with
      | Some next => requests baseUrl next rest
      | None => []
      end
  end.

(** ** Answers to the query *)

(** The answer in which nothing is null, read as [d]. *)
Definition complete (d : QueryData) : QueryAnswer :=
  {| qa_currentUser := Some (q_currentUser_username d);
     qa_project :=
       Some (Some {| a_id := q_id d;
                     a_iid := q_iid d;
                     a_createdAt := q_createdAt d;
                     a_sourceBranch := q_sourceBranch d;
                     a_targetBranch := q_targetBranch d;
                     a_title := q_title d;
                     a_state := q_state d;
                     a_mergedAt := q_mergedAt d;
                     a_reference := q_reference d;
                     a_diffRefs := q_diffRefs d;
                     a_sourceProject := Some (q_sourceProject d);
                     a_discussions := q_discussions d |}) |}.

(** ** Orders on the timeline *)




(** ** Observations on operations *)

(** [m] leaves the component [f] of the state as it was, whether it returns
    or throws. *)
Definition preserves {A X : Type} (f : State -> X) (m : M A) : Prop :=
  forall st : State, f (snd (m st)) = f st.

(** A component of the state that neither the client handle nor the call
    history is part of. *)
Definition localTo {X : Type} (f : State -> X) : Prop :=
  (forall st c, f (withClient st c) = f st) /\ (forall st c, f (withCalls st c) = f st).

Definition isPendingNode (n : TimelineNode) : bool :=
  match n with
  | NodeDiscussion d => disc_pending d
  | NodeEvent _ => false
  end.

Definition isEventNode (n : TimelineNode) : bool :=
  match n with
  | NodeDiscussion _ => false
  | NodeEvent _ => true
  end.

Definition pendingState (n : HeadNote) : option string := note_state (head n).

(** [m] never throws [t]. *)
Definition neverThrows {A : Type} (t : Thrown) (m : M A) : Prop :=
  forall st : State, fst (m st) <> Throw t.

(** The request of [submitReview] with another event type. *)
Definition withEventType (request : SubmitReviewRequest) (eventType : option string)
    : SubmitReviewRequest :=
  {| sr_pullRequestId := sr_pullRequestId request;
     sr_text := sr_text request;
     sr_eventType := eventType |}.

(** ** Further observations *)

Definition isGET (c : Call) : bool :=
  match c with
  | GET _ => true
  | _ => false
  end.

Fixpoint blank (s : string) : bool :=
  match s with
  | EmptyString => true
  | String c r => Js.isWhiteSpace c && blank r
  end.

(** [servesThenFails server baseUrl history url pages]: the server answers
    the pages one after the other, each advertising the next one, and
    rejects the request that follows the last of them. *)
Fixpoint servesThenFails (server : Server) (baseUrl : string) (history : list Call)
    (url : string) (pages : list ServedPage) : Prop :=
  match pages with
  | [] => exists ex, getMergeRequests server history url = Failure ex
  | p :: rest =>
      getMergeRequests server history url
      = Answer {| page_body := served_items p;
                  page_link := Some (renderLinks (served_links p)) |}
      /\ forallb wellFormedLink (served_links p) = true
      /\ exists next,
           next <> ""
           /\ find isNext (served_links p)
              = Some {| link_url := baseUrl +:+ next; link_rel := "next" |}
           /\ servesThenFails server baseUrl (history ++ [GET url]) next rest
  end.

(** Staging a list of comments, one call of
    [createPullRequestReviewComment] after the other. *)
Fixpoint stageAll (requests : list ReviewCommentRequest) (st : State) : State :=
  match requests with
  | [] => st
  | request :: rest => stageAll rest (snd (createPullRequestReviewComment request st))
  end.

Definition commentsChanged (key : option string) (request : ReviewCommentRequest)
    : Notification :=
  DidChangePullRequestComments key (rc_filePath request) None.


(** The actions that the activity stream leaves to the discussions and to
    the commits. *)
Definition isCommentOrPush (action : string) : bool :=
  String.eqb action "commented on" || String.eqb action "pushed to".
(** ** Concrete data for the examples *)

Module Example.

Definition exReset : Ex :=
  {| ex_message := Some "request failed, reason: read ECONNRESET"; ex_response := None |}.

Definition exForbidden : Ex :=
  {| ex_message := Some "GraphQL Error (Code: 200)";
     ex_response :=
       Some {| resp_message := None; resp_errors := Some [Some "NOT_FOUND"; Some "FORBIDDEN"] |} |}.

Definition exUnexpected : Ex :=
  {| ex_message := Some "totally unexpected"; ex_response := None |}.

(** A failure that is both a connection reset and a forbidden answer. *)
Definition exResetForbidden : Ex :=
  {| ex_message := Some "ECONNRESET";
     ex_response := Some {| resp_message := None; resp_errors := Some [Some "FORBIDDEN"] |} |}.

Definition baseUrl : string := "https://gitlab.com/api/v4".

Definition pr (n : Z) : GitLabPullRequest :=
  {| pr_id := 100 + n;
     pr_iid := n;
     pr_number := None;
     pr_title := "title";
     pr_web_url := "https://gitlab.com/group/proj/-/merge_requests";
     pr_state := "opened";
     pr_target_branch := "main";
     pr_source_branch := "feature" |}.

Definition firstUrl : string := "/projects/group%2Fproj/merge_requests?state=opened".
Definition secondUrl : string := "/projects/7/merge_requests?page=2&state=opened".
Definition thirdUrl : string := "/projects/7/merge_requests?page=3&state=opened".

Definition firstLink : Link :=
  {| link_url := baseUrl +:+ "/projects/7/merge_requests?page=1&state=opened";
     link_rel := "first" |}.

Definition pages : list ServedPage :=
  [ {| served_items := [pr 1; pr 2];
       served_links := [ {| link_url := baseUrl +:+ secondUrl; link_rel := "next" |}; firstLink ] |};
    {| served_items := [pr 3];
       served_links := [ firstLink; {| link_url := baseUrl +:+ thirdUrl; link_rel := "next" |} ] |};
    {| served_items := [pr 4; pr 5];
       served_links := [ firstLink ] |} ].

Definition page (n : nat) : Reply Page :=
  match nth_error pages n with
  | Some p =>
      Answer {| page_body := served_items p;
                page_link := Some (renderLinks (served_links p)) |}
  | None => Failure {| ex_message := Some "404 Not Found"; ex_response := None |}
  end.

Definition down : Ex := {| ex_message := Some "connect ECONNREFUSED"; ex_response := None |}.

(** A server that serves the three pages and fails every other call. *)
Definition pagedServer : Server :=
  {| getMergeRequests := fun _ url =>
       if String.eqb url firstUrl then page 0
       else if String.eqb url secondUrl then page 1
       else if String.eqb url thirdUrl then page 2
       else page 3;
     requestGetPullRequest := fun _ _ _ => Failure down;
     getEvents := fun _ _ => Failure down;
     getResourceLabelEvents := fun _ _ => Failure down;
     getResourceMilestoneEvents := fun _ _ => Failure down;
     respond := fun _ _ => Failure down |}.

(** A connected provider with empty caches. *)
Definition idle : State :=
  {| _pullRequestCache := ∅;
     _pendingReviewStore := ∅;
     _client := false;
     accessToken := Some "glpat-token";
     tokenError := None;
     _gitlabUsername := None;
     notifications := [];
     calls := [] |}.

Definition someone : Author :=
  {| author_name := "Ada"; author_username := "ada"; author_avatarUrl := "https://gitlab.com/ada.png" |}.

Definition note (id createdAt : string) : Note :=
  {| note_id := id;
     note_author := someone;
     note_body := Some "looks good";
     note_createdAt := createdAt;
     note_discussion_id := Some "gid://gitlab/DiffDiscussion/4f2a";
     note_position := None;
     note_databaseId := None;
     note_mergeRequestIdComputed := None;
     note_pending := false;
     note_state := None |}.

Definition thread : RawDiscussion :=
  {| raw_id := "gid://gitlab/Discussion/4f2a";
     raw_createdAt := "2021-03-01T10:00:00Z";
     raw_notes :=
       Some [ note "5" "2021-03-01T10:00:00Z"; note "6" "2021-03-01T11:00:00Z";
              note "7" "2021-03-01T12:00:00Z" ] |}.

(** A discussion whose second note has the id of the first. *)
Definition twins : RawDiscussion :=
  {| raw_id := "gid://gitlab/Discussion/77";
     raw_createdAt := "2021-03-01T10:00:00Z";
     raw_notes := Some [ note "5" "2021-03-01T10:00:00Z"; note "5" "2021-03-01T11:00:00Z" ] |}.

Definition event (type createdAt : string) (id : Z) : TimelineNode :=
  NodeEvent {| ev_type := type; ev_createdAt := createdAt; ev_action := "added"; ev_id := id |}.

Definition t1 : TimelineNode :=
  NodeDiscussion {| disc_id := "gid://gitlab/Discussion/4f2a";
                    disc_createdAt := "2021-03-01T10:00:00Z";
                    disc_pending := false;
                    disc_notes := None |}.
Definition t2 : TimelineNode := event "label" "2021-03-03T10:00:00Z" 2.
Definition t3 : TimelineNode := event "merge-request" "2021-03-02T10:00:00Z" 3.
Definition t4 : TimelineNode := event "milestone" "2021-03-04T10:00:00Z" 4.

Definition token : string :=
  mergeRequestFullId "gid://gitlab/MergeRequest/7" "group/proj!3".

Definition data : QueryData :=
  {| q_currentUser_username := "ada";
     q_id := "gid://gitlab/MergeRequest/7";
     q_iid := "3";
     q_createdAt := "2021-03-01T09:00:00Z";
     q_sourceBranch := "feature";
     q_targetBranch := "main";
     q_title := "Add pagination";
     q_state := "opened";
     q_mergedAt := None;
     q_reference := "!3";
     q_diffRefs := Some {| baseSha := "b1"; headSha := "h1"; startSha := "s1" |};
     q_sourceProject :=
       {| sp_name := "proj"; sp_webUrl := "https://gitlab.com/group/proj";
          sp_fullPath := "group/proj" |};
     q_discussions := [thread] |}.

Definition activity : list RawProjectEvent :=
  [ {| rpe_action_name := "opened"; rpe_created_at := "2021-03-01T09:00:00Z"; rpe_id := 11 |};
    {| rpe_action_name := "pushed to"; rpe_created_at := "2021-03-01T09:30:00Z"; rpe_id := 12 |} ].

Definition labelled : list RawResourceEvent :=
  [ {| rre_action := "add"; rre_created_at := "2021-03-01T09:45:00Z"; rre_id := 21 |} ].

(** A server that answers every call, except that it rejects the post of a
    discussion whose body is defined. *)
Definition gitlab : Server :=
  {| getMergeRequests := fun _ _ => page 3;
     requestGetPullRequest := fun _ _ _ => Answer (complete data);
     getEvents := fun _ _ => Answer activity;
     getResourceLabelEvents := fun _ _ => Answer labelled;
     getResourceMilestoneEvents := fun _ _ => Answer [];
     respond := fun _ c =>
       match c with
       | POST _ (Obj (("body", Str _) :: _)) => Failure down
       | PUT _ _ => Answer (Obj [("discussion_locked", Bool true)])
       | _ => Answer (Obj [])
       end |}.

(** The same server with the label events out of order. *)
Definition flaky : Server :=
  {| getMergeRequests := getMergeRequests gitlab;
     requestGetPullRequest := requestGetPullRequest gitlab;
     getEvents := getEvents gitlab;
     getResourceLabelEvents := fun _ _ => Failure down;
     getResourceMilestoneEvents := getResourceMilestoneEvents gitlab;
     respond := respond gitlab |}.

Definition comment (text : string) (line : Z) : ReviewCommentRequest :=
  {| rc_pullRequestId := token;
     rc_text := text;
     rc_filePath := Some "src/walker.ts";
     rc_startLine := Some line;
     rc_position := None;
     rc_leftSha := Some "b1";
     rc_sha := Some "h1" |}.

(** The provider after two comments were staged for the merge request. *)
Definition staged : State :=
  snd (createPullRequestReviewComment (comment "second" 20)
         (snd (createPullRequestReviewComment (comment "first" 10) idle))).

Definition review (text : string) (eventType : option string) : SubmitReviewRequest :=
  {| sr_pullRequestId := token; sr_text := text; sr_eventType := eventType |}.

Definition startedAt : Z := 1614589200000.
Definition startedAtISO : string := "2021-03-01T09:50:00.000Z".

Definition key : option string := Some "gid://gitlab/MergeRequest/7".

Definition parsed : ParsedId := {| projectFullPath := "group/proj"; iid := Some "3" |}.

(** The first detail fetch of a connected provider. *)
Definition fetched : Result Detail * State :=
  getPullRequest gitlab startedAt startedAtISO (Some "gitlab*com") token false idle.

(** The same fetch against the server whose label events fail. *)
Definition fetchedFlaky : Result Detail * State :=
  getPullRequest flaky startedAt startedAtISO (Some "gitlab*com") token false idle.

End Example.

(** ** More concrete data *)

Module Sample.

(** A server that loses the connection after the second page. *)
Definition brokenServer : Server :=
  {| getMergeRequests := fun _ url =>
       if String.eqb url Example.firstUrl then Example.page 0
       else if String.eqb url Example.secondUrl then Example.page 1
       else Failure Example.down;
     requestGetPullRequest := requestGetPullRequest Example.pagedServer;
     getEvents := getEvents Example.pagedServer;
     getResourceLabelEvents := getResourceLabelEvents Example.pagedServer;
     getResourceMilestoneEvents := getResourceMilestoneEvents Example.pagedServer;
     respond := respond Example.pagedServer |}.

(** A server that answers the detail query and loses the awards request. *)
Definition noAwards : Server :=
  {| getMergeRequests := getMergeRequests Example.gitlab;
     requestGetPullRequest := requestGetPullRequest Example.gitlab;
     getEvents := getEvents Example.gitlab;
     getResourceLabelEvents := getResourceLabelEvents Example.gitlab;
     getResourceMilestoneEvents := getResourceMilestoneEvents Example.gitlab;
     respond := fun history c =>
       match c with
       | GET _ => Failure Example.down
       | _ => respond Example.gitlab history c
       end |}.

(** A server that answers every request but the one for the activity
    stream. *)
Definition noEvents : Server :=
  {| getMergeRequests := getMergeRequests Example.gitlab;
     requestGetPullRequest := requestGetPullRequest Example.gitlab;
     getEvents := fun _ _ => Failure Example.down;
     getResourceLabelEvents := getResourceLabelEvents Example.gitlab;
     getResourceMilestoneEvents := getResourceMilestoneEvents Example.gitlab;
     respond := respond Example.gitlab |}.

(** A server whose list of awards has a null entry. *)
Definition nullAward : Server :=
  {| getMergeRequests := getMergeRequests Example.gitlab;
     requestGetPullRequest := requestGetPullRequest Example.gitlab;
     getEvents := getEvents Example.gitlab;
     getResourceLabelEvents := getResourceLabelEvents Example.gitlab;
     getResourceMilestoneEvents := getResourceMilestoneEvents Example.gitlab;
     respond := fun history c =>
       match c with
       | GET _ => Answer (Arr [Obj [("name", Str "thumbsup")]; Null])
       | _ => respond Example.gitlab history c
       end |}.

(** The identifier [getRepoInfo] builds for the merge request: its id is the
    internal id. *)
Definition repoToken : string := repoInfoId "group/proj!3" "3".

Definition commentOn (token text : string) (line : Z) : ReviewCommentRequest :=
  {| rc_pullRequestId := token;
     rc_text := text;
     rc_filePath := Some "src/walker.ts";
     rc_startLine := Some line;
     rc_position := None;
     rc_leftSha := Some "b1";
     rc_sha := Some "h1" |}.

(** The provider after two comments were staged under that identifier. *)
Definition stagedByIid : State :=
  stageAll [commentOn repoToken "first" 10; commentOn repoToken "second" 20] Example.idle.

(** The answer for a merge request whose source project is gone. *)
Definition orphan : QueryAnswer :=
  {| qa_currentUser := Some "ada";
     qa_project :=
       Some (Some {| a_id := "gid://gitlab/MergeRequest/7";
                     a_iid := "3";
                     a_createdAt := "2021-03-01T09:00:00Z";
                     a_sourceBranch := "feature";
                     a_targetBranch := "main";
                     a_title := "Add pagination";
                     a_state := "opened";
                     a_mergedAt := None;
                     a_reference := "!3";
                     a_diffRefs := None;
                     a_sourceProject := None;
                     a_discussions := [Example.thread] |}) |}.

Definition orphaned : Server :=
  {| getMergeRequests := getMergeRequests Example.gitlab;
     requestGetPullRequest := fun _ _ _ => Answer orphan;
     getEvents := getEvents Example.gitlab;
     getResourceLabelEvents := getResourceLabelEvents Example.gitlab;
     getResourceMilestoneEvents := getResourceMilestoneEvents Example.gitlab;
     respond := respond Example.gitlab |}.

(** A provider without an access token. *)
Definition signedOut : State :=
  {| _pullRequestCache := ∅;
     _pendingReviewStore := ∅;
     _client := false;
     accessToken := None;
     tokenError := None;
     _gitlabUsername := None;
     notifications := [];
     calls := [] |}.

(** The answer to a [CreateNote] mutation: the note and the discussion it
    was added to. *)
Definition created : Value :=
  Obj [("createNote",
        Obj [("note",
              Obj [("id", Str "n9");
                   ("project",
                    Obj [("mergeRequest",
                          Obj [("discussions",
                                Obj [("nodes",
                                      Arr [Obj [("id", Str "d1");
                                                ("notes",
                                                 Obj [("nodes",
                                                       Arr [Obj [("id", Str "n9")]])])]])])])])])])].

(** A server that accepts every post and answers every mutation with
    [created]. *)
Definition accepting : Server :=
  {| getMergeRequests := getMergeRequests Example.gitlab;
     requestGetPullRequest := requestGetPullRequest Example.gitlab;
     getEvents := getEvents Example.gitlab;
     getResourceLabelEvents := getResourceLabelEvents Example.gitlab;
     getResourceMilestoneEvents := getResourceMilestoneEvents Example.gitlab;
     respond := fun _ c =>
       match c with
       | GRAPHQL _ _ => Answer created
       | _ => Answer (Obj [])
       end |}.

(** A listing of two pages whose second page is at a URL with a comma. *)
Definition commaUrl : string := "/projects/7/merge_requests?labels=bug,ui&page=2".

Definition commaLink : Link :=
  {| link_url := Example.baseUrl +:+ commaUrl; link_rel := "next" |}.

Definition commaServer : Server :=
  {| getMergeRequests := fun _ url =>
       if String.eqb url Example.firstUrl then
         Answer {| page_body := [Example.pr 1; Example.pr 2];
                   page_link := Some (renderLink commaLink) |}
       else if String.eqb url commaUrl then
         Answer {| page_body := [Example.pr 3]; page_link := None |}
       else Failure Example.down;
     requestGetPullRequest := requestGetPullRequest Example.pagedServer;
     getEvents := getEvents Example.pagedServer;
     getResourceLabelEvents := getResourceLabelEvents Example.pagedServer;
     getResourceMilestoneEvents := getResourceMilestoneEvents Example.pagedServer;
     respond := respond Example.pagedServer |}.

End Sample.

(** * Properties *)

(** ** Strings *)

Lemma append_cons (c : ascii) (s t : string) : String c s +:+ t = String c (s +:+ t).
Proof. reflexivity. Qed.

Lemma append_nil_l (s : string) : "" +:+ s = s.
Proof. reflexivity. Qed.

Lemma append_nil_r (s : string) : s +:+ "" = s.
Proof. induction s as [|c s IH]; [reflexivity|]. rewrite append_cons, IH. reflexivity. Qed.

Lemma append_assoc (s t u : string) : (s +:+ t) +:+ u = s +:+ (t +:+ u).
Proof.
  induction s as [|c s IH]; [reflexivity|].
  rewrite !append_cons, IH. reflexivity.
Qed.

Lemma length_append (s t : string) :
  String.length (s +:+ t) = (String.length s + String.length t)%nat.
Proof.
  induction s as [|c s IH]; [reflexivity|].
  rewrite append_cons. simpl. rewrite IH. reflexivity.
Qed.

Lemma append_inv_tail (s t : string) (c : ascii) :
  s +:+ String c "" = t +:+ String c "" -> s = t.
Proof.
  revert t. induction s as [|a s IH]; intros [|b t] H.
  - reflexivity.
  - rewrite append_cons in H. simpl in H. inversion H as [[Ha Hb]].
    destruct t; discriminate.
  - rewrite append_cons in H. simpl in H. inversion H as [[Ha Hb]].
    destruct s; discriminate.
  - rewrite !append_cons in H. inversion H as [[Ha Hb]].
    f_equal. apply IH. exact Hb.
Qed.

Lemma noChar_append (c : ascii) (s t : string) :
  Js.noChar c (s +:+ t) = Js.noChar c s && Js.noChar c t.
Proof.
  induction s as [|a s IH]; [reflexivity|].
  rewrite append_cons. simpl. rewrite IH. rewrite andb_assoc. reflexivity.
Qed.

Lemma split_noChar (c : ascii) (s : string) :
  Js.noChar c s = true -> Js.split c s = [s].
Proof.
  induction s as [|a s IH]; intros H; [reflexivity|].
  simpl in H. apply andb_true_iff in H as [Ha Hs].
  simpl. apply negb_true_iff in Ha. rewrite Ha, (IH Hs). reflexivity.
Qed.

Lemma split_append (c : ascii) (s t : string) :
  Js.noChar c s = true -> Js.split c (s +:+ String c t) = s :: Js.split c t.
Proof.
  induction s as [|a s IH]; intros H.
  - rewrite append_nil_l. simpl. rewrite Ascii.eqb_refl. reflexivity.
  - simpl in H. apply andb_true_iff in H as [Ha Hs].
    rewrite append_cons. simpl. apply negb_true_iff in Ha. rewrite Ha, (IH Hs).
    reflexivity.
Qed.

Lemma trimEnd_last (s : string) (c : ascii) :
  Js.isWhiteSpace c = false -> Js.trimEnd (s +:+ String c "") = s +:+ String c "".
Proof.
  intros Hc. induction s as [|a s IH].
  - rewrite append_nil_l. simpl. rewrite Hc. reflexivity.
  - rewrite append_cons. simpl. rewrite IH.
    destruct s; reflexivity.
Qed.

Lemma substring_prefix (s t : string) :
  String.substring 0 (String.length s) (s +:+ t) = s.
Proof.
  induction s as [|a s IH].
  - simpl. destruct (""+:+t); reflexivity.
  - rewrite append_cons. simpl. rewrite IH. reflexivity.
Qed.

Lemma prefix_append (s t : string) : String.prefix s (s +:+ t) = true.
Proof.
  induction s as [|a s IH].
  - simpl. destruct ("" +:+ t); reflexivity.
  - rewrite append_cons. simpl. destruct (ascii_dec a a); [exact IH|contradiction].
Qed.

Lemma skip_append (s t : string) : Js.skip (String.length s) (s +:+ t) = t.
Proof.
  induction s as [|a s IH]; [reflexivity|].
  rewrite append_cons. simpl. exact IH.
Qed.

Lemma replace_unfold (pat rep s : string) :
  Js.replace pat rep s
  = if String.prefix pat s then rep +:+ Js.skip (String.length pat) s
    else match s with
         | EmptyString => EmptyString
         | String c r => String c (Js.replace pat rep r)
         end.
Proof. destruct s; reflexivity. Qed.

Lemma replace_prefix (base rest : string) : Js.replace base "" (base +:+ rest) = rest.
Proof. rewrite replace_unfold, prefix_append, skip_append. reflexivity. Qed.

(** ** Pagination *)

Ltac norm_app := repeat (rewrite append_cons || rewrite append_nil_l).

Lemma trim_bracketed (pre u : string) :
  pre = "" \/ pre = " " ->
  Js.trim (pre +:+ "<" +:+ u +:+ ">") = "<" +:+ u +:+ ">".
Proof.
  intros Hpre. unfold Js.trim.
  assert (Js.trimStart (pre +:+ "<" +:+ u +:+ ">") = "<" +:+ u +:+ ">") as ->.
  { destruct Hpre as [-> | ->]; norm_app; reflexivity. }
  rewrite <- append_assoc. apply trimEnd_last. reflexivity.
Qed.

Lemma trim_rel (r : string) :
  Js.trim (" rel=" +:+ String Js.dquote (r +:+ String Js.dquote ""))
  = "rel=" +:+ String Js.dquote (r +:+ String Js.dquote "").
Proof.
  unfold Js.trim.
  assert (Js.trimStart (" rel=" +:+ String Js.dquote (r +:+ String Js.dquote ""))
          = "rel=" +:+ String Js.dquote (r +:+ String Js.dquote "")) as ->.
  { norm_app. reflexivity. }
  change ("rel=" +:+ String Js.dquote (r +:+ String Js.dquote ""))
    with (("rel=" +:+ String Js.dquote r) +:+ String Js.dquote "").
  apply trimEnd_last. reflexivity.
Qed.

Lemma rel_is_next (r : string) :
  String.eqb ("rel=" +:+ String Js.dquote (r +:+ String Js.dquote "")) relNext
  = String.eqb r "next".
Proof.
  unfold relNext. norm_app. simpl.
  destruct (String.eqb r "next") eqn:E.
  - apply String.eqb_eq in E. subst r. reflexivity.
  - apply String.eqb_neq in E. apply String.eqb_neq. intros H. apply E.
    apply (append_inv_tail _ _ Js.dquote). exact H.
Qed.

Lemma substring_bracketed (u : string) :
  Js.substring ("<" +:+ u +:+ ">") 1 (Z.of_nat (String.length ("<" +:+ u +:+ ">")) - 1) = u.
Proof.
  unfold Js.substring, Js.clamp. norm_app.
  set (s := String "<" (u +:+ ">")).
  assert (Hlen : String.length s = S (S (String.length u))).
  { subst s. simpl. rewrite length_append. simpl. lia. }
  rewrite Hlen.
  replace (Z.to_nat (Z.min (Z.max 0 (Z.min 1 (Z.of_nat (S (S (String.length u))))))
             (Z.max 0 (Z.min (Z.of_nat (S (S (String.length u))) - 1)
                         (Z.of_nat (S (S (String.length u)))))))) with 1%nat by lia.
  replace (Z.to_nat (Z.max (Z.max 0 (Z.min 1 (Z.of_nat (S (S (String.length u))))))
             (Z.max 0 (Z.min (Z.of_nat (S (S (String.length u))) - 1)
                         (Z.of_nat (S (S (String.length u))))))
           - Z.min (Z.max 0 (Z.min 1 (Z.of_nat (S (S (String.length u))))))
               (Z.max 0 (Z.min (Z.of_nat (S (S (String.length u))) - 1)
                           (Z.of_nat (S (S (String.length u))))))))
    with (String.length u) by lia.
  subst s. simpl. apply substring_prefix.
Qed.

Section NextPage.

Variable baseUrl : string.

Lemma nextPage_links_segment (pre : string) (l : Link) (rest : list string) :
  pre = "" \/ pre = " " ->
  wellFormedLink l = true ->
  nextPage_links baseUrl ((pre +:+ renderLink l) :: rest)
  = if isNext l then Ok (Some (Js.replace baseUrl "" (link_url l)))
    else nextPage_links baseUrl rest.
Proof.
  intros Hpre Hwf. unfold wellFormedLink, plain in Hwf.
  apply andb_true_iff in Hwf as [Hu Hr].
  apply andb_true_iff in Hu as [_ Hu]. apply andb_true_iff in Hr as [_ Hr].
  assert (Hsplit : Js.split ";" (pre +:+ renderLink l)
                   = [pre +:+ "<" +:+ link_url l +:+ ">";
                      " rel=" +:+ String Js.dquote (link_rel l +:+ String Js.dquote "")]).
  { unfold renderLink.
    replace (pre +:+ "<" +:+ link_url l +:+ ">; rel="
               +:+ String Js.dquote (link_rel l +:+ String Js.dquote ""))
      with ((pre +:+ "<" +:+ link_url l +:+ ">")
              +:+ String ";" (" rel=" +:+ String Js.dquote (link_rel l +:+ String Js.dquote ""))).
    2:{ rewrite !append_assoc. norm_app. reflexivity. }
    rewrite split_append.
    - rewrite split_noChar; [reflexivity|].
      norm_app. simpl. rewrite noChar_append, Hr. reflexivity.
    - rewrite !noChar_append, Hu.
      destruct Hpre as [-> | ->]; reflexivity. }
  simpl. rewrite Hsplit.
  rewrite trim_bracketed by exact Hpre.
  rewrite trim_rel, rel_is_next. fold (isNext l).
  destruct (isNext l); [|reflexivity].
  rewrite substring_bracketed. reflexivity.
Qed.

Lemma split_links (pre : string) (l : Link) (rest : list Link) :
  Js.noChar "," pre = true ->
  forallb wellFormedLink (l :: rest) = true ->
  Js.split "," (pre +:+ renderLinks (l :: rest))
  = (pre +:+ renderLink l) :: map (fun x => " " +:+ renderLink x) rest.
Proof.
  revert pre l. induction rest as [|l' rest IH]; intros pre l Hpre Hwf.
  - simpl. apply split_noChar.
    simpl in Hwf. rewrite andb_true_r in Hwf. unfold wellFormedLink, plain in Hwf.
    apply andb_true_iff in Hwf as [Hu Hr].
    apply andb_true_iff in Hu as [Hu _]. apply andb_true_iff in Hr as [Hr _].
    unfold renderLink. rewrite !noChar_append, Hpre, Hu. norm_app. simpl.
    rewrite noChar_append, Hr. reflexivity.
  - change (renderLinks (l :: l' :: rest))
      with (renderLink l +:+ ", " +:+ renderLinks (l' :: rest)).
    replace (pre +:+ renderLink l +:+ ", " +:+ renderLinks (l' :: rest))
      with ((pre +:+ renderLink l) +:+ String "," (" " +:+ renderLinks (l' :: rest))).
    2:{ rewrite !append_assoc. norm_app. reflexivity. }
    simpl in Hwf. apply andb_true_iff in Hwf as [Hl Hrest].
    rewrite split_append.
    + rewrite IH; [reflexivity|reflexivity|exact Hrest].
    + unfold wellFormedLink, plain in Hl.
      apply andb_true_iff in Hl as [Hu Hr].
      apply andb_true_iff in Hu as [Hu _]. apply andb_true_iff in Hr as [Hr _].
      unfold renderLink. rewrite !noChar_append, Hpre, Hu. norm_app. simpl.
      rewrite noChar_append, Hr. reflexivity.
Qed.

Lemma nextPage_links_rest (rest : list Link) :
  forallb wellFormedLink rest = true ->
  nextPage_links baseUrl (map (fun x => " " +:+ renderLink x) rest)
  = Ok (advertised baseUrl rest).
Proof.
  induction rest as [|l rest IH]; intros Hwf; [reflexivity|].
  simpl in Hwf. apply andb_true_iff in Hwf as [Hl Hrest].
  change (map (fun x => " " +:+ renderLink x) (l :: rest))
    with ((" " +:+ renderLink l) :: map (fun x => " " +:+ renderLink x) rest).
  rewrite nextPage_links_segment by (auto).
  unfold advertised. simpl. destruct (isNext l); [reflexivity|].
  rewrite IH by exact Hrest. reflexivity.
Qed.

Lemma renderLink_not_blank (l : Link) (rest : string) :
  (String.length (Js.trim (renderLink l +:+ rest)) =? 0)%nat = false.
Proof.
  unfold renderLink, Js.trim. norm_app. simpl.
  match goal with |- context [Js.trimEnd ?x] => destruct (Js.trimEnd x) end; reflexivity.
Qed.

(** On a well-formed header [nextPage] returns the advertised page. *)
Lemma nextPage_wellFormed (links : list Link) :
  forallb wellFormedLink links = true ->
  nextPage baseUrl (Some (renderLinks links)) = Ok (advertised baseUrl links).
Proof.
  intros Hwf. unfold nextPage. destruct links as [|l rest]; [reflexivity|].
  assert (Hnb : (String.length (Js.trim (renderLinks (l :: rest))) =? 0)%nat = false).
  { destruct rest as [|l' rest].
    - simpl. rewrite <- (append_nil_r (renderLink l)). apply renderLink_not_blank.
    - change (renderLinks (l :: l' :: rest))
        with (renderLink l +:+ ", " +:+ renderLinks (l' :: rest)).
      apply renderLink_not_blank. }
  rewrite Hnb.
  rewrite <- (append_nil_l (renderLinks (l :: rest))).
  rewrite split_links by (auto).
  rewrite nextPage_links_segment by (auto; simpl in Hwf; apply andb_true_iff in Hwf; tauto).
  simpl in Hwf. apply andb_true_iff in Hwf as [Hl Hrest].
  unfold advertised. simpl. destruct (isNext l); [reflexivity|].
  rewrite nextPage_links_rest by exact Hrest. reflexivity.
Qed.

End NextPage.

Lemma advertised_none (baseUrl : string) (links : list Link) :
  advertised baseUrl links = None <-> forallb (fun l => negb (isNext l)) links = true.
Proof.
  unfold advertised. induction links as [|l links IH]; simpl.
  - tauto.
  - destruct (isNext l); simpl.
    + split; discriminate.
    + exact IH.
Qed.

Lemma withCalls_record (st : State) (c : Call) (more : list Call) :
  withCalls (record st c) (calls (record st c) ++ more)
  = withCalls st (calls st ++ c :: more).
Proof. unfold record, withCalls. simpl. rewrite <- app_assoc. reflexivity. Qed.

Lemma walk_pages (server : Server) (baseUrl : string) (pages : list ServedPage) :
  forall (fuel : nat) (st : State) (url : string) (acc : list GitLabPullRequest),
    (length pages <= fuel)%nat ->
    serves server baseUrl (calls st) url pages ->
    getPullRequestsByState_loop server baseUrl fuel st url acc
    = Some (acc ++ concat (map served_items pages),
            withCalls st (calls st ++ requests baseUrl url pages))
    /\ length (requests baseUrl url pages) = length pages.
Proof.
  induction pages as [|p rest IH]; intros fuel st url acc Hfuel Hserves.
  - destruct Hserves.
  - destruct fuel as [|fuel]; [simpl in Hfuel; lia|].
    destruct Hserves as (Hget & Hwf & Hnext).
    simpl getPullRequestsByState_loop. unfold get_mergeRequests.
    rewrite Hget. simpl page_link. simpl page_body.
    rewrite (nextPage_wellFormed baseUrl _ Hwf).
    destruct rest as [|q rest'].
    + apply (advertised_none baseUrl) in Hnext as Hnone.
      simpl requests. rewrite Hnone. simpl.
      rewrite app_nil_r. split; reflexivity.
    + destruct Hnext as (next & Hne & Hfind & Hrest).
      assert (Hadv : advertised baseUrl (served_links p) = Some next).
      { unfold advertised. rewrite Hfind. simpl. rewrite replace_prefix. reflexivity. }
      rewrite Hadv.
      apply String.eqb_neq in Hne. rewrite Hne.
      destruct (IH fuel (record st (GET url)) next (acc ++ served_items p)) as [Hloop Hlen].
      * simpl in Hfuel. simpl. lia.
      * exact Hrest.
      * rewrite Hloop. simpl requests. rewrite Hadv.
        rewrite withCalls_record. simpl concat. rewrite <- app_assoc.
        split; [reflexivity|].
        change (S (length (requests baseUrl next (q :: rest'))) = S (length (q :: rest'))).
        rewrite Hlen. reflexivity.
Qed.

(** C4, as the code has it.  Take [Link] headers made of segments
    [<url>; rel="name"] joined by a comma and a space, with no comma and no
    semicolon inside a url or a name.  When the server serves a chain of N
    pages with such headers, each but the last having as its first
    [rel="next"] segment the base URL followed by the nonempty address of
    the next page, and the last having no [rel="next"] segment, the loop of
    [_getPullRequestsByState] ends (N units of fuel are enough), collects
    exactly the items of the N pages in page order, which the method returns
    with [number] set to [iid], and sends exactly N requests; and on such a
    header [nextPage] returns undefined exactly when no segment has
    [rel="next"], as it does when the header is absent. *)
Theorem pagination_walks_every_page (server : Server) (baseUrl : string)
    (pages : list ServedPage) (st : State) (remotePath state : string) :
  serves server baseUrl (calls st) (mergeRequestsUrl remotePath state) pages ->
  let url := mergeRequestsUrl remotePath state in
  let st' := withCalls st (calls st ++ requests baseUrl url pages) in
  getPullRequestsByState_loop server baseUrl (length pages) st url []
  = Some (concat (map served_items pages), st')
  /\ _getPullRequestsByState server baseUrl (length pages) st remotePath state
     = Some (map setNumber (concat (map served_items pages)), st')
  /\ length (calls st') = (length (calls st) + length pages)%nat
  /\ (forall links : list Link,
        forallb wellFormedLink links = true ->
        (nextPage baseUrl (Some (renderLinks links)) = Ok None
         <-> forallb (fun l => negb (isNext l)) links = true))
  /\ nextPage baseUrl None = Ok None.
Proof.
  intros Hserves url st'.
  destruct (walk_pages server baseUrl pages (length pages) st url [] (le_n _) Hserves)
    as [Hloop Hlen].
  simpl app in Hloop.
  split; [exact Hloop|].
  split.
  { unfold _getPullRequestsByState. fold url. rewrite Hloop. reflexivity. }
  split.
  { subst st'. simpl. rewrite length_app, Hlen. reflexivity. }
  split; [|reflexivity].
  intros links Hwf. rewrite (nextPage_wellFormed baseUrl links Hwf).
  split.
  - intros H. apply (advertised_none baseUrl). congruence.
  - intros H. apply (advertised_none baseUrl) in H. rewrite H. reflexivity.
Qed.

Lemma pagination_walks_every_page_witness :
  serves Example.pagedServer Example.baseUrl (calls Example.idle)
    (mergeRequestsUrl "group/proj" "opened") Example.pages
  /\ _getPullRequestsByState Example.pagedServer Example.baseUrl 3 Example.idle
       "group/proj" "opened"
     = Some (map setNumber (map Example.pr [1; 2; 3; 4; 5]),
             withCalls Example.idle
               [GET Example.firstUrl; GET Example.secondUrl; GET Example.thirdUrl]).
Proof.
  assert (H : serves Example.pagedServer Example.baseUrl (calls Example.idle)
                (mergeRequestsUrl "group/proj" "opened") Example.pages).
  { simpl. split; [reflexivity|]. split; [reflexivity|].
    exists Example.secondUrl. split; [discriminate|]. split; [reflexivity|].
    split; [reflexivity|]. split; [reflexivity|].
    exists Example.thirdUrl. split; [discriminate|]. split; [reflexivity|].
    split; [reflexivity|]. split; reflexivity. }
  split; [exact H|].
  exact (proj1 (proj2 (pagination_walks_every_page Example.pagedServer Example.baseUrl
                         Example.pages Example.idle "group/proj" "opened" H))).
Defined.

(** C4, as stated, fails.  [nextPage] cuts the header at every comma and
    every segment at its semicolons.  A page that advertises the next one at
    a URL with a comma makes [nextPage] throw, and the walk ends with the
    first page after one request.  A header with no [rel="next"] relation
    whose segment has no parameter makes [nextPage] throw where undefined
    is claimed; and a next relation written without quotes is not seen. *)
Lemma pagination_counterexample :
  getMergeRequests Sample.commaServer [] Example.firstUrl
  = Answer {| page_body := [Example.pr 1; Example.pr 2];
              page_link := Some (renderLink {| link_url := Example.baseUrl +:+ Sample.commaUrl;
                                               link_rel := "next" |}) |}
  /\ getMergeRequests Sample.commaServer [GET Example.firstUrl] Sample.commaUrl
     = Answer {| page_body := [Example.pr 3]; page_link := None |}
  /\ nextPage Example.baseUrl (Some (renderLink Sample.commaLink)) = Throw TypeError
  /\ _getPullRequestsByState Sample.commaServer Example.baseUrl 2 Example.idle
       "group/proj" "opened"
     = Some (map setNumber [Example.pr 1; Example.pr 2],
             withCalls Example.idle [GET Example.firstUrl])
  /\ nextPage Example.baseUrl (Some "<https://gitlab.com/api/v4/projects?page=2>")
     = Throw TypeError
  /\ nextPage Example.baseUrl (Some "<https://gitlab.com/api/v4/projects?page=2>; rel=next")
     = Ok None.
Proof. repeat (split; [vm_compute; reflexivity|]). vm_compute. reflexivity. Qed.

(** ** Identifiers *)

Lemma unquoteChars_quoteChar (c : ascii) (rest : string) :
  JSON.unquoteChars (JSON.quoteChar c +:+ rest)
  = JSON.cons_char c (JSON.unquoteChars rest).
Proof. destruct c as [[] [] [] [] [] [] [] []]; reflexivity. Qed.

Lemma unquoteChars_quoteChars (s rest : string) :
  JSON.unquoteChars (JSON.quoteChars s +:+ String Js.dquote rest) = Some (s, rest).
Proof.
  induction s as [|c s IH].
  - reflexivity.
  - simpl JSON.quoteChars. rewrite append_assoc, unquoteChars_quoteChar, IH. reflexivity.
Qed.

Lemma unquote_quote (s rest : string) :
  JSON.unquote (JSON.quote s +:+ rest) = Some (s, rest).
Proof.
  unfold JSON.quote. rewrite append_cons. simpl JSON.unquote.
  rewrite append_assoc. norm_app. apply unquoteChars_quoteChars.
Qed.

Lemma parseMembers_S (fuel : nat) (s : string) :
  JSON.parseMembers (S fuel) s
  = match JSON.unquote s with
    | Some (k, String ":" r) =>
        match JSON.unquote r with
        | Some (v, String "}" EmptyString) => Some [(k, v)]
        | Some (v, String "," r') =>
            match JSON.parseMembers fuel r' with
            | Some rest => Some ((k, v) :: rest)
            | None => None
            end
        | _ => None
        end
    | _ => None
    end.
Proof. reflexivity. Qed.

Lemma parseMembers_members (fields : list (string * string)) :
  forall fuel : nat,
    fields <> [] ->
    (length fields <= fuel)%nat ->
    JSON.parseMembers fuel (JSON.members fields +:+ "}") = Some fields.
Proof.
  induction fields as [|[k v] rest IH]; intros fuel Hne Hfuel; [contradiction|].
  destruct fuel as [|fuel]; [simpl in Hfuel; lia|].
  rewrite parseMembers_S.
  destruct rest as [|f rest].
  - change (JSON.members [(k, v)]) with (JSON.quote k +:+ ":" +:+ JSON.quote v).
    rewrite !append_assoc, unquote_quote. norm_app.
    rewrite unquote_quote. reflexivity.
  - change (JSON.members ((k, v) :: f :: rest))
      with (JSON.quote k +:+ ":" +:+ JSON.quote v +:+ "," +:+ JSON.members (f :: rest)).
    rewrite !append_assoc, unquote_quote. norm_app.
    rewrite unquote_quote. norm_app.
    rewrite IH; [reflexivity|discriminate|simpl in *; lia].
Qed.

Lemma members_length (fields : list (string * string)) :
  (length fields <= String.length (JSON.members fields))%nat.
Proof.
  induction fields as [|[k v] rest IH]; [simpl; lia|].
  destruct rest as [|f rest].
  - simpl JSON.members. unfold JSON.quote. norm_app. simpl. lia.
  - change (JSON.members ((k, v) :: f :: rest))
      with (JSON.quote k +:+ ":" +:+ JSON.quote v +:+ "," +:+ JSON.members (f :: rest)).
    rewrite !length_append. unfold JSON.quote at 1. simpl in *. lia.
Qed.

(** [JSON.parse] undoes [JSON.stringify]. *)
Lemma parse_stringify (fields : list (string * string)) :
  JSON.parse (JSON.stringify fields) = Some fields.
Proof.
  destruct fields as [|[k v] rest]; [reflexivity|].
  unfold JSON.stringify. norm_app.
  assert (Hhead : exists r, JSON.members ((k, v) :: rest) +:+ "}" = String Js.dquote r).
  { destruct rest; simpl JSON.members; unfold JSON.quote; norm_app; eauto. }
  destruct Hhead as [r Hr].
  unfold JSON.parse. rewrite Hr.
  transitivity (JSON.parseMembers (String.length (String Js.dquote r)) (String Js.dquote r));
    [reflexivity|].
  rewrite <- Hr.
  apply parseMembers_members; [discriminate|].
  rewrite length_append. pose proof (members_length ((k, v) :: rest)). lia.
Qed.

Lemma split_bang (p i : string) :
  Js.noChar "!" p = true -> Js.noChar "!" i = true ->
  Js.split "!" (p +:+ "!" +:+ i) = [p; i].
Proof.
  intros Hp Hi. norm_app. rewrite split_append by exact Hp.
  rewrite split_noChar by exact Hi. reflexivity.
Qed.

(** C3.  Identifier round-trip.  For every id and every full reference
    [p!i] with exactly one [!], decoding the token [JSON.stringify({ id,
    full })] with [parseId] gives back the project path [p] and the internal
    id [i], and the id read from the token is the original one; the same
    holds for the token [getRepoInfo] writes with the members in the other
    order. *)
Theorem identifier_round_trip (id p i : string) :
  Js.noChar "!" p = true ->
  Js.noChar "!" i = true ->
  let full := p +:+ "!" +:+ i in
  parseId (mergeRequestFullId id full) = Ok {| projectFullPath := p; iid := Some i |}
  /\ actualPullRequestId (mergeRequestFullId id full) = Ok (Some id)
  /\ parseId (repoInfoId full id) = Ok {| projectFullPath := p; iid := Some i |}
  /\ actualPullRequestId (repoInfoId full id) = Ok (Some id).
Proof.
  intros Hp Hi full.
  unfold parseId, actualPullRequestId, JSON_parse, mergeRequestFullId, repoInfoId.
  rewrite !parse_stringify.
  unfold splitFull. simpl JSON.property. cbv iota beta.
  unfold full. rewrite split_bang by assumption.
  repeat split; reflexivity.
Qed.

Lemma identifier_round_trip_witness :
  Js.noChar "!" "group/proj" = true
  /\ Js.noChar "!" "3" = true
  /\ parseId (mergeRequestFullId "gid://gitlab/MergeRequest/7" "group/proj!3")
     = Ok {| projectFullPath := "group/proj"; iid := Some "3" |}.
Proof.
  split; [reflexivity|]. split; [reflexivity|].
  exact (proj1 (identifier_round_trip "gid://gitlab/MergeRequest/7" "group/proj" "3"
                  eq_refl eq_refl)).
Defined.

(** ** Error classification *)

Lemma includes_truthy (pat m : string) (ex : Ex) :
  ex_message ex = Some m ->
  pat <> "" ->
  messageMatches pat ex = Js.includes pat m.
Proof.
  intros Hm Hpat. unfold messageMatches. rewrite Hm. simpl.
  destruct m as [|c m]; simpl.
  - destruct pat; [contradiction|reflexivity].
  - reflexivity.
Qed.

(** C7, as the code has it.  A failure whose nonempty message contains
    [ECONNRESET] is a network error, whatever its response; a failure whose
    response lists an error of type [FORBIDDEN] is an invalid access token
    when its message matches neither a network pattern nor the 404 pattern,
    which are tested first; a failure that matches nothing, such as one with
    the message [totally unexpected] and no response, is not classified, and
    [query] throws that same failure again, recording no token error. *)
Theorem error_classification :
  (forall (ex : Ex) (m : string),
      ex_message ex = Some m ->
      Js.includes "ECONNRESET" m = true ->
      _isSuppressedException ex = Some NetworkError)
  /\ (forall ex : Ex,
        forbidden ex = true ->
        existsb (fun e => messageMatches e ex) networkErrors = false ->
        messageMatches "GraphQL Error (Code: 404)" ex = false ->
        _isSuppressedException ex = Some AccessTokenInvalid)
  /\ (forall ex : Ex,
        existsb (fun e => messageMatches e ex) networkErrors = false ->
        messageMatches "GraphQL Error (Code: 404)" ex = false ->
        badCredentials ex = false ->
        forbidden ex = false ->
        _isSuppressedException ex = None
        /\ forall (now : Z) (T : Type) (operation : string) (variables : list (string * Value))
                  (ask : list Call -> Reply T) (st : State),
             tokenError st = None ->
             truthy (accessToken st) = true ->
             ask (calls st) = Failure ex ->
             query now operation variables ask st
             = (Throw (Raised ex),
                record (if _client st then st else withClient st true)
                       (GRAPHQL operation variables)))
  /\ _isSuppressedException {| ex_message := Some "totally unexpected"; ex_response := None |}
     = None.
Proof.
  split; [|split; [|split]].
  - intros ex m Hm Hinc. unfold _isSuppressedException.
    assert (H : existsb (fun e => messageMatches e ex) networkErrors = true).
    { apply existsb_exists. exists "ECONNRESET". split.
      - unfold networkErrors. simpl. tauto.
      - rewrite (includes_truthy _ m) by (auto; discriminate). exact Hinc. }
    rewrite H. reflexivity.
  - intros ex Hf Hnet H404. unfold _isSuppressedException.
    rewrite Hnet, H404, Hf, orb_true_r. reflexivity.
  - intros ex Hnet H404 Hbad Hf.
    assert (Hnone : _isSuppressedException ex = None).
    { unfold _isSuppressedException. rewrite Hnet, H404, Hbad, Hf. reflexivity. }
    split; [exact Hnone|].
    intros now T operation variables ask st Hte Htok Hask.
    unfold query. rewrite Hte. unfold client.
    assert (Htok' : truthy (accessToken (if _client st then st else withClient st true)) = true).
    { destruct (_client st); exact Htok. }
    rewrite Htok'.
    assert (Hcalls : calls (if _client st then st else withClient st true) = calls st).
    { destruct (_client st); reflexivity. }
    rewrite Hcalls, Hask. unfold query_catch. rewrite Hnone. reflexivity.
  - reflexivity.
Qed.

Lemma error_classification_witness :
  _isSuppressedException Example.exReset = Some NetworkError
  /\ _isSuppressedException Example.exForbidden = Some AccessTokenInvalid
  /\ _isSuppressedException Example.exUnexpected = None.
Proof.
  split; [|split].
  - apply (proj1 error_classification Example.exReset
             "request failed, reason: read ECONNRESET"); reflexivity.
  - apply (proj1 (proj2 error_classification) Example.exForbidden); reflexivity.
  - apply (proj1 (proj2 (proj2 error_classification)) Example.exUnexpected); reflexivity.
Defined.

(** C7, as stated, fails: a failure with a [FORBIDDEN] error entry whose
    message also matches [ECONNRESET] is classified as a network error, not
    as an invalid access token. *)
Lemma error_classification_counterexample :
  forbidden Example.exResetForbidden = true
  /\ _isSuppressedException Example.exResetForbidden = Some NetworkError
  /\ _isSuppressedException Example.exResetForbidden <> Some AccessTokenInvalid.
Proof. split; [reflexivity | split; [reflexivity | discriminate]]. Qed.

(** ** The timeline *)




Lemma sort_insert_Permutation {A} (cmp : A -> A -> Z) (x : A) (l : list A) :
  sort_insert cmp x l ≡ₚ x :: l.
Proof.
  induction l as [|y l IH]; simpl; [reflexivity|].
  destruct (cmp x y <=? 0); [reflexivity|].
  rewrite IH. apply Permutation_swap.
Qed.

Lemma sort_Permutation {A} (cmp : A -> A -> Z) (l : list A) : sort cmp l ≡ₚ l.
Proof.
  induction l as [|x l IH]; simpl; [reflexivity|].
  rewrite sort_insert_Permutation, IH. reflexivity.
Qed.







(** ** Discussion notes *)

Lemma annotate_id (fullId : string) (n : Note) : note_id (annotate fullId n) = note_id n.
Proof. unfold annotate. destruct (truthy (note_discussion_id n)); reflexivity. Qed.

Lemma filter_replies (fullId : string) (n0 : Note) (rest : list Note) :
  Forall (fun n => note_id n <> note_id n0) rest ->
  List.filter (fun x => negb (String.eqb (note_id x) (note_id n0)))
    (map (annotate fullId) rest)
  = map (annotate fullId) rest.
Proof.
  induction 1 as [|n rest Hn Hrest IH]; [reflexivity|].
  simpl. rewrite annotate_id. apply String.eqb_neq in Hn. rewrite Hn. simpl.
  rewrite IH. reflexivity.
Qed.

(** C5, as the code has it.  For a discussion whose notes are
    [n0, n1, ..., nk] and in which no later note has the id of [n0], the
    assembled discussion carries exactly one note, [n0], and the replies of
    [n0] are [n1, ..., nk] in their order; every note is the one the server
    sent, with [databaseId] and [mergeRequestIdComputed] filled in when it
    names its discussion. *)
Theorem discussion_note_splitting (fullId : string) (d : RawDiscussion)
    (n0 : Note) (rest : list Note) :
  raw_notes d = Some (n0 :: rest) ->
  Forall (fun n => note_id n <> note_id n0) rest ->
  disc_notes (splitNotes fullId d)
  = Some [ {| head := annotate fullId n0;
              replies := Some (map (annotate fullId) rest) |} ].
Proof.
  intros Hnotes Hids. unfold splitNotes. rewrite Hnotes. simpl.
  rewrite annotate_id, String.eqb_refl. simpl.
  rewrite filter_replies by exact Hids. reflexivity.
Qed.

Lemma discussion_note_splitting_witness :
  raw_notes Example.thread
  = Some (Example.note "5" "2021-03-01T10:00:00Z"
            :: [ Example.note "6" "2021-03-01T11:00:00Z";
                 Example.note "7" "2021-03-01T12:00:00Z" ])
  /\ Forall (fun n => note_id n <> note_id (Example.note "5" "2021-03-01T10:00:00Z"))
       [ Example.note "6" "2021-03-01T11:00:00Z"; Example.note "7" "2021-03-01T12:00:00Z" ]
  /\ disc_notes (splitNotes "token" Example.thread)
     = Some [ {| head := annotate "token" (Example.note "5" "2021-03-01T10:00:00Z");
                 replies :=
                   Some (map (annotate "token")
                           [ Example.note "6" "2021-03-01T11:00:00Z";
                             Example.note "7" "2021-03-01T12:00:00Z" ]) |} ].
Proof.
  assert (Hids : Forall (fun n => note_id n <> note_id (Example.note "5" "2021-03-01T10:00:00Z"))
                   [ Example.note "6" "2021-03-01T11:00:00Z";
                     Example.note "7" "2021-03-01T12:00:00Z" ]).
  { repeat constructor; discriminate. }
  split; [reflexivity|]. split; [exact Hids|].
  exact (discussion_note_splitting "token" Example.thread _ _ eq_refl Hids).
Defined.

(** C5, as stated, fails: when the second note has the id of the first, the
    replies of the first note are empty, not the second note. *)
Lemma discussion_note_splitting_counterexample :
  raw_notes Example.twins
  = Some [ Example.note "5" "2021-03-01T10:00:00Z"; Example.note "5" "2021-03-01T11:00:00Z" ]
  /\ disc_notes (splitNotes "token" Example.twins)
     = Some [ {| head := annotate "token" (Example.note "5" "2021-03-01T10:00:00Z");
                 replies := Some [] |} ]
  /\ disc_notes (splitNotes "token" Example.twins)
     <> Some [ {| head := annotate "token" (Example.note "5" "2021-03-01T10:00:00Z");
                  replies := Some [annotate "token" (Example.note "5" "2021-03-01T11:00:00Z")] |} ].
Proof. split; [reflexivity | split; [reflexivity | discriminate]]. Qed.

(** ** What operations leave untouched *)

Section Preservation.

Context {X : Type} (f : State -> X) (Hf : localTo f).

Lemma preserves_ret {A} (a : A) : preserves f (ret a).
Proof. intros st. reflexivity. Qed.

Lemma preserves_throw {A} (t : Thrown) : preserves f (@throw A t).
Proof. intros st. reflexivity. Qed.

Lemma preserves_lift {A} (r : Result A) : preserves f (lift r).
Proof. intros st. reflexivity. Qed.

Lemma preserves_bind {A B} (m : M A) (k : A -> M B) :
  preserves f m -> (forall a, preserves f (k a)) -> preserves f (bind m k).
Proof.
  intros Hm Hk st. unfold bind. specialize (Hm st).
  destruct (m st) as [[a|t] st1]; simpl in *.
  - rewrite Hk. exact Hm.
  - exact Hm.
Qed.

Lemma preserves_catch {A} (m : M A) (h : Thrown -> M A) :
  preserves f m -> (forall t, preserves f (h t)) -> preserves f (catch m h).
Proof.
  intros Hm Hh st. unfold catch. specialize (Hm st).
  destruct (m st) as [[a|t] st1]; simpl in *.
  - exact Hm.
  - rewrite Hh. exact Hm.
Qed.

Lemma preserves_modify (g : State -> State) :
  (forall st, f (g st) = f st) -> preserves f (modify g).
Proof. intros Hg st. apply Hg. Qed.

Lemma preserves_client : preserves f client.
Proof.
  intros st. unfold client. destruct Hf as [Hc _].
  destruct (_client st); destruct (truthy _); simpl; auto.
Qed.

Lemma preserves_rest (server : Server) (c : Call) : preserves f (rest server c).
Proof.
  intros st. unfold rest, record. destruct Hf as [_ Hh].
  destruct (respond server (calls st) c); simpl; apply Hh.
Qed.

Lemma preserves_mutate (server : Server) (operation : string)
    (variables : list (string * Value)) :
  preserves f (mutate server operation variables).
Proof.
  unfold mutate. apply preserves_bind; [apply preserves_client|].
  intros _ st. unfold record. destruct Hf as [_ Hh].
  destruct (respond server (calls st) _); simpl; apply Hh.
Qed.

Lemma preserves_orUndefined {A} (m : M A) : preserves f m -> preserves f (orUndefined m).
Proof.
  intros Hm. unfold orUndefined. apply preserves_catch.
  - apply preserves_bind; [exact Hm|]. intros a. apply preserves_ret.
  - intros t. apply preserves_ret.
Qed.

End Preservation.

Lemma cache_local : localTo _pullRequestCache.
Proof. split; reflexivity. Qed.

Lemma pending_local : localTo _pendingReviewStore.
Proof. split; reflexivity. Qed.

Ltac preserve :=
  repeat first
    [ apply preserves_ret
    | apply preserves_throw
    | apply preserves_lift
    | apply preserves_client; (apply cache_local || apply pending_local)
    | apply preserves_rest; (apply cache_local || apply pending_local)
    | apply preserves_mutate; (apply cache_local || apply pending_local)
    | apply preserves_orUndefined
    | apply preserves_modify; intros; reflexivity
    | apply preserves_bind; [|intros ?]
    | apply preserves_catch; [|intros ?]
    | match goal with
      | |- preserves _ (match ?x with _ => _ end) => destruct x
      | |- preserves _ (if ?x then _ else _) => destruct x
      | |- preserves _ (let '(_, _) := ?x in _) => destruct x
      end ].

Lemma createCommitComment_pending (server : Server) (request : InlineCommentRequest) :
  preserves _pendingReviewStore (createCommitComment server request).
Proof. unfold createCommitComment. preserve. Qed.

Lemma postStaged_pending (server : Server) (pullRequestId : string) (comments : list Pending) :
  preserves _pendingReviewStore (postStaged server pullRequestId comments).
Proof.
  induction comments as [|c comments IH]; simpl.
  - preserve.
  - apply preserves_bind; [|intros _; exact IH].
    unfold createPullRequestInlineComment.
    apply preserves_catch; [|intros ?; apply preserves_ret].
    apply preserves_bind; [apply createCommitComment_pending|intros ?; apply preserves_ret].
Qed.

Lemma createPullRequestComment_pending (server : Server) (pullRequestId text : string) :
  preserves _pendingReviewStore (createPullRequestComment server pullRequestId text).
Proof. unfold createPullRequestComment. preserve. Qed.

Lemma createPullRequestComment_cache (server : Server) (pullRequestId text : string) :
  preserves _pullRequestCache (createPullRequestComment server pullRequestId text).
Proof. unfold createPullRequestComment. preserve. Qed.

Lemma setLocked_cache (server : Server) (locked : bool) (pullRequestId : string) :
  preserves _pullRequestCache (setLocked server locked pullRequestId).
Proof. unfold setLocked. preserve. Qed.

Lemma mergePullRequest_cache (server : Server) (pullRequestId message : string)
    (deleteSourceBranch squashCommits : option bool) :
  preserves _pullRequestCache
    (mergePullRequest server pullRequestId message deleteSourceBranch squashCommits).
Proof. unfold mergePullRequest. preserve. Qed.

Lemma toggleMilestoneOnPullRequest_cache (server : Server) (pullRequestId milestoneId : string) :
  preserves _pullRequestCache (toggleMilestoneOnPullRequest server pullRequestId milestoneId).
Proof. unfold toggleMilestoneOnPullRequest. preserve. Qed.

Lemma setWorkInProgressOnPullRequest_cache (server : Server) (pullRequestId : string)
    (onOff : bool) :
  preserves _pullRequestCache (setWorkInProgressOnPullRequest server pullRequestId onOff).
Proof. unfold setWorkInProgressOnPullRequest. preserve. Qed.

Lemma setLabelOnPullRequest_cache (server : Server) (pullRequestId : string)
    (labelIds : list string) :
  preserves _pullRequestCache (setLabelOnPullRequest server pullRequestId labelIds).
Proof. unfold setLabelOnPullRequest. preserve. Qed.

Lemma togglePullRequestApproval_cache (server : Server) (pullRequestId : string)
    (approve : bool) :
  preserves _pullRequestCache (togglePullRequestApproval server pullRequestId approve).
Proof. unfold togglePullRequestApproval. preserve. Qed.

(** ** Submitting a review *)

Lemma prop_throws (name : string) (v : Value) (t : Thrown) :
  prop name v = Throw t -> t = TypeError.
Proof. destruct v; simpl; congruence. Qed.

Lemma path_throws (names : list string) (v : Value) (t : Thrown) :
  path names v = Throw t -> t = TypeError.
Proof.
  revert v. induction names as [|n names IH]; intros v; simpl; [congruence|].
  destruct (prop n v) eqn:E.
  - apply IH.
  - intros H. injection H as <-. eapply prop_throws. exact E.
Qed.

Lemma items_throws (v : Value) (t : Thrown) : items v = Throw t -> t = TypeError.
Proof. destruct v; simpl; congruence. Qed.

Lemma find_throws (f : Value -> Result bool) (xs : list Value) (t : Thrown) :
  (forall x t', f x = Throw t' -> t' = TypeError) ->
  find_ f xs = Throw t -> t = TypeError.
Proof.
  intros Hf. induction xs as [|x xs IH]; simpl; [congruence|].
  destruct (f x) as [[|]|t'] eqn:E; [congruence|exact IH|].
  intros H. injection H as <-. eapply Hf. exact E.
Qed.

Lemma addedNode_throws (response : Value) (t : Thrown) :
  addedNode response = Throw t -> t = TypeError.
Proof.
  unfold addedNode.
  destruct (path ["createNote"; "note"; "id"] response) as [noteId|t1] eqn:E1.
  2:{ intros H. injection H as <-. eapply path_throws. exact E1. }
  destruct (path ["createNote"; "note"; "project"; "mergeRequest"; "discussions"; "nodes"]
              response) as [nodes|t2] eqn:E2.
  2:{ intros H. injection H as <-. eapply path_throws. exact E2. }
  destruct (items nodes) as [ds|t3] eqn:E3.
  2:{ intros H. injection H as <-. eapply items_throws. exact E3. }
  apply find_throws. intros d t'.
  destruct (path ["notes"; "nodes"] d) as [ns|t4] eqn:E4.
  2:{ intros H. injection H as <-. eapply path_throws. exact E4. }
  destruct (items ns) as [ns'|t5] eqn:E5.
  2:{ intros H. injection H as <-. eapply items_throws. exact E5. }
  match goal with
  | |- context [find_ ?g ns'] => destruct (find_ g ns') as [found|t6] eqn:E6
  end; [intros H; discriminate H|].
  intros H. injection H as <-. eapply find_throws; [|exact E6].
  intros n t''. cbv beta. destruct (prop "id" n) eqn:E7; [intros H; discriminate H|].
  intros H. injection H as <-. eapply prop_throws. exact E7.
Qed.

Lemma JSON_parse_throws (s : string) (t : Thrown) : JSON_parse s = Throw t -> t = SyntaxError.
Proof. unfold JSON_parse. destruct (JSON.parse s); congruence. Qed.

Lemma splitFull_throws (parsed : list (string * string)) (t : Thrown) :
  splitFull parsed = Throw t -> t = TypeError.
Proof. unfold splitFull. destruct (JSON.property "full" parsed); congruence. Qed.

Lemma identify_throws (pullRequestId : string) (t : Thrown) :
  identify pullRequestId = Throw t -> t = SyntaxError \/ t = TypeError.
Proof.
  unfold identify. destruct (String.eqb pullRequestId ""); [congruence|].
  destruct (JSON_parse pullRequestId) eqn:E1.
  - destruct (splitFull a) eqn:E2; [congruence|].
    intros H. injection H as <-. right. eapply splitFull_throws. exact E2.
  - intros H. injection H as <-. left. eapply JSON_parse_throws. exact E1.
Qed.

Lemma actualPullRequestId_throws (pullRequestId : string) (t : Thrown) :
  actualPullRequestId pullRequestId = Throw t -> t = SyntaxError.
Proof.
  unfold actualPullRequestId. destruct (String.eqb pullRequestId ""); [congruence|].
  destruct (JSON_parse pullRequestId) eqn:E1; [congruence|].
  intros H. injection H as <-. eapply JSON_parse_throws. exact E1.
Qed.

Lemma createPullRequestComment_valid (server : Server) (pullRequestId text : string) :
  neverThrows (ErrorOf "Invalid eventType")
    (createPullRequestComment server pullRequestId text).
Proof.
  intros st. unfold createPullRequestComment, bind, lift.
  destruct (identify pullRequestId) as [[noteableId p]|t] eqn:E; simpl.
  2:{ apply identify_throws in E as [-> | ->]; discriminate. }
  destruct p as [[path0 [iid0|]]|]; simpl; try discriminate.
  unfold mutate, bind, client.
  destruct (truthy _); simpl; [|discriminate].
  destruct (respond server _ _) as [response|ex]; simpl; [|discriminate].
  destruct (addedNode response) as [node|t] eqn:E2; simpl; [discriminate|].
  apply addedNode_throws in E2 as ->. discriminate.
Qed.

Lemma postStaged_returns (server : Server) (pullRequestId : string) (comments : list Pending)
    (st : State) :
  fst (postStaged server pullRequestId comments st) = Ok tt.
Proof.
  revert st. induction comments as [|c comments IH]; intros st; [reflexivity|].
  simpl. unfold bind at 1. unfold catch.
  destruct (bind (createPullRequestInlineComment server (spread c pullRequestId)) _ st)
    as [[[]|t] st1]; simpl; apply IH.
Qed.

Lemma flushStaged_returns (server : Server) (pullRequestId : string) (key : option string)
    (st : State) :
  fst (flushStaged server pullRequestId key st) = Ok tt.
Proof.
  unfold flushStaged. destruct (_pendingReviewStore st !! key) as [[|c cs]|]; try reflexivity.
  unfold bind. pose proof (postStaged_returns server pullRequestId (c :: cs) st) as Hp.
  destruct (postStaged server pullRequestId (c :: cs) st) as [[[]|t] st1];
    simpl in Hp; [reflexivity|discriminate].
Qed.

Lemma postSummary_valid (server : Server) (pullRequestId text : string) :
  neverThrows (ErrorOf "Invalid eventType") (postSummary server pullRequestId text).
Proof.
  intros st. unfold postSummary. destruct (negb (String.eqb text "")); [|discriminate].
  unfold bind.
  pose proof (createPullRequestComment_valid server pullRequestId text st) as Hc.
  destruct (createPullRequestComment server pullRequestId text st) as [[ds|t] st1];
    simpl in *; [discriminate|].
  intros H. apply Hc. injection H as ->. reflexivity.
Qed.

Lemma effective_eventType (request : SubmitReviewRequest) :
  sr_eventType request = None \/ sr_eventType request = Some "" ->
  (if truthy (sr_eventType request) then show (sr_eventType request) else "COMMENT")
  = "COMMENT".
Proof. intros [-> | ->]; reflexivity. Qed.

(** C8, as the code has it.  When [eventType] is a nonempty value outside
    the enumeration, [submitReview] throws and leaves the whole state as it
    was: nothing is sent and the pending reviews are untouched; for an
    identifier that parses, the exception is the [Invalid eventType] error. *)
Theorem submitReview_rejects_invalid_eventType (server : Server)
    (request : SubmitReviewRequest) (st : State) (eventType : string) :
  sr_eventType request = Some eventType ->
  eventType <> "" ->
  validEventType eventType = false ->
  snd (submitReview server request st) = st
  /\ (exists t, fst (submitReview server request st) = Throw t)
  /\ (forall key, actualPullRequestId (sr_pullRequestId request) = Ok key ->
                  fst (submitReview server request st) = Throw (ErrorOf "Invalid eventType")).
Proof.
  intros Hev Hne Hinvalid. unfold submitReview. rewrite Hev.
  assert (Ht : truthy (Some eventType) = true).
  { simpl. apply String.eqb_neq in Hne. rewrite Hne. reflexivity. }
  rewrite Ht. simpl show. rewrite Hinvalid. simpl negb. cbv iota.
  unfold bind, lift, throw.
  destruct (actualPullRequestId (sr_pullRequestId request)) as [key|t]; simpl.
  - split; [reflexivity|]. split; [eauto|]. intros; reflexivity.
  - split; [reflexivity|]. split; [eauto|]. intros key' H. discriminate H.
Qed.

Lemma submitReview_rejects_invalid_eventType_witness :
  sr_eventType (Example.review "done" (Some "BOGUS")) = Some "BOGUS"
  /\ "BOGUS" <> ""
  /\ validEventType "BOGUS" = false
  /\ submitReview Example.gitlab (Example.review "done" (Some "BOGUS")) Example.staged
     = (Throw (ErrorOf "Invalid eventType"), Example.staged).
Proof.
  split; [reflexivity|]. split; [discriminate|]. split; [reflexivity|].
  destruct (submitReview_rejects_invalid_eventType Example.gitlab
              (Example.review "done" (Some "BOGUS")) Example.staged "BOGUS"
              eq_refl ltac:(discriminate) eq_refl) as (Hst & _ & Hthrow).
  specialize (Hthrow (Some "gid://gitlab/MergeRequest/7") eq_refl).
  destruct (submitReview Example.gitlab (Example.review "done" (Some "BOGUS")) Example.staged)
    as [r st']. simpl in *. subst. reflexivity.
Defined.

(** C8, as stated, fails: the empty string is outside the enumeration, and
    [submitReview] with it is not rejected. *)
Lemma submitReview_rejects_invalid_eventType_counterexample :
  validEventType "" = false
  /\ fst (submitReview Example.gitlab (Example.review "" (Some "")) Example.idle) = Ok true.
Proof. split; reflexivity. Qed.

(** ** Staging, fetching and the cache *)

Lemma identify_actual (token : string) (key : option string) (p : ParsedId) :
  identify token = Ok (key, Some p) -> actualPullRequestId token = Ok key.
Proof.
  unfold identify, actualPullRequestId.
  destruct (String.eqb token ""); [discriminate|].
  destruct (JSON_parse token) as [parsed|t]; [|discriminate].
  destruct (splitFull parsed); [|discriminate].
  intros H. injection H as <- _. reflexivity.
Qed.

Lemma stage_effect (request : ReviewCommentRequest) (st : State) (key : option string) :
  actualPullRequestId (rc_pullRequestId request) = Ok key ->
  let st' := snd (createPullRequestReviewComment request st) in
  fst (createPullRequestReviewComment request st) = Ok true
  /\ _pendingReviewStore st' !! key
     = Some (match _pendingReviewStore st !! key with
             | Some staged => staged ++ [Wrapped request]
             | None => [Bare request]
             end)
  /\ _pullRequestCache st' !! key = None
  /\ calls st' = calls st
  /\ tokenError st' = tokenError st
  /\ accessToken st' = accessToken st.
Proof.
  intros Hkey. unfold createPullRequestReviewComment, bind, lift, modify, ret.
  rewrite Hkey. simpl.
  split; [reflexivity|]. split.
  - destruct (_pendingReviewStore st !! key); simpl; apply lookup_insert_eq.
  - split; [apply lookup_delete_eq|].
    destruct (_pendingReviewStore st !! key); simpl; repeat split; reflexivity.
Qed.

Lemma assemble_answered (server : Server) (now : Z) (nowISO : string)
    (providerId key : option string) (p : ParsedId) (i : string) (st : State)
    (d : QueryData) (body : Value) :
  tokenError st = None ->
  truthy (accessToken st) = true ->
  requestGetPullRequest server (calls st) (projectFullPath p) i = Answer (complete d) ->
  respond server
    (calls st ++ [GRAPHQL "GetPullRequest" [("fullPath", Str (projectFullPath p)); ("iid", Str i)]])
    (GET (mergeRequestUrl p +:+ "/award_emoji")) = Answer body ->
  groupByName body = Ok tt ->
  let mr1 := withPendingReview nowISO (normalized providerId d)
               (_pendingReviewStore st !! Some (q_id d)) in
  exists st5,
    assemble server now nowISO providerId key p i st = (inr mr1, st5)
    /\ _pullRequestCache st5 !! key = Some (Response mr1)
    /\ _pendingReviewStore st5 = _pendingReviewStore st.
Proof.
  intros Hte Htok Hquery Hawards Hgroup mr1. subst mr1. destruct d.
  unfold assemble, query, client. rewrite Hte.
  destruct (_client st).
  - rewrite Htok, Hquery. unfold rest. simpl calls. rewrite Hawards, Hgroup.
    eexists. split; [reflexivity|]. split; [apply lookup_insert_eq|reflexivity].
  - simpl accessToken. rewrite Htok. simpl calls. rewrite Hquery.
    unfold rest. simpl calls. rewrite Hawards, Hgroup.
    eexists. split; [reflexivity|]. split; [apply lookup_insert_eq|reflexivity].
Qed.

Lemma restTyped_cache {T} (server : Server) (url : string)
    (ask : list Call -> string -> Reply T) :
  preserves _pullRequestCache (restTyped url ask).
Proof. intros st. unfold restTyped. destruct (ask (calls st) url); reflexivity. Qed.

Lemma auxiliaryEvents_cache (server : Server) (p : ParsedId) :
  preserves _pullRequestCache (auxiliaryEvents server p).
Proof.
  intros st. unfold auxiliaryEvents.
  assert (H1 : preserves _pullRequestCache (_projectEvents server p)).
  { unfold _projectEvents. apply preserves_bind; [apply restTyped_cache; exact server|].
    intros a. apply preserves_ret. }
  assert (H2 : preserves _pullRequestCache (_labelEvents server p)).
  { unfold _labelEvents. apply preserves_bind; [apply restTyped_cache; exact server|].
    intros a. apply preserves_ret. }
  assert (H3 : preserves _pullRequestCache (_milestoneEvents server p)).
  { unfold _milestoneEvents. apply preserves_bind; [apply restTyped_cache; exact server|].
    intros a. apply preserves_ret. }
  specialize (H1 st). destruct (_projectEvents server p st) as [r1 st1].
  specialize (H2 st1). destruct (_labelEvents server p st1) as [r2 st2].
  specialize (H3 st2). destruct (_milestoneEvents server p st2) as [r3 st3].
  simpl in *. destruct r1, r2, r3; simpl; congruence.
Qed.

Lemma filter_events {T} (g : T -> Event) (l : list T) :
  List.filter isPendingNode (map (fun e => NodeEvent (g e)) l) = [].
Proof. induction l as [|x l IH]; [reflexivity|exact IH]. Qed.

Lemma projectEvents_not_pending (server : Server) (p : ParsedId) (st : State)
    (nodes : list TimelineNode) :
  fst (_projectEvents server p st) = Ok nodes -> List.filter isPendingNode nodes = [].
Proof.
  unfold _projectEvents, bind, restTyped, ret.
  destruct (getEvents server (calls st) _); simpl; [|discriminate].
  intros H. injection H as <-. apply filter_events.
Qed.

Lemma labelEvents_not_pending (server : Server) (p : ParsedId) (st : State)
    (nodes : list TimelineNode) :
  fst (_labelEvents server p st) = Ok nodes -> List.filter isPendingNode nodes = [].
Proof.
  unfold _labelEvents, bind, restTyped, ret.
  destruct (getResourceLabelEvents server (calls st) _); simpl; [|discriminate].
  intros H. injection H as <-. apply filter_events.
Qed.

Lemma milestoneEvents_not_pending (server : Server) (p : ParsedId) (st : State)
    (nodes : list TimelineNode) :
  fst (_milestoneEvents server p st) = Ok nodes -> List.filter isPendingNode nodes = [].
Proof.
  unfold _milestoneEvents, bind, restTyped, ret.
  destruct (getResourceMilestoneEvents server (calls st) _); simpl; [|discriminate].
  intros H. injection H as <-. apply filter_events.
Qed.

Lemma auxiliaryEvents_not_pending (server : Server) (p : ParsedId) (st : State)
    (streams : list (list TimelineNode)) :
  fst (auxiliaryEvents server p st) = Ok streams ->
  List.filter isPendingNode (concat streams) = [].
Proof.
  unfold auxiliaryEvents.
  pose proof (projectEvents_not_pending server p st) as Ha.
  destruct (_projectEvents server p st) as [r1 st1].
  pose proof (labelEvents_not_pending server p st1) as Hb.
  destruct (_labelEvents server p st1) as [r2 st2].
  pose proof (milestoneEvents_not_pending server p st2) as Hc.
  destruct (_milestoneEvents server p st2) as [r3 st3].
  destruct r1 as [a|]; [|discriminate].
  destruct r2 as [b|]; [|discriminate].
  destruct r3 as [c|]; [|discriminate].
  simpl. intros H. injection H as <-. simpl. rewrite app_nil_r.
  rewrite !List.filter_app.
  rewrite (Ha a eq_refl), (Hb b eq_refl), (Hc c eq_refl). reflexivity.
Qed.

Lemma splitNotes_not_pending (fullId : string) (d : RawDiscussion) :
  disc_pending (splitNotes fullId d) = false.
Proof. unfold splitNotes, unsplit. destruct (raw_notes d) as [[|n0 rest]|]; reflexivity. Qed.

Lemma normalized_not_pending (providerId : option string) (d : QueryData) :
  List.filter isPendingNode (mr_nodes (normalized providerId d)) = [].
Proof.
  unfold normalized. simpl. induction (q_discussions d) as [|x l IH]; [reflexivity|].
  simpl. rewrite splitNotes_not_pending. exact IH.
Qed.

Lemma filter_Permutation {A} (P : A -> bool) (l l' : list A) :
  l ≡ₚ l' -> List.filter P l ≡ₚ List.filter P l'.
Proof.
  induction 1 as [|x l l' _ IH|x y l|l l' l'' _ IH1 _ IH2]; simpl.
  - reflexivity.
  - destruct (P x); [constructor|]; exact IH.
  - destruct (P x), (P y); try reflexivity. apply perm_swap.
  - etransitivity; eassumption.
Qed.

Lemma filter_mergeTimeline (P : TimelineNode -> bool) (nodes : list TimelineNode)
    (streams : list (list TimelineNode)) (x : TimelineNode) :
  List.filter P (nodes ++ concat streams) = [x] ->
  List.filter P (mergeTimeline nodes streams) = [x].
Proof.
  intros H. apply Permutation_singleton_r. rewrite <- H.
  apply filter_Permutation. apply sort_Permutation.
Qed.

Lemma withNodes_nodes (mr : MergeRequest) (nodes : list TimelineNode) :
  mr_nodes (withNodes mr nodes) = nodes.
Proof. reflexivity. Qed.

Lemma pending_nodes (nowISO : string) (providerId : option string) (d : QueryData)
    (staged : list Pending) :
  List.filter isPendingNode
    (mr_nodes (withPendingReview nowISO (normalized providerId d) (Some staged)))
  = [NodeDiscussion (pendingDiscussion nowISO staged)].
Proof.
  simpl mr_nodes. rewrite List.filter_app.
  change (map (fun x => NodeDiscussion (splitNotes _ x)) (q_discussions d))
    with (mr_nodes (normalized providerId d)).
  rewrite normalized_not_pending. reflexivity.
Qed.

Lemma postSummary_pending (server : Server) (pullRequestId text : string) :
  preserves _pendingReviewStore (postSummary server pullRequestId text).
Proof.
  unfold postSummary. destruct (negb (String.eqb text "")); [|apply preserves_ret].
  apply preserves_bind; [apply createPullRequestComment_pending|].
  intros a. apply preserves_ret.
Qed.

Lemma flushStaged_clears (server : Server) (pullRequestId : string) (key : option string)
    (st : State) (c : Pending) (cs : list Pending) :
  _pendingReviewStore st !! key = Some (c :: cs) ->
  _pendingReviewStore (snd (flushStaged server pullRequestId key st)) !! key = Some [].
Proof.
  intros Hstaged. unfold flushStaged. rewrite Hstaged. unfold bind.
  destruct (postStaged server pullRequestId (c :: cs) st) as [[[]|t] st1] eqn:E.
  - simpl. apply lookup_insert_eq.
  - pose proof (postStaged_returns server pullRequestId (c :: cs) st) as Hp.
    rewrite E in Hp. discriminate Hp.
Qed.

(** C1, as the code has it.  Take a merge request with no review under way,
    stage two inline comments for it and fetch its detail.  When the
    identifier carries the id the server reports for the merge request, the
    query is answered with no null on the way (current user, project, merge
    request and source project are there) and the awards request is
    answered with a body that has no null entry, the returned timeline has
    exactly one pending discussion, and that discussion has two notes, both
    with [state = "PENDING"].  After [submitReview] with an absent, empty or
    valid event type, the staged list of the merge request is the empty
    list, whatever the server answered to the posts of the staged comments
    and of the summary comment. *)
Theorem pending_review_lifecycle (server : Server) (now : Z) (nowISO : string)
    (providerId : option string) (st : State) (token : string) (key : option string)
    (p : ParsedId) (i : string) (r1 r2 : ReviewCommentRequest) (d : QueryData)
    (body : Value) :
  rc_pullRequestId r1 = token ->
  rc_pullRequestId r2 = token ->
  identify token = Ok (key, Some p) ->
  iid p = Some i ->
  key = Some (q_id d) ->
  _pendingReviewStore st !! key = None ->
  tokenError st = None ->
  truthy (accessToken st) = true ->
  requestGetPullRequest server (calls st) (projectFullPath p) i = Answer (complete d) ->
  respond server
    (calls st ++ [GRAPHQL "GetPullRequest" [("fullPath", Str (projectFullPath p)); ("iid", Str i)]])
    (GET (mergeRequestUrl p +:+ "/award_emoji")) = Answer body ->
  groupByName body = Ok tt ->
  let st2 := snd (createPullRequestReviewComment r2
                    (snd (createPullRequestReviewComment r1 st))) in
  let pending := pendingDiscussion nowISO [Bare r1; Wrapped r2] in
  (exists mr st3,
      getPullRequest server now nowISO providerId token false st2 = (Ok (Response mr), st3)
      /\ List.filter isPendingNode (mr_nodes mr) = [NodeDiscussion pending])
  /\ (exists n1 n2,
         disc_notes pending = Some [n1; n2]
         /\ note_state (head n1) = Some "PENDING"
         /\ note_state (head n2) = Some "PENDING")
  /\ (forall request : SubmitReviewRequest,
         sr_pullRequestId request = token ->
         validEventType
           (if truthy (sr_eventType request) then show (sr_eventType request) else "COMMENT")
         = true ->
         _pendingReviewStore (snd (submitReview server request st2)) !! key = Some []).
Proof.
  intros Hr1 Hr2 Hid Hiid Hkey Hnone Hte Htok Hquery Hawards Hgroup st2 pending.
  pose proof (identify_actual token key p Hid) as Hact.
  destruct (stage_effect r1 st key) as (_ & Hs1 & _ & Hc1 & Hte1 & Htok1);
    [rewrite Hr1; exact Hact|].
  set (st1 := snd (createPullRequestReviewComment r1 st)) in *.
  destruct (stage_effect r2 st1 key) as (_ & Hs2 & Hcache2 & Hc2 & Hte2 & Htok2);
    [rewrite Hr2; exact Hact|].
  fold st2 in Hs2, Hcache2, Hc2, Hte2, Htok2.
  rewrite Hnone in Hs1. rewrite Hs1 in Hs2. simpl app in Hs2.
  split; [|split].
  - unfold getPullRequest, bind, lift. rewrite Hid. simpl. rewrite Hcache2.
    unfold fetchPullRequest. destruct p as [path0 iid0]. simpl in Hiid. subst iid0.
    destruct (assemble_answered server now nowISO providerId key
                {| projectFullPath := path0; iid := Some i |} i st2 d body)
      as (st5 & Hasm & _ & _).
    + rewrite Hte2, Hte1. exact Hte.
    + rewrite Htok2, Htok1. exact Htok.
    + rewrite Hc2, Hc1. exact Hquery.
    + rewrite Hc2, Hc1. exact Hawards.
    + exact Hgroup.
    + rewrite Hasm. rewrite <- Hkey, Hs2.
      pose proof (auxiliaryEvents_not_pending server
                    {| projectFullPath := path0; iid := Some i |} st5) as Hev.
      destruct (auxiliaryEvents server _ st5) as [[streams|t] st6].
      * eexists. eexists. split; [reflexivity|].
        rewrite withNodes_nodes. apply filter_mergeTimeline.
        rewrite List.filter_app, pending_nodes, (Hev streams eq_refl). reflexivity.
      * eexists. eexists. split; [reflexivity|]. apply pending_nodes.
  - eexists. eexists. split; [reflexivity|]. split; reflexivity.
  - intros request Htoken Hvalid. unfold submitReview, bind, lift.
    rewrite Htoken, Hact, Hvalid. change (negb true) with false. cbv iota beta.
    pose proof (flushStaged_clears server token key st2 _ _ Hs2) as Hclear.
    destruct (flushStaged server token key st2) as [[[]|t] st3]; simpl in Hclear;
      [|exact Hclear].
    pose proof (postSummary_pending server token (sr_text request) st3) as Hsum.
    destruct (postSummary server token (sr_text request) st3) as [[[]|t] st4];
      simpl in *; rewrite Hsum; exact Hclear.
Qed.

Lemma pending_review_lifecycle_witness :
  identify Example.token = Ok (Example.key, Some Example.parsed)
  /\ _pendingReviewStore Example.idle !! Example.key = None
  /\ requestGetPullRequest Example.gitlab (calls Example.idle) "group/proj" "3"
     = Answer (complete Example.data)
  /\ (exists mr st3,
         getPullRequest Example.gitlab Example.startedAt Example.startedAtISO None
           Example.token false Example.staged = (Ok (Response mr), st3)
         /\ List.filter isPendingNode (mr_nodes mr)
            = [NodeDiscussion
                 (pendingDiscussion Example.startedAtISO
                    [Bare (Example.comment "first" 10); Wrapped (Example.comment "second" 20)])])
  /\ _pendingReviewStore
       (snd (submitReview Example.gitlab (Example.review "done" None) Example.staged))
     !! Example.key = Some [].
Proof.
  split; [reflexivity|]. split; [reflexivity|]. split; [reflexivity|].
  pose proof (pending_review_lifecycle Example.gitlab Example.startedAt
                Example.startedAtISO None Example.idle Example.token Example.key
                Example.parsed "3" (Example.comment "first" 10)
                (Example.comment "second" 20) Example.data (Obj [])
                eq_refl eq_refl eq_refl eq_refl eq_refl eq_refl eq_refl eq_refl
                eq_refl eq_refl eq_refl) as (Hshown & _ & Hsubmit).
  split; [exact Hshown|].
  exact (Hsubmit (Example.review "done" None) eq_refl eq_refl).
Defined.

(** C1, as stated, fails, in five ways.  After the review is submitted the
    key of the merge request is still in the store, and [getPendingReview]
    answers true.  Comments staged under the identifier that [getRepoInfo]
    builds, whose id is the internal id, are never shown: the detail looks
    them up under the id the server reports.  When the source project of
    the merge request is null, when the awards request is rejected, or when
    the list of awards has a null entry, the query is answered and yet the
    fetch returns the interrupted answer, with no pending discussion and
    nothing cached. *)
Lemma pending_review_lifecycle_counterexample :
  (fst (submitReview Example.gitlab (Example.review "" (Some "COMMENT")) Example.staged)
   = Ok true
   /\ fst (getPendingReview Example.token
             (snd (submitReview Example.gitlab (Example.review "" (Some "COMMENT"))
                     Example.staged)))
      = Ok true)
  /\ (_pendingReviewStore Sample.stagedByIid !! Some "3"
      = Some [Bare (Sample.commentOn Sample.repoToken "first" 10);
              Wrapped (Sample.commentOn Sample.repoToken "second" 20)]
      /\ exists mr st3,
           getPullRequest Example.gitlab Example.startedAt Example.startedAtISO None
             Sample.repoToken false Sample.stagedByIid = (Ok (Response mr), st3)
           /\ List.filter isPendingNode (mr_nodes mr) = [])
  /\ (exists st3,
         getPullRequest Sample.orphaned Example.startedAt Example.startedAtISO None
           Example.token false Example.staged
         = (Ok (Interrupted Sample.orphan (RefsAssigned None)), st3)
         /\ _pullRequestCache st3 !! Example.key = None)
  /\ (exists st3,
         getPullRequest Sample.noAwards Example.startedAt Example.startedAtISO None
           Example.token false Example.staged
         = (Ok (Interrupted (complete Example.data) ViewerAssigned), st3)
         /\ _pullRequestCache st3 !! Example.key = None)
  /\ (exists st3,
         getPullRequest Sample.nullAward Example.startedAt Example.startedAtISO None
           Example.token false Example.staged
         = (Ok (Interrupted (complete Example.data) ViewerAssigned), st3)
         /\ _pullRequestCache st3 !! Example.key = None).
Proof.
  split; [split; vm_compute; reflexivity|].
  split.
  { split; [vm_compute; reflexivity|].
    eexists. eexists. split; [vm_compute; reflexivity|]. vm_compute. reflexivity. }
  split; [|split].
  - eexists. split; [vm_compute; reflexivity|]. vm_compute. reflexivity.
  - eexists. split; [vm_compute; reflexivity|]. vm_compute. reflexivity.
  - eexists. split; [vm_compute; reflexivity|]. vm_compute. reflexivity.
Qed.

(** ** The pull-request cache *)

Lemma actual_JSON_parse (token : string) (key : option string) :
  token <> "" ->
  actualPullRequestId token = Ok key ->
  exists parsed, JSON_parse token = Ok parsed /\ JSON.property "id" parsed = key.
Proof.
  intros Hne. unfold actualPullRequestId. apply String.eqb_neq in Hne. rewrite Hne.
  destruct (JSON_parse token) as [parsed|t]; [|discriminate].
  intros H. injection H as <-. eauto.
Qed.

Lemma createCommitComment_invalidates (server : Server) (request : InlineCommentRequest)
    (st st' : State) (key : option string) (body : Value) :
  actualPullRequestId (ic_pullRequestId request) = Ok key ->
  createCommitComment server request st = (Ok body, st') ->
  _pullRequestCache st' !! key = None.
Proof.
  intros Hkey. unfold createCommitComment, bind, lift, modify, ret.
  destruct (JSON_parse (ic_pullRequestId request)) as [parsed|t] eqn:Hparse; [|discriminate].
  assert (Hid : JSON.property "id" parsed = key).
  { unfold actualPullRequestId in Hkey.
    destruct (String.eqb (ic_pullRequestId request) "") eqn:E.
    - apply String.eqb_eq in E. rewrite E in Hparse. discriminate Hparse.
    - rewrite Hparse in Hkey. injection Hkey as <-. reflexivity. }
  destruct (splitFull parsed) as [p|t]; [|discriminate].
  unfold rest. destruct (respond server (calls st) _); [|discriminate].
  intros H. injection H as _ <-. simpl. rewrite Hid. apply lookup_delete_eq.
Qed.

Lemma deletePullRequestComment_invalidates (server : Server) (noteId token : string)
    (st st' : State) (key : option string) (directives : list Directive) :
  actualPullRequestId token = Ok key ->
  deletePullRequestComment server noteId token st = (Ok directives, st') ->
  _pullRequestCache st' !! key = None.
Proof.
  intros Hkey. unfold deletePullRequestComment, bind, lift, modify, ret.
  rewrite Hkey. unfold mutate, bind, client.
  destruct (truthy _); [|discriminate].
  destruct (respond server _ _); [|discriminate].
  intros H. injection H as _ <-. simpl. apply lookup_delete_eq.
Qed.

Lemma restTyped_calls {T} (url : string) (ask : list Call -> string -> Reply T) (st : State) :
  calls (snd (restTyped url ask st)) = calls st ++ [GET url].
Proof. unfold restTyped. destruct (ask (calls st) url); reflexivity. Qed.

Lemma auxiliaryEvents_calls (server : Server) (p : ParsedId) (st : State) :
  exists more, calls (snd (auxiliaryEvents server p st)) = calls st ++ more.
Proof.
  unfold auxiliaryEvents, _projectEvents, _labelEvents, _milestoneEvents, bind, restTyped, ret.
  destruct (getEvents server _ _); simpl;
    destruct (getResourceLabelEvents server _ _); simpl;
    destruct (getResourceMilestoneEvents server _ _); simpl;
    rewrite <- !app_assoc; eauto.
Qed.

Lemma fetch_hits_network (server : Server) (now : Z) (nowISO : string)
    (providerId key : option string) (p : ParsedId) (i : string) (st : State) :
  iid p = Some i ->
  tokenError st = None ->
  truthy (accessToken st) = true ->
  exists more,
    calls (snd (fetchPullRequest server now nowISO providerId key (Some p) st))
    = calls st
      ++ GRAPHQL "GetPullRequest" [("fullPath", Str (projectFullPath p)); ("iid", Str i)]
         :: more.
Proof.
  intros Hiid Hte Htok. destruct p as [path0 iid0]. simpl in Hiid. subst iid0.
  unfold fetchPullRequest, assemble, query, client. rewrite Hte.
  assert (Htok' : truthy (accessToken (if _client st then st else withClient st true)) = true).
  { destruct (_client st); exact Htok. }
  assert (Hcalls : calls (if _client st then st else withClient st true) = calls st).
  { destruct (_client st); reflexivity. }
  rewrite Htok'. simpl projectFullPath.
  destruct (requestGetPullRequest server _ path0 i) as [[[u|] [[m|]|]]|ex];
    try (simpl; rewrite Hcalls; eauto; fail).
  - cbv iota beta. simpl qa_project. simpl qa_currentUser. cbv iota beta zeta.
    unfold rest. simpl calls. rewrite Hcalls.
    destruct (respond server _ _) as [body|ex];
      [|simpl; rewrite Hcalls, <- app_assoc; simpl; eauto].
    destruct (groupByName body);
      [|simpl; rewrite Hcalls, <- app_assoc; simpl; eauto].
    destruct (a_sourceProject m) as [sp|];
      [|simpl; rewrite Hcalls, <- app_assoc; simpl; eauto].
    match goal with
    | |- context [auxiliaryEvents server ?q ?s] =>
        destruct (auxiliaryEvents_calls server q s) as [more Hmore];
        destruct (auxiliaryEvents server q s) as [[streams|t] st6]
    end; simpl in Hmore |- *; rewrite Hmore; simpl; rewrite Hcalls;
      rewrite <- !app_assoc; simpl; eauto.
  - unfold query_catch. destruct (_isSuppressedException ex) as [[]|];
      simpl; rewrite Hcalls; eauto.
Qed.

(** C2, as the code has it.  Staging a review comment, posting an inline
    comment (directly or while a review is submitted) and deleting a comment
    delete the cached detail of the merge request they name before they
    return; and a fetch without [force] that finds no cached detail sends
    the [GetPullRequest] query again. *)
Theorem cache_invalidation_on_comments (server : Server) (now : Z) (nowISO : string)
    (providerId : option string) (token : string) (key : option string) :
  actualPullRequestId token = Ok key ->
  (forall (request : ReviewCommentRequest) (st : State),
      rc_pullRequestId request = token ->
      _pullRequestCache (snd (createPullRequestReviewComment request st)) !! key = None)
  /\ (forall (request : InlineCommentRequest) (st st' : State) (body : Value),
         ic_pullRequestId request = token ->
         createPullRequestInlineComment server request st = (Ok body, st') ->
         _pullRequestCache st' !! key = None)
  /\ (forall (noteId : string) (st st' : State) (directives : list Directive),
         deletePullRequestComment server noteId token st = (Ok directives, st') ->
         _pullRequestCache st' !! key = None)
  /\ (forall (p : ParsedId) (i : string) (st : State),
         identify token = Ok (key, Some p) ->
         iid p = Some i ->
         _pullRequestCache st !! key = None ->
         tokenError st = None ->
         truthy (accessToken st) = true ->
         exists more,
           calls (snd (getPullRequest server now nowISO providerId token false st))
           = calls st
             ++ GRAPHQL "GetPullRequest" [("fullPath", Str (projectFullPath p)); ("iid", Str i)]
                :: more).
Proof.
  intros Hkey. split; [|split; [|split]].
  - intros request st Htoken.
    destruct (stage_effect request st key) as (_ & _ & H & _); [rewrite Htoken; exact Hkey|].
    exact H.
  - intros request st st' body Htoken. unfold createPullRequestInlineComment.
    apply createCommitComment_invalidates. rewrite Htoken. exact Hkey.
  - intros noteId st st' directives. apply deletePullRequestComment_invalidates. exact Hkey.
  - intros p i st Hid Hiid Hmiss Hte Htok.
    unfold getPullRequest, bind, lift. rewrite Hid. simpl. rewrite Hmiss.
    apply fetch_hits_network; assumption.
Qed.

Lemma cache_invalidation_on_comments_witness :
  actualPullRequestId Example.token = Ok Example.key
  /\ rc_pullRequestId (Example.comment "first" 10) = Example.token
  /\ _pullRequestCache
       (snd (createPullRequestReviewComment (Example.comment "first" 10) (snd Example.fetched)))
     !! Example.key = None.
Proof.
  split; [reflexivity|]. split; [reflexivity|].
  exact (proj1 (cache_invalidation_on_comments Example.gitlab Example.startedAt
                  Example.startedAtISO None Example.token Example.key eq_refl)
           (Example.comment "first" 10) (snd Example.fetched) eq_refl).
Defined.

(** C2, as stated, fails: with the detail of the merge request cached,
    [lockPullRequest] succeeds and leaves the entry in the cache, and the
    next fetch without [force] returns the cached detail without sending
    anything. *)
Lemma cache_invalidation_counterexample :
  (exists mr,
      fst Example.fetched = Ok (Response mr)
      /\ _pullRequestCache (snd Example.fetched) !! Example.key = Some (Response mr))
  /\ fst (lockPullRequest Example.gitlab Example.token (snd Example.fetched))
     = Ok [Directive_ "updatePullRequest" (Obj [("discussionLocked", Bool true)])]
  /\ _pullRequestCache (snd (lockPullRequest Example.gitlab Example.token (snd Example.fetched)))
     !! Example.key
     = _pullRequestCache (snd Example.fetched) !! Example.key
  /\ getPullRequest Example.gitlab Example.startedAt Example.startedAtISO (Some "gitlab*com")
       Example.token false
       (snd (lockPullRequest Example.gitlab Example.token (snd Example.fetched)))
     = (fst Example.fetched,
        snd (lockPullRequest Example.gitlab Example.token (snd Example.fetched))).
Proof.
  split.
  { eexists. split; [reflexivity|]. vm_compute. reflexivity. }
  split; [vm_compute; reflexivity|].
  split; vm_compute; reflexivity.
Qed.

(** ** Failing event fetches *)

Lemma assemble_cached (server : Server) (now : Z) (nowISO : string)
    (providerId key : option string) (p : ParsedId) (i : string) (st st5 : State)
    (mr1 : MergeRequest) :
  assemble server now nowISO providerId key p i st = (inr mr1, st5) ->
  _pullRequestCache st5 !! key = Some (Response mr1)
  /\ List.filter isEventNode (mr_nodes mr1) = [].
Proof.
  unfold assemble.
  destruct (query now _ _ _ st) as [[[[u|] [[m|]|]]|t] st1]; try discriminate.
  cbv iota beta. simpl qa_project. simpl qa_currentUser. cbv iota beta zeta.
  destruct (rest server (GET (mergeRequestUrl p +:+ "/award_emoji")) _)
    as [[body|t] st3]; [|discriminate].
  destruct (groupByName body); [|discriminate].
  destruct (a_sourceProject m) as [sp|]; [|discriminate].
  set (d := queryData u m sp). clearbody d.
  intros H. injection H as <- <-. split; [apply lookup_insert_eq|].
  assert (Hsplit : List.filter isEventNode (mr_nodes (normalized providerId d)) = []).
  { simpl. induction (q_discussions d) as [|x l IH]; [reflexivity|exact IH]. }
  destruct (_pendingReviewStore _ !! Some (q_id d)) as [staged|]; [|exact Hsplit].
  simpl mr_nodes. rewrite List.filter_app.
  change (map (fun x => NodeDiscussion (splitNotes _ x)) (q_discussions d))
    with (mr_nodes (normalized providerId d)).
  rewrite Hsplit. reflexivity.
Qed.

Lemma auxiliaryEvents_rejects (server : Server) (p : ParsedId) (st : State) (ex : Ex) :
  let events := "/projects/" +:+ encodeURIComponent (projectFullPath p) +:+ "/events" in
  let labels := mergeRequestUrl p +:+ "/resource_label_events" in
  let milestones := mergeRequestUrl p +:+ "/resource_milestone_events" in
  getEvents server (calls st) events = Failure ex
  \/ getResourceLabelEvents server (calls st ++ [GET events]) labels = Failure ex
  \/ getResourceMilestoneEvents server (calls st ++ [GET events; GET labels]) milestones
     = Failure ex ->
  exists t, fst (auxiliaryEvents server p st) = Throw t.
Proof.
  intros events labels milestones H.
  unfold auxiliaryEvents, _projectEvents, _labelEvents, _milestoneEvents, bind, restTyped, ret.
  fold events labels milestones.
  destruct (getEvents server (calls st) events) as [a|e1] eqn:E1; simpl;
    destruct (getResourceLabelEvents server (calls st ++ [GET events]) labels)
      as [b|e2] eqn:E2; simpl;
    rewrite <- ?app_assoc; simpl;
    destruct (getResourceMilestoneEvents server (calls st ++ [GET events; GET labels])
                milestones) as [c|e3] eqn:E3; simpl; eauto.
  destruct H as [H | [H | H]]; discriminate H.
Qed.

(** C9, as the code has it.  When the merge request was assembled and
    written to the cache and one of the three event fetches fails, none of
    the event streams is merged: [getPullRequest] returns, without an
    error, the merge request as it was assembled, which holds no event, and
    that same response is the cached entry of the merge request. *)
Theorem event_failure_returns_partial (server : Server) (now : Z) (nowISO : string)
    (providerId : option string) (token : string) (key : option string) (p : ParsedId)
    (i : string) (force : bool) (st st5 : State) (mr1 : MergeRequest) (ex : Ex) :
  identify token = Ok (key, Some p) ->
  iid p = Some i ->
  force = true \/ _pullRequestCache st !! key = None ->
  assemble server now nowISO providerId key p i
    (if force then withCache st (delete key (_pullRequestCache st)) else st)
  = (inr mr1, st5) ->
  (let events := "/projects/" +:+ encodeURIComponent (projectFullPath p) +:+ "/events" in
   let labels := mergeRequestUrl p +:+ "/resource_label_events" in
   let milestones := mergeRequestUrl p +:+ "/resource_milestone_events" in
   getEvents server (calls st5) events = Failure ex
   \/ getResourceLabelEvents server (calls st5 ++ [GET events]) labels = Failure ex
   \/ getResourceMilestoneEvents server (calls st5 ++ [GET events; GET labels]) milestones
      = Failure ex) ->
  exists st6,
    getPullRequest server now nowISO providerId token force st = (Ok (Response mr1), st6)
    /\ _pullRequestCache st6 !! key = Some (Response mr1)
    /\ List.filter isEventNode (mr_nodes mr1) = [].
Proof.
  intros Hid Hiid Hmiss Hasm Hfail.
  destruct (assemble_cached _ _ _ _ _ _ _ _ _ _ Hasm) as [Hcached Hnone].
  destruct (auxiliaryEvents_rejects server p st5 ex Hfail) as [t Ht].
  pose proof (auxiliaryEvents_cache server p st5) as Hsame.
  destruct p as [path0 iid0]. simpl in Hiid. subst iid0.
  assert (Hfetch : forall st0,
             assemble server now nowISO providerId key
               {| projectFullPath := path0; iid := Some i |} i st0 = (inr mr1, st5) ->
             exists st6,
               fetchPullRequest server now nowISO providerId key
                 (Some {| projectFullPath := path0; iid := Some i |}) st0
               = (Ok (Response mr1), st6)
               /\ _pullRequestCache st6 !! key = Some (Response mr1)).
  { intros st0 H0. unfold fetchPullRequest. rewrite H0.
    destruct (auxiliaryEvents server _ st5) as [[streams|t'] st6]; simpl in *;
      [discriminate Ht|].
    eexists. split; [reflexivity|]. rewrite Hsame. exact Hcached. }
  unfold getPullRequest, bind, lift. rewrite Hid. simpl.
  destruct force.
  - destruct (Hfetch _ Hasm) as (st6 & H1 & H2). eauto.
  - destruct Hmiss as [Hf | Hmiss]; [discriminate Hf|]. rewrite Hmiss.
    destruct (Hfetch _ Hasm) as (st6 & H1 & H2). eauto.
Qed.

Lemma event_failure_returns_partial_witness :
  identify Example.token = Ok (Example.key, Some Example.parsed)
  /\ _pullRequestCache Example.idle !! Example.key = None
  /\ (exists mr1,
         fst Example.fetchedFlaky = Ok (Response mr1)
         /\ _pullRequestCache (snd Example.fetchedFlaky) !! Example.key = Some (Response mr1)
         /\ List.filter isEventNode (mr_nodes mr1) = []).
Proof.
  split; [reflexivity|]. split; [reflexivity|].
  destruct (event_failure_returns_partial Example.flaky Example.startedAt
              Example.startedAtISO (Some "gitlab*com") Example.token Example.key
              Example.parsed "3" false Example.idle
              (snd (assemble Example.flaky Example.startedAt Example.startedAtISO
                      (Some "gitlab*com") Example.key Example.parsed "3" Example.idle))
              (withPendingReview Example.startedAtISO
                 (normalized (Some "gitlab*com") Example.data) None)
              Example.down eq_refl eq_refl (or_intror eq_refl) eq_refl
              (or_intror (or_introl eq_refl)))
    as (st6 & Hget & Hcache & Hnone).
  exists (withPendingReview Example.startedAtISO
            (normalized (Some "gitlab*com") Example.data) None).
  unfold Example.fetchedFlaky. rewrite Hget. simpl. auto.
Defined.

(** C9, as stated, fails: with the label events failing, the detail fetch
    returns a response instead of an error, the response holds the
    discussions and no event, and it stays in the cache. *)
Lemma event_failure_counterexample :
  getResourceLabelEvents Example.flaky
    [GRAPHQL "GetPullRequest" [("fullPath", Str "group/proj"); ("iid", Str "3")];
     GET "/projects/group%2Fproj/merge_requests/3/award_emoji";
     GET "/projects/group%2Fproj/events"]
    "/projects/group%2Fproj/merge_requests/3/resource_label_events"
  = Failure Example.down
  /\ (exists mr,
         fst Example.fetchedFlaky = Ok (Response mr)
         /\ _pullRequestCache (snd Example.fetchedFlaky) !! Example.key = Some (Response mr)
         /\ List.filter isEventNode (mr_nodes mr) = []
         /\ length (mr_nodes mr) = 1%nat).
Proof.
  split; [reflexivity|].
  eexists. split; [reflexivity|]. split; [reflexivity|]. split; reflexivity.
Qed.

(** ** What a submitted review sends *)

Lemma createCommitComment_calls (server : Server) (request : InlineCommentRequest)
    (parsed : list (string * string)) (p : ParsedId) (st : State) :
  JSON_parse (ic_pullRequestId request) = Ok parsed ->
  splitFull parsed = Ok p ->
  exists body,
    prop "body" body = Ok (ofOption (ic_text request))
    /\ prop "position" body <> Ok Undefined
    /\ calls (snd (createCommitComment server request st))
       = calls st ++ [POST (mergeRequestUrl p +:+ "/discussions") body].
Proof.
  intros Hparse Hsplit. unfold createCommitComment, bind, lift, modify, ret, rest.
  rewrite Hparse, Hsplit.
  destruct (respond server (calls st) _); simpl;
    (eexists; split; [|split; [|reflexivity]]);
    solve [ simpl; destruct (ic_text request); reflexivity | simpl; discriminate ].
Qed.

Lemma spread_text (c : Pending) (token : string) : ic_text (spread c token) = pending_text c.
Proof. destruct c; reflexivity. Qed.

Lemma postStaged_calls (server : Server) (token : string) (parsed : list (string * string))
    (p : ParsedId) (comments : list Pending) :
  JSON_parse token = Ok parsed ->
  splitFull parsed = Ok p ->
  forall st : State,
  exists bodies,
    Forall2 (fun c body => prop "body" body = Ok (ofOption (pending_text c))) comments bodies
    /\ calls (snd (postStaged server token comments st))
       = calls st ++ map (POST (mergeRequestUrl p +:+ "/discussions")) bodies.
Proof.
  intros Hparse Hsplit. induction comments as [|c comments IH]; intros st.
  - exists []. simpl. rewrite app_nil_r. split; [constructor|reflexivity].
  - simpl postStaged. unfold bind at 1. unfold catch, createPullRequestInlineComment.
    unfold bind at 1.
    destruct (createCommitComment_calls server (spread c token) parsed p st)
      as (body & Hbody & _ & Hcall).
    { destruct c; exact Hparse. }
    { exact Hsplit. }
    rewrite spread_text in Hbody.
    destruct (createCommitComment server (spread c token) st) as [[v|t] st1];
      simpl in Hcall |- *;
      destruct (IH st1) as (bodies & Hall & Hcalls);
      exists (body :: bodies); simpl; rewrite Hcalls, Hcall, <- app_assoc;
      (split; [constructor; assumption|reflexivity]).
Qed.

Lemma identify_parsed (token : string) (key : option string) (p : ParsedId) :
  identify token = Ok (key, Some p) ->
  exists parsed, JSON_parse token = Ok parsed /\ splitFull parsed = Ok p.
Proof.
  unfold identify. destruct (String.eqb token ""); [discriminate|].
  destruct (JSON_parse token) as [parsed|t]; [|discriminate].
  destruct (splitFull parsed) as [p'|t] eqn:E; [|discriminate].
  intros H. injection H as _ ->. eauto.
Qed.

Lemma createCommitComment_token (server : Server) (request : InlineCommentRequest)
    (st : State) :
  accessToken (snd (createCommitComment server request st)) = accessToken st.
Proof.
  unfold createCommitComment, bind, lift, modify, ret, rest.
  destruct (JSON_parse (ic_pullRequestId request)) as [parsed|t]; [|reflexivity].
  destruct (splitFull parsed) as [p|t]; [|reflexivity].
  destruct (respond server (calls st) _); reflexivity.
Qed.

Lemma postStaged_token (server : Server) (token : string) (comments : list Pending) :
  forall st : State,
    accessToken (snd (postStaged server token comments st)) = accessToken st.
Proof.
  induction comments as [|c comments IH]; intros st; [reflexivity|].
  simpl postStaged. unfold bind at 1. unfold catch, createPullRequestInlineComment.
  unfold bind at 1.
  pose proof (createCommitComment_token server (spread c token) st) as Hc.
  destruct (createCommitComment server (spread c token) st) as [[v|t] st1];
    simpl in Hc |- *; rewrite IH; exact Hc.
Qed.

(** The flush of the staged comments: one post for each of them, the entry
    emptied when there is one, the access token untouched. *)
Lemma flushStaged_effect (server : Server) (token : string) (key : option string)
    (p : ParsedId) (st : State) :
  identify token = Ok (key, Some p) ->
  exists bodies st1,
    flushStaged server token key st = (Ok tt, st1)
    /\ Forall2 (fun c body => prop "body" body = Ok (ofOption (pending_text c)))
         (default [] (_pendingReviewStore st !! key)) bodies
    /\ calls st1 = calls st ++ map (POST (mergeRequestUrl p +:+ "/discussions")) bodies
    /\ _pendingReviewStore st1 !! key
       = match _pendingReviewStore st !! key with
         | Some _ => Some []
         | None => None
         end
    /\ accessToken st1 = accessToken st.
Proof.
  intros Hid. destruct (identify_parsed _ _ _ Hid) as (parsed & Hparse & Hsplit).
  unfold flushStaged. destruct (_pendingReviewStore st !! key) as [[|c cs]|] eqn:Hstaged.
  - exists [], st. simpl. rewrite app_nil_r. repeat split; [constructor|exact Hstaged].
  - destruct (postStaged_calls server token parsed p (c :: cs) Hparse Hsplit st)
      as (bodies & Hall & Hcalls).
    pose proof (postStaged_returns server token (c :: cs) st) as Hret.
    pose proof (postStaged_token server token (c :: cs) st) as Htoken.
    unfold bind, modify.
    destruct (postStaged server token (c :: cs) st) as [[[]|t] st1];
      simpl in Hret, Hcalls, Htoken; [|discriminate Hret].
    exists bodies. eexists. split; [reflexivity|]. simpl.
    split; [exact Hall|]. split; [exact Hcalls|].
    split; [apply lookup_insert_eq|exact Htoken].
  - exists [], st. simpl. rewrite app_nil_r. repeat split; [constructor|exact Hstaged].
Qed.

Lemma connected_calls (st : State) :
  calls (if _client st then st else withClient st true) = calls st.
Proof. destruct (_client st); reflexivity. Qed.

Lemma connected_cache (st : State) :
  _pullRequestCache (if _client st then st else withClient st true) = _pullRequestCache st.
Proof. destruct (_client st); reflexivity. Qed.

Lemma connected_username (st : State) :
  _gitlabUsername (if _client st then st else withClient st true) = _gitlabUsername st.
Proof. destruct (_client st); reflexivity. Qed.

Lemma connected_pending (st : State) :
  _pendingReviewStore (if _client st then st else withClient st true)
  = _pendingReviewStore st.
Proof. destruct (_client st); reflexivity. Qed.

(** The summary comment: one [CreateNote] mutation, whose answer decides the
    outcome. *)
Lemma postSummary_effect (server : Server) (token text : string) (key : option string)
    (path0 i : string) (st : State) :
  identify token = Ok (key, Some {| projectFullPath := path0; iid := Some i |}) ->
  truthy (accessToken st) = true ->
  String.eqb text "" = false ->
  let summary :=
    GRAPHQL "CreateNote" [("noteableId", ofOption key); ("body", Str text); ("iid", Str i)] in
  let st' := record (if _client st then st else withClient st true) summary in
  postSummary server token text st
  = match respond server (calls st) summary with
    | Answer response =>
        match addedNode response with
        | Ok _ => (Ok tt, st')
        | Throw t => (Throw t, st')
        end
    | Failure ex => (Throw (Raised ex), st')
    end.
Proof.
  intros Hid Htok Htext summary st'. subst st'.
  unfold postSummary. rewrite Htext. change (negb false) with true. cbv iota.
  unfold createPullRequestComment, mutate, client, bind, lift, ret. rewrite Hid.
  cbv beta iota zeta.
  destruct (_client st); simpl accessToken; rewrite Htok; cbv beta iota; simpl calls;
    fold summary;
    (destruct (respond server (calls st) summary) as [response|ex]; [|reflexivity]);
    destruct (addedNode response); reflexivity.
Qed.

(** C10.  Implicit event type.  When [eventType] is absent or empty,
    [submitReview] does exactly what it does for [eventType = "COMMENT"],
    and it never throws the [Invalid eventType] error.  It goes on to the
    flush and to the summary: for an identifier with a full reference, it
    sends one post to the discussions of the merge request for each staged
    comment, in the order of staging, and empties the staged list; with an
    empty text it sends nothing else and returns true; with a text, an
    internal id and an access token it then sends the [CreateNote] mutation
    with the text, and nothing else, and returns true when the mutation is
    answered with a response in which the added note can be looked up. *)
Theorem submitReview_default_eventType (server : Server) (request : SubmitReviewRequest)
    (st : State) :
  sr_eventType request = None \/ sr_eventType request = Some "" ->
  submitReview server request st
  = submitReview server (withEventType request (Some "COMMENT")) st
  /\ fst (submitReview server request st) <> Throw (ErrorOf "Invalid eventType")
  /\ forall (key : option string) (p : ParsedId),
       identify (sr_pullRequestId request) = Ok (key, Some p) ->
       let st' := snd (submitReview server request st) in
       exists bodies,
         let posted := calls st ++ map (POST (mergeRequestUrl p +:+ "/discussions")) bodies in
         Forall2 (fun c body => prop "body" body = Ok (ofOption (pending_text c)))
           (default [] (_pendingReviewStore st !! key)) bodies
         /\ _pendingReviewStore st' !! key
            = match _pendingReviewStore st !! key with
              | Some _ => Some []
              | None => None
              end
         /\ (sr_text request = "" ->
             fst (submitReview server request st) = Ok true /\ calls st' = posted)
         /\ (forall i : string,
                sr_text request <> "" ->
                iid p = Some i ->
                truthy (accessToken st) = true ->
                let summary :=
                  GRAPHQL "CreateNote"
                    [("noteableId", ofOption key); ("body", Str (sr_text request));
                     ("iid", Str i)] in
                calls st' = posted ++ [summary]
                /\ forall response node,
                     respond server posted summary = Answer response ->
                     addedNode response = Ok node ->
                     fst (submitReview server request st) = Ok true).
Proof.
  intros Hev.
  assert (Heq : submitReview server request st
                = submitReview server (withEventType request (Some "COMMENT")) st).
  { unfold submitReview. rewrite (effective_eventType request Hev). reflexivity. }
  split; [exact Heq|]. split.
  { rewrite Heq. unfold submitReview, withEventType. simpl.
    unfold bind at 1. unfold lift.
    destruct (actualPullRequestId (sr_pullRequestId request)) as [key|t] eqn:E; simpl.
    2:{ apply actualPullRequestId_throws in E as ->. discriminate. }
    unfold bind at 1.
    pose proof (flushStaged_returns server (sr_pullRequestId request) key st) as Hflush.
    destruct (flushStaged server (sr_pullRequestId request) key st) as [[[]|t] st1];
      simpl in Hflush; [|discriminate].
    unfold bind at 1.
    pose proof (postSummary_valid server (sr_pullRequestId request) (sr_text request) st1)
      as Hs.
    destruct (postSummary server (sr_pullRequestId request) (sr_text request) st1)
      as [[[]|t] st2]; simpl in *; [discriminate|].
    intros H. apply Hs. injection H as ->. reflexivity. }
  intros key p Hid st'.
  destruct (flushStaged_effect server _ key p st Hid)
    as (bodies & st1 & Hflush & Hall & Hcalls & Hstore & Htoken).
  exists bodies. cbv zeta. split; [exact Hall|].
  assert (Hrun : submitReview server request st
                 = bind (postSummary server (sr_pullRequestId request) (sr_text request))
                     (fun _ => ret true) st1).
  { unfold submitReview. rewrite (effective_eventType request Hev). simpl negb. cbv iota.
    unfold bind at 1. unfold lift. rewrite (identify_actual _ _ _ Hid).
    unfold bind at 1. rewrite Hflush. reflexivity. }
  subst st'. rewrite Hrun. split; [|split].
  - unfold bind, ret.
    pose proof (postSummary_pending server (sr_pullRequestId request) (sr_text request) st1)
      as Hsum.
    destruct (postSummary server (sr_pullRequestId request) (sr_text request) st1)
      as [[[]|t] st2]; simpl in Hsum |- *; rewrite Hsum; exact Hstore.
  - intros Htext. unfold bind, ret, postSummary. rewrite Htext. simpl.
    split; [reflexivity|exact Hcalls].
  - intros i Htext Hiid Htok. apply String.eqb_neq in Htext.
    destruct p as [path0 iid0]. simpl in Hiid. subst iid0.
    unfold bind, ret.
    rewrite (postSummary_effect server _ _ key path0 i st1 Hid) by congruence.
    rewrite Hcalls.
    assert (Hend : calls (record (if _client st1 then st1 else withClient st1 true)
                            (GRAPHQL "CreateNote"
                               [("noteableId", ofOption key);
                                ("body", Str (sr_text request)); ("iid", Str i)]))
                   = (calls st ++ map (POST (mergeRequestUrl
                                               {| projectFullPath := path0; iid := Some i |}
                                             +:+ "/discussions")) bodies)
                     ++ [GRAPHQL "CreateNote"
                           [("noteableId", ofOption key);
                            ("body", Str (sr_text request)); ("iid", Str i)]]).
    { unfold record. simpl. rewrite connected_calls, Hcalls. reflexivity. }
    destruct (respond server _ _) as [response|ex] eqn:Eresp.
    + destruct (addedNode response) as [node|t] eqn:Enode; simpl;
        (split; [exact Hend|]);
        intros response' node' Hr Hn; injection Hr as <-; congruence.
    + simpl. split; [exact Hend|]. intros response node Hr. discriminate Hr.
Qed.

Lemma submitReview_default_eventType_witness :
  (sr_eventType (Example.review "done" None) = None
   \/ sr_eventType (Example.review "done" None) = Some "")
  /\ _pendingReviewStore Example.staged !! Example.key
     = Some [Bare (Example.comment "first" 10); Wrapped (Example.comment "second" 20)]
  /\ fst (submitReview Sample.accepting (Example.review "done" None) Example.staged)
     = Ok true
  /\ length (calls (snd (submitReview Sample.accepting (Example.review "done" None)
                           Example.staged))) = 3%nat
  /\ _pendingReviewStore
       (snd (submitReview Sample.accepting (Example.review "done" None) Example.staged))
     !! Example.key = Some [].
Proof.
  assert (Hstaged : _pendingReviewStore Example.staged !! Example.key
                    = Some [Bare (Example.comment "first" 10);
                            Wrapped (Example.comment "second" 20)])
    by (vm_compute; reflexivity).
  split; [left; reflexivity|]. split; [exact Hstaged|].
  destruct (proj2 (proj2 (submitReview_default_eventType Sample.accepting
                            (Example.review "done" None) Example.staged
                            (or_introl eq_refl)))
              Example.key Example.parsed eq_refl)
    as (bodies & Hall & Hstore & _ & Hsummary).
  rewrite Hstaged in Hall, Hstore.
  destruct (Hsummary "3" ltac:(discriminate) eq_refl eq_refl) as (Hcalls & Htrue).
  split; [|split].
  - apply (Htrue Sample.created
             (Obj [("id", Str "d1");
                   ("notes", Obj [("nodes", Arr [Obj [("id", Str "n9")]])])]));
      reflexivity.
  - rewrite Hcalls. apply Forall2_length in Hall.
    rewrite length_app, length_app, length_map, <- Hall. reflexivity.
  - exact Hstore.
Defined.

(** ** More on pagination *)

Lemma trimStart_blank (s : string) : blank s = true -> Js.trimStart s = "".
Proof.
  induction s as [|c s IH]; simpl; [reflexivity|].
  intros H. apply andb_true_iff in H as [Hc Hs]. rewrite Hc. exact (IH Hs).
Qed.

Lemma trimEnd_nonblank (s : string) : blank s = false -> Js.trimEnd s <> "".
Proof.
  induction s as [|c s IH]; simpl; [discriminate|].
  intros H. destruct (Js.trimEnd s) eqn:E; [|discriminate].
  destruct (Js.isWhiteSpace c); [|discriminate].
  simpl in H. exfalso. apply (IH H). reflexivity.
Qed.

Lemma trimStart_nonblank (s : string) : blank s = false -> blank (Js.trimStart s) = false.
Proof.
  induction s as [|c s IH]; simpl; [discriminate|].
  destruct (Js.isWhiteSpace c) eqn:E; simpl; [exact IH|].
  intros _. rewrite E. reflexivity.
Qed.

Lemma trim_blank_iff (s : string) : Js.trim s = "" <-> blank s = true.
Proof.
  unfold Js.trim. split.
  - intros H. destruct (blank s) eqn:E; [reflexivity|].
    exfalso. apply (trimEnd_nonblank (Js.trimStart s)); [|exact H].
    apply trimStart_nonblank. exact E.
  - intros H. rewrite (trimStart_blank s H). reflexivity.
Qed.

Lemma blank_append (s t : string) : blank (s +:+ t) = blank s && blank t.
Proof.
  induction s as [|c s IH]; [reflexivity|].
  rewrite append_cons. simpl. rewrite IH, andb_assoc. reflexivity.
Qed.

Lemma length_zero (s : string) : (String.length s =? 0)%nat = true <-> s = "".
Proof. destruct s; simpl; split; congruence. Qed.

(** X1.  [nextPage] on headers without a usable first segment.  A header
    that is absent or consists of white space gives undefined.  A header
    whose first segment has no semicolon makes [nextPage] throw, whatever
    follows: a [rel="next"] segment behind it is never read. *)
Theorem nextPage_unusable_header (baseUrl : string) :
  nextPage baseUrl None = Ok None
  /\ (forall s : string, blank s = true -> nextPage baseUrl (Some s) = Ok None)
  /\ (forall seg : string,
        Js.noChar ";" seg = true -> Js.noChar "," seg = true -> blank seg = false ->
        nextPage baseUrl (Some seg) = Throw TypeError)
  /\ (forall seg rest : string,
        Js.noChar ";" seg = true -> Js.noChar "," seg = true ->
        nextPage baseUrl (Some (seg +:+ "," +:+ rest)) = Throw TypeError).
Proof.
  split; [reflexivity|]. split; [|split].
  - intros s Hs. unfold nextPage. apply trim_blank_iff in Hs. rewrite Hs. reflexivity.
  - intros seg Hsemi Hcomma Hnb. unfold nextPage.
    destruct (String.length (Js.trim seg) =? 0)%nat eqn:E.
    + apply length_zero, trim_blank_iff in E. congruence.
    + rewrite (split_noChar "," seg Hcomma). simpl.
      rewrite (split_noChar ";" seg Hsemi). reflexivity.
  - intros seg rest Hsemi Hcomma. unfold nextPage.
    destruct (String.length (Js.trim (seg +:+ "," +:+ rest)) =? 0)%nat eqn:E.
    + apply length_zero, trim_blank_iff in E.
      rewrite blank_append in E. apply andb_true_iff in E as [_ E].
      rewrite append_cons in E. simpl in E. discriminate E.
    + norm_app. rewrite (split_append "," seg rest Hcomma). simpl.
      rewrite (split_noChar ";" seg Hsemi). reflexivity.
Qed.

Lemma nextPage_unusable_header_witness :
  Js.noChar ";" "<https://gitlab.com/api/v4/projects?page=2>" = true
  /\ Js.noChar "," "<https://gitlab.com/api/v4/projects?page=2>" = true
  /\ nextPage "https://gitlab.com/api/v4"
       (Some ("<https://gitlab.com/api/v4/projects?page=2>" +:+ ","
              +:+ renderLinks [ {| link_url := "https://gitlab.com/api/v4/projects?page=3";
                                   link_rel := "next" |} ]))
     = Throw TypeError.
Proof.
  split; [reflexivity|]. split; [reflexivity|].
  exact (proj2 (proj2 (proj2 (nextPage_unusable_header "https://gitlab.com/api/v4")))
           "<https://gitlab.com/api/v4/projects?page=2>" _ eq_refl eq_refl).
Defined.

Lemma withCalls_same (st : State) : withCalls st (calls st) = st.
Proof. destruct st; reflexivity. Qed.

Lemma walk_invariant (server : Server) (baseUrl : string) (fuel : nat) :
  forall (st : State) (url : string) (acc prs : list GitLabPullRequest) (st' : State),
    getPullRequestsByState_loop server baseUrl fuel st url acc = Some (prs, st') ->
    exists more cs,
      prs = acc ++ more
      /\ st' = withCalls st (calls st ++ cs)
      /\ (1 <= length cs <= fuel)%nat
      /\ forallb isGET cs = true.
Proof.
  induction fuel as [|fuel IH]; intros st url acc prs st' H; [discriminate H|].
  simpl in H. unfold get_mergeRequests in H.
  destruct (getMergeRequests server (calls st) url) as [apiResponse|ex].
  - destruct (nextPage baseUrl (page_link apiResponse)) as [[next|]|t].
    + destruct (String.eqb next "").
      * injection H as <- <-. exists (page_body apiResponse), [GET url].
        repeat split; simpl; lia.
      * apply IH in H as (more & cs & -> & -> & Hlen & Hget).
        exists (page_body apiResponse ++ more), (GET url :: cs).
        rewrite <- app_assoc. split; [reflexivity|]. split.
        { unfold record, withCalls. simpl. rewrite <- app_assoc. reflexivity. }
        split; [simpl; lia|exact Hget].
    + injection H as <- <-. exists (page_body apiResponse), [GET url].
      repeat split; simpl; lia.
    + injection H as <- <-. exists (page_body apiResponse), [GET url].
      repeat split; simpl; lia.
  - injection H as <- <-. exists [], [GET url]. rewrite app_nil_r.
    repeat split; simpl; lia.
Qed.

(** X2.  [_getPullRequestsByState] only reads.  Whatever the server does,
    when the method returns it has sent at least one and at most as many
    requests as the loop made rounds, all of them [GET]s, it has changed
    nothing else of the provider's state (caches, pending reviews,
    notifications, client), and every item it returns has [number] equal to
    its [iid]. *)
Theorem getPullRequestsByState_read_only (server : Server) (baseUrl : string) (fuel : nat)
    (st st' : State) (remotePath state : string) (prs : list GitLabPullRequest) :
  _getPullRequestsByState server baseUrl fuel st remotePath state = Some (prs, st') ->
  (exists cs,
      calls st' = calls st ++ cs
      /\ (1 <= length cs <= fuel)%nat
      /\ forallb isGET cs = true)
  /\ withCalls st' (calls st) = st
  /\ Forall (fun pr => pr_number pr = Some (pr_iid pr)) prs.
Proof.
  unfold _getPullRequestsByState.
  destruct (getPullRequestsByState_loop server baseUrl fuel st _ []) as [[prs0 st0]|] eqn:E;
    [|discriminate].
  intros H. injection H as <- <-.
  apply walk_invariant in E as (more & cs & _ & -> & Hlen & Hget).
  split; [exists cs; auto|]. split.
  - unfold withCalls. simpl. apply withCalls_same.
  - apply Forall_forall. intros pr Hin. apply list_elem_of_In, in_map_iff in Hin as (x & <- & _).
    reflexivity.
Qed.

Lemma getPullRequestsByState_read_only_witness :
  _getPullRequestsByState Example.pagedServer Example.baseUrl 3 Example.idle
    "group/proj" "opened"
  = Some (map setNumber (map Example.pr [1; 2; 3; 4; 5]),
          withCalls Example.idle
            [GET Example.firstUrl; GET Example.secondUrl; GET Example.thirdUrl])
  /\ withCalls
       (withCalls Example.idle
          [GET Example.firstUrl; GET Example.secondUrl; GET Example.thirdUrl])
       (calls Example.idle)
     = Example.idle.
Proof.
  assert (H : _getPullRequestsByState Example.pagedServer Example.baseUrl 3 Example.idle
                "group/proj" "opened"
              = Some (map setNumber (map Example.pr [1; 2; 3; 4; 5]),
                      withCalls Example.idle
                        [GET Example.firstUrl; GET Example.secondUrl; GET Example.thirdUrl])).
  { vm_compute. reflexivity. }
  split; [exact H|].
  exact (proj1 (proj2 (getPullRequestsByState_read_only _ _ _ _ _ _ _ _ H))).
Defined.

Lemma walk_then_fail (server : Server) (baseUrl : string) (pages : list ServedPage) :
  forall (st : State) (url : string) (acc : list GitLabPullRequest),
    servesThenFails server baseUrl (calls st) url pages ->
    exists cs,
      getPullRequestsByState_loop server baseUrl (S (length pages)) st url acc
      = Some (acc ++ concat (map served_items pages), withCalls st (calls st ++ cs))
      /\ length cs = S (length pages).
Proof.
  induction pages as [|p rest IH]; intros st url acc Hserves.
  - destruct Hserves as [ex Hex]. exists [GET url].
    simpl. unfold get_mergeRequests. rewrite Hex. rewrite app_nil_r. split; reflexivity.
  - destruct Hserves as (Hget & Hwf & next & Hne & Hfind & Hrest).
    destruct (IH (record st (GET url)) next (acc ++ served_items p) Hrest) as (cs & Hloop & Hlen).
    exists (GET url :: cs).
    change (getPullRequestsByState_loop server baseUrl (S (length (p :: rest))) st url acc)
      with (match get_mergeRequests server st url with
            | (Failure _, st1) => Some (acc, st1)
            | (Answer apiResponse, st1) =>
                let prs1 := acc ++ page_body apiResponse in
                match nextPage baseUrl (page_link apiResponse) with
                | Throw _ => Some (prs1, st1)
                | Ok None => Some (prs1, st1)
                | Ok (Some next) =>
                    if String.eqb next "" then Some (prs1, st1)
                    else getPullRequestsByState_loop server baseUrl (S (length rest)) st1
                           next prs1
                end
            end).
    unfold get_mergeRequests. rewrite Hget. simpl page_link. simpl page_body. cbv zeta.
    rewrite (nextPage_wellFormed baseUrl _ Hwf).
    unfold advertised. rewrite Hfind. simpl link_url. rewrite replace_prefix.
    apply String.eqb_neq in Hne. rewrite Hne, Hloop.
    rewrite withCalls_record. simpl concat. rewrite <- app_assoc.
    split; [reflexivity|]. simpl. rewrite Hlen. reflexivity.
Qed.

(** X3.  A failure in the middle of a listing.  When the server answers N
    pages, each advertising the next one, and rejects the request after
    them, [_getPullRequestsByState] does not throw: it returns the items of
    the N pages it received, in page order, after N + 1 requests. *)
Theorem getPullRequestsByState_keeps_received_pages (server : Server) (baseUrl : string)
    (pages : list ServedPage) (st : State) (remotePath state : string) :
  servesThenFails server baseUrl (calls st) (mergeRequestsUrl remotePath state) pages ->
  exists cs,
    _getPullRequestsByState server baseUrl (S (length pages)) st remotePath state
    = Some (map setNumber (concat (map served_items pages)),
            withCalls st (calls st ++ cs))
    /\ length cs = S (length pages).
Proof.
  intros Hserves.
  destruct (walk_then_fail server baseUrl pages st _ [] Hserves) as (cs & Hloop & Hlen).
  exists cs. unfold _getPullRequestsByState. rewrite Hloop. split; [reflexivity|exact Hlen].
Qed.

Lemma getPullRequestsByState_keeps_received_pages_witness :
  servesThenFails Sample.brokenServer Example.baseUrl (calls Example.idle)
    (mergeRequestsUrl "group/proj" "opened") (firstn 2 Example.pages)
  /\ exists cs,
       _getPullRequestsByState Sample.brokenServer Example.baseUrl 3 Example.idle
         "group/proj" "opened"
       = Some (map setNumber (map Example.pr [1; 2; 3]),
               withCalls Example.idle (calls Example.idle ++ cs))
       /\ length cs = 3%nat.
Proof.
  assert (H : servesThenFails Sample.brokenServer Example.baseUrl (calls Example.idle)
                (mergeRequestsUrl "group/proj" "opened") (firstn 2 Example.pages)).
  { simpl. split; [reflexivity|]. split; [reflexivity|].
    exists Example.secondUrl. split; [discriminate|]. split; [reflexivity|].
    split; [reflexivity|]. split; [reflexivity|].
    exists Example.thirdUrl. split; [discriminate|]. split; [reflexivity|].
    exists Example.down. reflexivity. }
  split; [exact H|].
  exact (getPullRequestsByState_keeps_received_pages Sample.brokenServer Example.baseUrl
           (firstn 2 Example.pages) Example.idle "group/proj" "opened" H).
Defined.

(** ** More on the detail fetch *)

Lemma query_pending (now : Z) {T} (operation : string) (variables : list (string * Value))
    (ask : list Call -> Reply T) :
  preserves _pendingReviewStore (query now operation variables ask).
Proof.
  intros st. unfold query, client, query_catch.
  destruct (tokenError st); [reflexivity|].
  destruct (_client st); destruct (truthy _); simpl;
    try destruct (ask _) as [r|ex]; simpl; try reflexivity;
    destruct (_isSuppressedException _) as [[]|]; reflexivity.
Qed.

Lemma restTyped_pending {T} (url : string) (ask : list Call -> string -> Reply T) :
  preserves _pendingReviewStore (restTyped url ask).
Proof. intros st. unfold restTyped. destruct (ask (calls st) url); reflexivity. Qed.

Lemma auxiliaryEvents_pending (server : Server) (p : ParsedId) :
  preserves _pendingReviewStore (auxiliaryEvents server p).
Proof.
  intros st. unfold auxiliaryEvents.
  assert (H1 : preserves _pendingReviewStore (_projectEvents server p)).
  { unfold _projectEvents. apply preserves_bind; [apply restTyped_pending|].
    intros a. apply preserves_ret. }
  assert (H2 : preserves _pendingReviewStore (_labelEvents server p)).
  { unfold _labelEvents. apply preserves_bind; [apply restTyped_pending|].
    intros a. apply preserves_ret. }
  assert (H3 : preserves _pendingReviewStore (_milestoneEvents server p)).
  { unfold _milestoneEvents. apply preserves_bind; [apply restTyped_pending|].
    intros a. apply preserves_ret. }
  specialize (H1 st). destruct (_projectEvents server p st) as [r1 st1].
  specialize (H2 st1). destruct (_labelEvents server p st1) as [r2 st2].
  specialize (H3 st2). destruct (_milestoneEvents server p st2) as [r3 st3].
  simpl in *. destruct r1, r2, r3; simpl; congruence.
Qed.

Lemma assemble_pending (server : Server) (now : Z) (nowISO : string)
    (providerId key : option string) (p : ParsedId) (i : string) (st : State) :
  _pendingReviewStore (snd (assemble server now nowISO providerId key p i st))
  = _pendingReviewStore st.
Proof.
  unfold assemble.
  pose proof (query_pending now "GetPullRequest"
                [("fullPath", Str (projectFullPath p)); ("iid", Str i)]
                (fun h => requestGetPullRequest server h (projectFullPath p) i) st) as Hq.
  destruct (query now _ _ _ st) as [[[[u|] [[m|]|]]|t] st1]; simpl in Hq; try exact Hq.
  cbv iota beta. simpl qa_project. simpl qa_currentUser. cbv iota beta zeta.
  unfold rest. simpl calls.
  destruct (respond server _ _) as [body|ex]; [|exact Hq].
  destruct (groupByName body); [|exact Hq].
  destruct (a_sourceProject m); exact Hq.
Qed.

(** X4.  Fetching never loses a staged comment: whatever the server answers
    and whether the detail is cached or not, [getPullRequest] leaves the
    pending reviews of every merge request as they were. *)
Theorem getPullRequest_keeps_pending_reviews (server : Server) (now : Z) (nowISO : string)
    (providerId : option string) (pullRequestId : string) (force : bool) :
  preserves _pendingReviewStore
    (getPullRequest server now nowISO providerId pullRequestId force).
Proof.
  intros st. unfold getPullRequest, bind, lift.
  destruct (identify pullRequestId) as [[key p]|t]; [|reflexivity]. simpl.
  assert (Hfetch : forall st0,
             _pendingReviewStore
               (snd (fetchPullRequest server now nowISO providerId key p st0))
             = _pendingReviewStore st0).
  { intros st0. unfold fetchPullRequest.
    destruct p as [[path0 [i|]]|]; try reflexivity.
    pose proof (assemble_pending server now nowISO providerId key
                  {| projectFullPath := path0; iid := Some i |} i st0) as Ha.
    destruct (assemble server now nowISO providerId key _ i st0) as [[r|mr1] st5];
      simpl in Ha; [exact Ha|].
    pose proof (auxiliaryEvents_pending server
                  {| projectFullPath := path0; iid := Some i |} st5) as He.
    destruct (auxiliaryEvents server _ st5) as [[streams|t] st6]; simpl in *; congruence. }
  destruct force.
  - rewrite Hfetch. reflexivity.
  - destruct (_pullRequestCache st !! key); [reflexivity|apply Hfetch].
Qed.

(** X5.  A fetched detail is served from the cache.  When the merge request
    was assembled, the detail [getPullRequest] returns is the cached entry
    of the merge request, whether the event fetches succeeded or not, and a
    second fetch without [force] returns that same detail and leaves the
    state as it is: nothing is sent. *)
Theorem fetched_detail_is_cached (server : Server) (now : Z) (nowISO : string)
    (providerId : option string) (token : string) (key : option string) (p : ParsedId)
    (i : string) (force : bool) (st st5 : State) (mr1 : MergeRequest) :
  identify token = Ok (key, Some p) ->
  iid p = Some i ->
  force = true \/ _pullRequestCache st !! key = None ->
  assemble server now nowISO providerId key p i
    (if force then withCache st (delete key (_pullRequestCache st)) else st)
  = (inr mr1, st5) ->
  exists mr st',
    getPullRequest server now nowISO providerId token force st = (Ok (Response mr), st')
    /\ _pullRequestCache st' !! key = Some (Response mr)
    /\ getPullRequest server now nowISO providerId token false st' = (Ok (Response mr), st').
Proof.
  intros Hid Hiid Hmiss Hasm.
  destruct (assemble_cached _ _ _ _ _ _ _ _ _ _ Hasm) as [Hcached _].
  pose proof (auxiliaryEvents_cache server p st5) as Hsame.
  destruct p as [path0 iid0]. simpl in Hiid. subst iid0.
  assert (Hfetch : forall st0,
             assemble server now nowISO providerId key
               {| projectFullPath := path0; iid := Some i |} i st0 = (inr mr1, st5) ->
             exists mr st',
               fetchPullRequest server now nowISO providerId key
                 (Some {| projectFullPath := path0; iid := Some i |}) st0
               = (Ok (Response mr), st')
               /\ _pullRequestCache st' !! key = Some (Response mr)).
  { intros st0 H0. unfold fetchPullRequest. rewrite H0.
    destruct (auxiliaryEvents server _ st5) as [[streams|t'] st6]; simpl in Hsame.
    - eexists. eexists. split; [reflexivity|]. apply lookup_insert_eq.
    - eexists. eexists. split; [reflexivity|]. rewrite Hsame. exact Hcached. }
  destruct (Hfetch _ Hasm) as (mr & st' & Hget & Hcache).
  exists mr, st'. split; [|split; [exact Hcache|]].
  - unfold getPullRequest, bind, lift. rewrite Hid. simpl.
    destruct force; [exact Hget|].
    destruct Hmiss as [Hf|Hmiss]; [discriminate Hf|]. rewrite Hmiss. exact Hget.
  - unfold getPullRequest, bind, lift. rewrite Hid. simpl. rewrite Hcache. reflexivity.
Qed.

Lemma fetch_failed_query (server : Server) (now : Z) (nowISO : string)
    (providerId key : option string) (path0 i : string) (st0 : State) (ex : Ex) :
  _pullRequestCache st0 !! key = None ->
  tokenError st0 = None ->
  truthy (accessToken st0) = true ->
  requestGetPullRequest server (calls st0) path0 i = Failure ex ->
  exists st',
    fetchPullRequest server now nowISO providerId key
      (Some {| projectFullPath := path0; iid := Some i |}) st0 = (Ok EmptyResponse, st')
    /\ _pullRequestCache st' !! key = None
    /\ calls st' = calls st0 ++ [GRAPHQL "GetPullRequest" [("fullPath", Str path0); ("iid", Str i)]].
Proof.
  intros Hnone Hte Htok Hfail.
  unfold fetchPullRequest, assemble, query, client. rewrite Hte. simpl projectFullPath.
  destruct (_client st0).
  - rewrite Htok, Hfail. unfold query_catch.
    destruct (_isSuppressedException ex) as [[]|]; simpl;
      eexists; (split; [reflexivity|]); simpl; split; solve [exact Hnone | reflexivity].
  - simpl accessToken. rewrite Htok. simpl calls. rewrite Hfail. unfold query_catch.
    destruct (_isSuppressedException ex) as [[]|]; simpl;
      eexists; (split; [reflexivity|]); simpl; split; solve [exact Hnone | reflexivity].
Qed.

(** X6.  A failed query.  When the detail is not served from the cache and
    the server rejects the [GetPullRequest] query, [getPullRequest] does not
    throw: it returns the empty response after that one request and caches
    nothing.  With a token error on record it returns the empty response
    without sending anything. *)
Theorem failed_query_gives_empty_response (server : Server) (now : Z) (nowISO : string)
    (providerId : option string) (token : string) (key : option string) (p : ParsedId)
    (i : string) (force : bool) (st : State) :
  identify token = Ok (key, Some p) ->
  iid p = Some i ->
  force = true \/ _pullRequestCache st !! key = None ->
  (forall ex : Ex,
      tokenError st = None ->
      truthy (accessToken st) = true ->
      requestGetPullRequest server (calls st) (projectFullPath p) i = Failure ex ->
      exists st',
        getPullRequest server now nowISO providerId token force st = (Ok EmptyResponse, st')
        /\ _pullRequestCache st' !! key = None
        /\ calls st'
           = calls st
             ++ [GRAPHQL "GetPullRequest"
                   [("fullPath", Str (projectFullPath p)); ("iid", Str i)]])
  /\ (forall e : TokenError,
         tokenError st = Some e ->
         exists st',
           getPullRequest server now nowISO providerId token force st = (Ok EmptyResponse, st')
           /\ _pullRequestCache st' !! key = None
           /\ calls st' = calls st).
Proof.
  intros Hid Hiid Hmiss.
  destruct p as [path0 iid0]. simpl in Hiid. subst iid0. simpl projectFullPath.
  unfold getPullRequest, bind, lift. rewrite Hid. simpl.
  split.
  - intros ex Hte Htok Hfail. destruct force.
    + destruct (fetch_failed_query server now nowISO providerId key path0 i
                  (withCache st (delete key (_pullRequestCache st))) ex
                  (lookup_delete_eq _ _) Hte Htok Hfail) as (st' & H1 & H2 & H3).
      exists st'. auto.
    + destruct Hmiss as [Hf|Hm]; [discriminate Hf|]. rewrite Hm.
      apply (fetch_failed_query server now nowISO providerId key path0 i st ex); assumption.
  - intros e Hte.
    assert (Hfetch : forall st0,
               tokenError st0 = Some e ->
               fetchPullRequest server now nowISO providerId key
                 (Some {| projectFullPath := path0; iid := Some i |}) st0
               = (Ok EmptyResponse, withClient st0 false)).
    { intros st0 H0. unfold fetchPullRequest, assemble, query. rewrite H0. reflexivity. }
    destruct force.
    + eexists. split; [apply Hfetch; exact Hte|].
      split; [apply lookup_delete_eq|reflexivity].
    + destruct Hmiss as [Hf|Hm]; [discriminate Hf|]. rewrite Hm.
      eexists. split; [apply Hfetch; exact Hte|].
      split; [exact Hm|reflexivity].
Qed.

Lemma fetched_detail_is_cached_witness :
  identify Example.token = Ok (Example.key, Some Example.parsed)
  /\ _pullRequestCache Example.idle !! Example.key = None
  /\ exists mr st',
       getPullRequest Example.gitlab Example.startedAt Example.startedAtISO None
         Example.token false Example.idle = (Ok (Response mr), st')
       /\ _pullRequestCache st' !! Example.key = Some (Response mr)
       /\ getPullRequest Example.gitlab Example.startedAt Example.startedAtISO None
            Example.token false st' = (Ok (Response mr), st').
Proof.
  split; [reflexivity|]. split; [reflexivity|].
  exact (fetched_detail_is_cached Example.gitlab Example.startedAt Example.startedAtISO None
           Example.token Example.key Example.parsed "3" false Example.idle
           (snd (assemble Example.gitlab Example.startedAt Example.startedAtISO None
                   Example.key Example.parsed "3" Example.idle))
           (withPendingReview Example.startedAtISO (normalized None Example.data) None)
           eq_refl eq_refl (or_intror eq_refl) eq_refl).
Defined.

Lemma failed_query_gives_empty_response_witness :
  identify Example.token = Ok (Example.key, Some Example.parsed)
  /\ requestGetPullRequest Example.pagedServer (calls Example.idle) "group/proj" "3"
     = Failure Example.down
  /\ exists st',
       getPullRequest Example.pagedServer Example.startedAt Example.startedAtISO None
         Example.token true Example.idle = (Ok EmptyResponse, st')
       /\ _pullRequestCache st' !! Example.key = None
       /\ calls st'
          = calls Example.idle
            ++ [GRAPHQL "GetPullRequest" [("fullPath", Str "group/proj"); ("iid", Str "3")]].
Proof.
  split; [reflexivity|]. split; [reflexivity|].
  exact (proj1 (failed_query_gives_empty_response Example.pagedServer Example.startedAt
                  Example.startedAtISO None Example.token Example.key Example.parsed "3"
                  true Example.idle eq_refl eq_refl (or_introl eq_refl))
           Example.down eq_refl eq_refl eq_refl).
Defined.

(** ** More on failures *)

(** X7.  Nothing is sent without an access token.  When the provider has no
    access token, [query] and [mutate] throw and the call history is as it
    was.  With no token error on record, both create the client handle when
    it is missing and throw the missing token error; [query] does not
    classify it, and records no token error: the state it leaves differs
    from the one it found in the client handle at most.  With a token error
    on record, [query] throws the invalid token error and discards the
    client handle. *)
Theorem no_request_without_token (server : Server) (now : Z) (T : Type)
    (operation : string) (variables : list (string * Value)) (ask : list Call -> Reply T)
    (st : State) :
  truthy (accessToken st) = false ->
  let connected := if _client st then st else withClient st true in
  calls (snd (query now operation variables ask st)) = calls st
  /\ (exists t, fst (query now operation variables ask st) = Throw t)
  /\ (tokenError st = None ->
      query now operation variables ask st
      = (Throw (ErrorOf "Could not get a GitLab personal access token"), connected)
      /\ tokenError (snd (query now operation variables ask st)) = None
      /\ _client (snd (query now operation variables ask st)) = true)
  /\ (forall e,
         tokenError st = Some e ->
         query now operation variables ask st
         = (Throw (InternalError AccessTokenInvalid None), withClient st false))
  /\ mutate server operation variables st
     = (Throw (ErrorOf "Could not get a GitLab personal access token"), connected).
Proof.
  intros Htok connected. subst connected. unfold query, mutate, bind, client.
  destruct (tokenError st) as [e|] eqn:Hte.
  - split; [reflexivity|]. split; [eauto|]. split; [discriminate|].
    split; [intros e' _; reflexivity|].
    destruct (_client st); simpl; rewrite Htok; reflexivity.
  - destruct (_client st) eqn:Hc; simpl; rewrite Htok.
    + split; [reflexivity|]. split; [eauto|].
      split; [intros _; split; [reflexivity|split; [exact Hte|exact Hc]]|].
      split; [discriminate|reflexivity].
    + split; [reflexivity|]. split; [eauto|].
      split; [intros _; split; [reflexivity|split; [exact Hte|reflexivity]]|].
      split; [discriminate|reflexivity].
Qed.

Lemma no_request_without_token_witness :
  truthy (accessToken Sample.signedOut) = false
  /\ query 0 "GetPullRequest" [] (fun _ => Answer (complete Example.data)) Sample.signedOut
     = (Throw (ErrorOf "Could not get a GitLab personal access token"),
        withClient Sample.signedOut true)
  /\ tokenError
       (snd (query 0 "GetPullRequest" [] (fun _ => Answer (complete Example.data))
               Sample.signedOut)) = None.
Proof.
  split; [reflexivity|].
  destruct (proj1 (proj2 (proj2 (no_request_without_token Example.gitlab 0 QueryAnswer
                                   "GetPullRequest" []
                                   (fun _ => Answer (complete Example.data))
                                   Sample.signedOut eq_refl))) eq_refl) as (H1 & H2 & _).
  split; [exact H1|exact H2].
Defined.

(** X8.  What [query] does with a classified failure.  When the request
    fails with a failure of a suppressed class, [query] throws an internal
    error of that class that carries the failure.  After a network error the
    client handle is kept and no token error is recorded; after a
    connection or access-token error the client handle is discarded and a
    token error is recorded with the failure, the time and the connection
    flag. *)
Theorem query_classified_failure (now : Z) (T : Type) (operation : string)
    (variables : list (string * Value)) (ask : list Call -> Reply T) (st : State)
    (ex : Ex) (kind : ReportSuppressedMessages) :
  tokenError st = None ->
  truthy (accessToken st) = true ->
  ask (calls st) = Failure ex ->
  _isSuppressedException ex = Some kind ->
  let st' := snd (query now operation variables ask st) in
  fst (query now operation variables ask st) = Throw (InternalError kind (Some ex))
  /\ calls st' = calls st ++ [GRAPHQL operation variables]
  /\ (kind = NetworkError -> _client st' = true /\ tokenError st' = None)
  /\ (kind <> NetworkError ->
      _client st' = false
      /\ tokenError st'
         = Some {| te_error := ex;
                   te_occurredAt := now;
                   te_isConnectionError :=
                     match kind with ConnectionError => true | _ => false end |}).
Proof.
  intros Hte Htok Hask Hkind. unfold query, client, query_catch. rewrite Hte.
  destruct (_client st) eqn:Hc.
  - rewrite Htok, Hask, Hkind. destruct kind; simpl; repeat split;
      try congruence; try (intros _; assumption); intros H; contradiction.
  - simpl accessToken. rewrite Htok. simpl calls. rewrite Hask, Hkind.
    destruct kind; simpl; repeat split; try congruence; intros H; contradiction.
Qed.

Lemma query_classified_failure_witness :
  _isSuppressedException Example.exForbidden = Some AccessTokenInvalid
  /\ query Example.startedAt "GetPullRequest" [] (fun _ => @Failure QueryData Example.exForbidden)
       Example.idle
     = (Throw (InternalError AccessTokenInvalid (Some Example.exForbidden)),
        snd (query Example.startedAt "GetPullRequest" []
               (fun _ => @Failure QueryData Example.exForbidden) Example.idle))
  /\ _client (snd (query Example.startedAt "GetPullRequest" []
                     (fun _ => @Failure QueryData Example.exForbidden) Example.idle)) = false.
Proof.
  destruct (query_classified_failure Example.startedAt QueryData "GetPullRequest" []
              (fun _ => Failure Example.exForbidden) Example.idle Example.exForbidden
              AccessTokenInvalid eq_refl eq_refl eq_refl eq_refl) as (H1 & _ & _ & H2).
  split; [reflexivity|]. split.
  - rewrite <- H1. apply surjective_pairing.
  - apply H2. discriminate.
Defined.

Lemma messageMatches_includes (pat : string) (ex : Ex) (m : string) :
  ex_message ex = Some m -> Js.includes pat m = true -> pat <> "" ->
  messageMatches pat ex = true.
Proof.
  intros Hm Hinc Hpat. rewrite (includes_truthy pat m ex Hm Hpat). exact Hinc.
Qed.

(** X9.  The order of the classification.  Every one of the nine network
    patterns, found anywhere in the message, makes a failure a network
    error, whatever its response says; without a network pattern, the 404
    pattern makes it a connection error, whatever its response says; without
    either, a response with the message [Bad credentials] makes it an
    invalid access token; and a failure with no message is never a network
    or connection error. *)
Theorem classification_order (ex : Ex) :
  (forall pat m,
      In pat networkErrors -> ex_message ex = Some m -> Js.includes pat m = true ->
      _isSuppressedException ex = Some NetworkError)
  /\ (forall m,
         existsb (fun e => messageMatches e ex) networkErrors = false ->
         ex_message ex = Some m -> Js.includes "GraphQL Error (Code: 404)" m = true ->
         _isSuppressedException ex = Some ConnectionError)
  /\ (existsb (fun e => messageMatches e ex) networkErrors = false ->
      messageMatches "GraphQL Error (Code: 404)" ex = false ->
      badCredentials ex = true ->
      _isSuppressedException ex = Some AccessTokenInvalid)
  /\ (ex_message ex = None \/ ex_message ex = Some "" ->
      _isSuppressedException ex
      = if badCredentials ex || forbidden ex then Some AccessTokenInvalid else None).
Proof.
  split; [|split; [|split]].
  - intros pat m Hin Hm Hinc. unfold _isSuppressedException.
    assert (H : existsb (fun e => messageMatches e ex) networkErrors = true).
    { apply existsb_exists. exists pat. split; [exact Hin|].
      apply (messageMatches_includes pat ex m Hm Hinc).
      intros ->. unfold networkErrors in Hin. simpl in Hin.
      repeat (destruct Hin as [Hin|Hin]; [discriminate Hin|]). exact Hin. }
    rewrite H. reflexivity.
  - intros m Hnet Hm Hinc. unfold _isSuppressedException. rewrite Hnet.
    rewrite (messageMatches_includes _ ex m Hm Hinc) by discriminate. reflexivity.
  - intros Hnet H404 Hbad. unfold _isSuppressedException.
    rewrite Hnet, H404, Hbad. reflexivity.
  - intros Hm. unfold _isSuppressedException, messageMatches.
    destruct Hm as [-> | ->]; reflexivity.
Qed.

Lemma classification_order_witness :
  In "socket hang up" networkErrors
  /\ _isSuppressedException
       {| ex_message := Some "request to https://gitlab.com/api/graphql failed: socket hang up";
          ex_response := Some {| resp_message := Some "Bad credentials"; resp_errors := None |} |}
     = Some NetworkError.
Proof.
  split; [simpl; tauto|].
  apply (proj1 (classification_order
                  {| ex_message :=
                       Some "request to https://gitlab.com/api/graphql failed: socket hang up";
                     ex_response :=
                       Some {| resp_message := Some "Bad credentials"; resp_errors := None |} |})
           "socket hang up"
           "request to https://gitlab.com/api/graphql failed: socket hang up");
    [simpl; tauto|reflexivity|reflexivity].
Defined.

(** ** More on the pending review *)

Lemma stage_step (request : ReviewCommentRequest) (st : State) (key : option string) :
  actualPullRequestId (rc_pullRequestId request) = Ok key ->
  let st' := snd (createPullRequestReviewComment request st) in
  _pendingReviewStore st'
  = <[key := match _pendingReviewStore st !! key with
             | Some staged => staged ++ [Wrapped request]
             | None => [Bare request]
             end]> (_pendingReviewStore st)
  /\ _pullRequestCache st' = delete key (_pullRequestCache st)
  /\ calls st' = calls st
  /\ notifications st' = notifications st ++ [commentsChanged key request].
Proof.
  intros Hkey. unfold createPullRequestReviewComment, bind, lift, modify, ret.
  rewrite Hkey. simpl.
  destruct (_pendingReviewStore st !! key); simpl; repeat split; reflexivity.
Qed.

Lemma stageAll_started (key : option string) (token : string)
    (requests : list ReviewCommentRequest) :
  actualPullRequestId token = Ok key ->
  Forall (fun r => rc_pullRequestId r = token) requests ->
  forall (st : State) (staged : list Pending),
    _pendingReviewStore st !! key = Some staged ->
    _pendingReviewStore (stageAll requests st) !! key = Some (staged ++ map Wrapped requests)
    /\ calls (stageAll requests st) = calls st
    /\ notifications (stageAll requests st)
       = notifications st ++ map (commentsChanged key) requests
    /\ (forall k, k <> key ->
                  _pendingReviewStore (stageAll requests st) !! k = _pendingReviewStore st !! k).
Proof.
  intros Hkey Hall. induction Hall as [|r rest Hr Hrest IH]; intros st staged Hstaged.
  - simpl. rewrite !app_nil_r. auto.
  - simpl stageAll.
    destruct (stage_step r st key) as (Hs & _ & Hc & Hn); [rewrite Hr; exact Hkey|].
    set (st1 := snd (createPullRequestReviewComment r st)) in *.
    rewrite Hstaged in Hs.
    destruct (IH st1 (staged ++ [Wrapped r])) as (H1 & H2 & H3 & H4).
    { rewrite Hs. apply lookup_insert_eq. }
    split; [rewrite H1, <- app_assoc; reflexivity|].
    split; [congruence|].
    split; [rewrite H3, Hn, <- app_assoc; reflexivity|].
    intros k Hk. rewrite H4 by exact Hk. rewrite Hs. apply lookup_insert_ne. congruence.
Qed.

(** X10.  Staging accumulates in order and stays local.  Staging comments
    for a merge request one after the other, starting with no review under
    way, leaves its staged list with one entry per comment, in the order of
    the calls: the first stored as the request itself, the later ones as
    objects that wrap the request.  Nothing is sent to the server, one
    notification per comment is emitted, and the staged lists of all other
    merge requests are untouched. *)
Theorem staging_accumulates (key : option string) (token : string)
    (first : ReviewCommentRequest) (rest : list ReviewCommentRequest) (st : State) :
  actualPullRequestId token = Ok key ->
  Forall (fun r => rc_pullRequestId r = token) (first :: rest) ->
  _pendingReviewStore st !! key = None ->
  let st' := stageAll (first :: rest) st in
  _pendingReviewStore st' !! key = Some (Bare first :: map Wrapped rest)
  /\ calls st' = calls st
  /\ notifications st' = notifications st ++ map (commentsChanged key) (first :: rest)
  /\ _pullRequestCache st' !! key = None
  /\ (forall k, k <> key -> _pendingReviewStore st' !! k = _pendingReviewStore st !! k).
Proof.
  intros Hkey Hall Hnone st'.
  pose proof (List.Forall_inv Hall) as Hfirst. cbv beta in Hfirst.
  pose proof (List.Forall_inv_tail Hall) as Hrest.
  destruct (stage_step first st key) as (Hs & Hcache & Hc & Hn);
    [rewrite Hfirst; exact Hkey|].
  subst st'. simpl stageAll.
  set (st1 := snd (createPullRequestReviewComment first st)) in *.
  rewrite Hnone in Hs.
  destruct (stageAll_started key token rest Hkey Hrest st1 [Bare first])
    as (H1 & H2 & H3 & H4).
  { rewrite Hs. apply lookup_insert_eq. }
  split; [exact H1|]. split; [congruence|].
  split; [rewrite H3, Hn, <- app_assoc; reflexivity|].
  split.
  - assert (Hc1 : _pullRequestCache st1 !! key = None)
      by (rewrite Hcache; apply lookup_delete_eq).
    clear H1 H2 H3 H4 Hs Hn Hc Hcache Hall.
    clearbody st1. revert st1 Hc1.
    induction Hrest as [|r l Hr Hl IH]; intros st1 Hc1; [exact Hc1|].
    simpl stageAll. apply IH.
    assert (Hk : actualPullRequestId (rc_pullRequestId r) = Ok key)
      by (rewrite Hr; exact Hkey).
    pose proof (stage_step r st1 key Hk) as Hstep. cbv zeta in Hstep.
    destruct Hstep as (_ & Hcache' & _).
    rewrite Hcache'. apply lookup_delete_eq.
  - intros k Hk. rewrite H4 by exact Hk. rewrite Hs. apply lookup_insert_ne. congruence.
Qed.

Lemma staging_accumulates_witness :
  actualPullRequestId Example.token = Ok Example.key
  /\ Forall (fun r => rc_pullRequestId r = Example.token)
       [Example.comment "first" 10; Example.comment "second" 20; Example.comment "third" 30]
  /\ _pendingReviewStore Example.idle !! Example.key = None
  /\ _pendingReviewStore
       (stageAll [Example.comment "first" 10; Example.comment "second" 20;
                  Example.comment "third" 30] Example.idle) !! Example.key
     = Some [Bare (Example.comment "first" 10); Wrapped (Example.comment "second" 20);
             Wrapped (Example.comment "third" 30)].
Proof.
  assert (Hall : Forall (fun r => rc_pullRequestId r = Example.token)
                   [Example.comment "first" 10; Example.comment "second" 20;
                    Example.comment "third" 30]).
  { repeat constructor. }
  split; [reflexivity|]. split; [exact Hall|]. split; [reflexivity|].
  exact (proj1 (staging_accumulates Example.key Example.token (Example.comment "first" 10)
                  [Example.comment "second" 20; Example.comment "third" 30] Example.idle
                  eq_refl Hall eq_refl)).
Defined.

(** X11.  Nothing to submit.  With a valid, absent or empty event type, no
    staged comment for the merge request (no entry, or an empty one) and an
    empty summary text, [submitReview] returns true and changes nothing:
    nothing is sent, nothing is invalidated, no notification is emitted. *)
Theorem submitReview_nothing_to_submit (server : Server) (request : SubmitReviewRequest)
    (st : State) (key : option string) :
  actualPullRequestId (sr_pullRequestId request) = Ok key ->
  validEventType
    (if truthy (sr_eventType request) then show (sr_eventType request) else "COMMENT") = true ->
  _pendingReviewStore st !! key = None \/ _pendingReviewStore st !! key = Some [] ->
  sr_text request = "" ->
  submitReview server request st = (Ok true, st).
Proof.
  intros Hkey Hvalid Hstaged Htext.
  unfold submitReview, bind, lift. rewrite Hkey, Hvalid. change (negb true) with false.
  cbv iota beta. unfold flushStaged, postSummary. rewrite Htext.
  destruct Hstaged as [-> | ->]; reflexivity.
Qed.

Lemma submitReview_nothing_to_submit_witness :
  actualPullRequestId (sr_pullRequestId (Example.review "" (Some "APPROVE"))) = Ok Example.key
  /\ _pendingReviewStore Example.idle !! Example.key = None
  /\ submitReview Example.gitlab (Example.review "" (Some "APPROVE")) Example.idle
     = (Ok true, Example.idle).
Proof.
  split; [reflexivity|]. split; [reflexivity|].
  exact (submitReview_nothing_to_submit Example.gitlab (Example.review "" (Some "APPROVE"))
           Example.idle Example.key eq_refl eq_refl (or_introl eq_refl) eq_refl).
Defined.

(** X12.  Every staged comment is attempted.  For an identifier with a full
    reference, [submitReview] with an empty summary text sends exactly one
    [POST] to the discussions of the merge request for each staged comment,
    in the order of staging, and nothing else, whether the earlier posts
    succeeded or not, and returns true.  The [body] of each post is the
    [text] property of the staged entry: the text of an entry stored as the
    request itself, and undefined for an entry that wraps its request. *)
Theorem submitReview_attempts_every_comment (server : Server) (request : SubmitReviewRequest)
    (st : State) (key : option string) (p : ParsedId) (staged : list Pending) :
  identify (sr_pullRequestId request) = Ok (key, Some p) ->
  validEventType
    (if truthy (sr_eventType request) then show (sr_eventType request) else "COMMENT") = true ->
  _pendingReviewStore st !! key = Some staged ->
  sr_text request = "" ->
  fst (submitReview server request st) = Ok true
  /\ exists bodies,
       Forall2 (fun c body => prop "body" body = Ok (ofOption (pending_text c))) staged bodies
       /\ calls (snd (submitReview server request st))
          = calls st ++ map (POST (mergeRequestUrl p +:+ "/discussions")) bodies.
Proof.
  intros Hid Hvalid Hstaged Htext.
  pose proof (identify_actual _ _ _ Hid) as Hkey.
  assert (Hparse : exists parsed,
             JSON_parse (sr_pullRequestId request) = Ok parsed /\ splitFull parsed = Ok p).
  { unfold identify in Hid. destruct (String.eqb (sr_pullRequestId request) "");
      [discriminate|].
    destruct (JSON_parse (sr_pullRequestId request)) as [parsed|t]; [|discriminate].
    destruct (splitFull parsed) as [p'|t] eqn:E; [|discriminate].
    injection Hid as _ ->. eauto. }
  destruct Hparse as (parsed & Hparse & Hsplit).
  unfold submitReview, bind, lift. rewrite Hkey, Hvalid. change (negb true) with false.
  cbv iota beta. unfold flushStaged, postSummary. rewrite Htext, Hstaged.
  destruct staged as [|c cs].
  - split; [reflexivity|]. exists []. simpl. rewrite app_nil_r. split; [constructor|reflexivity].
  - unfold bind.
    destruct (postStaged_calls server (sr_pullRequestId request) parsed p (c :: cs)
                Hparse Hsplit st) as (bodies & Hall & Hcalls).
    pose proof (postStaged_returns server (sr_pullRequestId request) (c :: cs) st) as Hret.
    destruct (postStaged server (sr_pullRequestId request) (c :: cs) st) as [[[]|t] st1];
      simpl in Hret; [|discriminate Hret].
    simpl. split; [reflexivity|]. exists bodies. split; [exact Hall|exact Hcalls].
Qed.

Lemma submitReview_attempts_every_comment_witness :
  identify Example.token = Ok (Example.key, Some Example.parsed)
  /\ _pendingReviewStore Example.staged !! Example.key
     = Some [Bare (Example.comment "first" 10); Wrapped (Example.comment "second" 20)]
  /\ fst (submitReview Example.gitlab (Example.review "" None) Example.staged) = Ok true.
Proof.
  split; [reflexivity|]. split; [vm_compute; reflexivity|].
  refine (proj1 (submitReview_attempts_every_comment Example.gitlab (Example.review "" None)
                   Example.staged Example.key Example.parsed
                   [Bare (Example.comment "first" 10); Wrapped (Example.comment "second" 20)]
                   eq_refl eq_refl _ eq_refl)).
  vm_compute. reflexivity.
Defined.

(** ** More on identifiers *)

Lemma parseId_token (id full : string) :
  parseId (mergeRequestFullId id full)
  = Ok {| projectFullPath := nth 0 (Js.split "!" full) "";
          iid := nth_error (Js.split "!" full) 1 |}.
Proof.
  unfold parseId, JSON_parse, mergeRequestFullId. rewrite parse_stringify. reflexivity.
Qed.

Lemma identify_token (id full : string) :
  identify (mergeRequestFullId id full)
  = Ok (Some id, Some {| projectFullPath := nth 0 (Js.split "!" full) "";
                         iid := nth_error (Js.split "!" full) 1 |}).
Proof.
  unfold identify, JSON_parse, mergeRequestFullId. rewrite parse_stringify. reflexivity.
Qed.

(** X13.  Identifiers off the beaten path.  [parseId] reads the text up to
    the first [!] as the project path and the text between the first and
    the second [!] as the internal id: whatever follows a second [!] is
    dropped.  A reference without [!] gives the whole reference as the path
    and an undefined internal id, and [getPullRequest] then returns the
    empty response without sending anything.  A token without [full] makes
    [parseId] throw a type error, the empty token a syntax error. *)
Theorem parseId_edge_cases (server : Server) (now : Z) (nowISO : string)
    (providerId : option string) (id p i rest : string) (st : State) :
  Js.noChar "!" p = true ->
  Js.noChar "!" i = true ->
  _pullRequestCache st !! Some id = None ->
  parseId (mergeRequestFullId id (p +:+ "!" +:+ i +:+ "!" +:+ rest))
  = Ok {| projectFullPath := p; iid := Some i |}
  /\ parseId (mergeRequestFullId id p) = Ok {| projectFullPath := p; iid := None |}
  /\ getPullRequest server now nowISO providerId (mergeRequestFullId id p) false st
     = (Ok EmptyResponse, st)
  /\ parseId (JSON.stringify [("id", id)]) = Throw TypeError
  /\ parseId "" = Throw SyntaxError.
Proof.
  intros Hp Hi Hmiss. split; [|split; [|split; [|split]]].
  - rewrite parseId_token. norm_app. rewrite split_append by exact Hp.
    change (String "!" rest) with ("" +:+ String "!" rest).
    rewrite <- append_assoc, append_nil_r.
    rewrite split_append by exact Hi. reflexivity.
  - rewrite parseId_token, split_noChar by exact Hp. reflexivity.
  - unfold getPullRequest, bind, lift. rewrite identify_token.
    rewrite split_noChar by exact Hp. simpl. rewrite Hmiss. reflexivity.
  - unfold parseId, JSON_parse. rewrite parse_stringify. reflexivity.
  - reflexivity.
Qed.

Lemma parseId_edge_cases_witness :
  Js.noChar "!" "group/proj" = true
  /\ Js.noChar "!" "3" = true
  /\ _pullRequestCache Example.idle !! Some "gid://gitlab/MergeRequest/7" = None
  /\ parseId (mergeRequestFullId "gid://gitlab/MergeRequest/7" "group/proj!3!4")
     = Ok {| projectFullPath := "group/proj"; iid := Some "3" |}.
Proof.
  split; [reflexivity|]. split; [reflexivity|]. split; [reflexivity|].
  exact (proj1 (parseId_edge_cases Example.gitlab 0 "" None "gid://gitlab/MergeRequest/7"
                  "group/proj" "3" "4" Example.idle eq_refl eq_refl eq_refl)).
Defined.

(** X14.  The computed identifier closes the loop.  When the reference of
    the merge request is [!] followed by its internal id, the [idComputed]
    that [getPullRequest] writes into the detail is a token that decodes to
    the id of the merge request, the path of its source project and its
    internal id; handed back to [getPullRequest], it is answered from the
    cache entry stored under that id. *)
Theorem computed_identifier_decodes (server : Server) (now : Z) (nowISO : string)
    (providerId : option string) (d : QueryData) (i : string) (st : State) (cached : Detail) :
  q_reference d = "!" +:+ i ->
  Js.noChar "!" (sp_fullPath (q_sourceProject d)) = true ->
  Js.noChar "!" i = true ->
  _pullRequestCache st !! Some (q_id d) = Some cached ->
  exists token,
    mr_idComputed (normalized providerId d) = Some token
    /\ identify token
       = Ok (Some (q_id d),
             Some {| projectFullPath := sp_fullPath (q_sourceProject d); iid := Some i |})
    /\ getPullRequest server now nowISO providerId token false st = (Ok cached, st).
Proof.
  intros Href Hp Hi Hcached.
  exists (mergeRequestFullId (q_id d) (referencesFull d)).
  assert (Hid : identify (mergeRequestFullId (q_id d) (referencesFull d))
                = Ok (Some (q_id d),
                      Some {| projectFullPath := sp_fullPath (q_sourceProject d);
                              iid := Some i |})).
  { rewrite identify_token. unfold referencesFull. rewrite Href.
    rewrite split_bang by assumption. reflexivity. }
  split; [reflexivity|]. split; [exact Hid|].
  unfold getPullRequest, bind, lift. rewrite Hid. simpl. rewrite Hcached. reflexivity.
Qed.

Lemma computed_identifier_decodes_witness :
  q_reference Example.data = "!" +:+ "3"
  /\ Js.noChar "!" (sp_fullPath (q_sourceProject Example.data)) = true
  /\ exists token,
       mr_idComputed (normalized None Example.data) = Some token
       /\ identify token
          = Ok (Some (q_id Example.data),
                Some {| projectFullPath := sp_fullPath (q_sourceProject Example.data);
                        iid := Some "3" |}).
Proof.
  split; [reflexivity|]. split; [reflexivity|].
  destruct (computed_identifier_decodes Example.gitlab 0 "" None Example.data "3"
              (withCache Example.idle (<[Some (q_id Example.data) := EmptyResponse]> ∅))
              EmptyResponse eq_refl eq_refl eq_refl (lookup_insert_eq _ _ _))
    as (token & H1 & H2 & _).
  exists token. split; [exact H1|exact H2].
Defined.

Lemma includes_unfold (pat s : string) :
  Js.includes pat s
  = String.prefix pat s
    || match s with
       | EmptyString => false
       | String _ r => Js.includes pat r
       end.
Proof. destruct s; reflexivity. Qed.

Lemma replace_absent (pat rep s : string) :
  Js.includes pat s = false -> Js.replace pat rep s = s.
Proof.
  induction s as [|c s IH]; intros H; rewrite includes_unfold in H;
    apply orb_false_iff in H as [H1 H2]; rewrite replace_unfold, H1.
  - reflexivity.
  - rewrite (IH H2). reflexivity.
Qed.

(** X15.  The database id of a note.  For a note whose discussion id is one
    of the two global-id prefixes followed by a hash, the [databaseId] that
    [getPullRequest] writes is the hash, provided the hash does not itself
    hold the prefix removed second; a discussion id without either prefix is
    copied as it is.  The note also gets the computed identifier, and a note
    without a discussion id is left alone. *)
Theorem databaseId_strips_prefix (fullId : string) (n : Note) (hash : string) :
  Js.includes "gid://gitlab/IndividualNoteDiscussion/" hash = false ->
  Js.includes "gid://gitlab/DiffDiscussion/" hash = false ->
  (forall prefix,
      In prefix ["gid://gitlab/DiffDiscussion/"; "gid://gitlab/IndividualNoteDiscussion/"; ""] ->
      prefix +:+ hash <> "" ->
      note_discussion_id n = Some (prefix +:+ hash) ->
      note_databaseId (annotate fullId n) = Some hash
      /\ note_mergeRequestIdComputed (annotate fullId n) = Some fullId)
  /\ (truthy (note_discussion_id n) = false -> annotate fullId n = n).
Proof.
  intros Hnote Hdiff. split.
  - intros prefix Hin Hne Hid. unfold annotate. rewrite Hid.
    assert (Htruthy : truthy (Some (prefix +:+ hash)) = true).
    { simpl. apply negb_true_iff, String.eqb_neq. exact Hne. }
    rewrite Htruthy. simpl note_databaseId. simpl note_mergeRequestIdComputed.
    split; [|reflexivity]. f_equal. simpl show.
    destruct Hin as [<- | [<- | [<- | []]]].
    + rewrite replace_prefix. apply replace_absent. exact Hnote.
    + rewrite (replace_absent "gid://gitlab/DiffDiscussion/").
      * apply replace_prefix.
      * norm_app. simpl. simpl in Hdiff. exact Hdiff.
    + rewrite append_nil_l, (replace_absent _ _ hash Hdiff). apply replace_absent. exact Hnote.
  - intros H. unfold annotate. rewrite H. reflexivity.
Qed.

Lemma databaseId_strips_prefix_witness :
  Js.includes "gid://gitlab/IndividualNoteDiscussion/" "4f2a" = false
  /\ Js.includes "gid://gitlab/DiffDiscussion/" "4f2a" = false
  /\ note_databaseId (annotate Example.token (Example.note "5" "2021-03-01T10:00:00Z"))
     = Some "4f2a".
Proof.
  split; [reflexivity|]. split; [reflexivity|].
  refine (proj1 (proj1 (databaseId_strips_prefix Example.token
                          (Example.note "5" "2021-03-01T10:00:00Z")
                          "4f2a" eq_refl eq_refl)
                   "gid://gitlab/DiffDiscussion/" (or_introl eq_refl) _ eq_refl)).
  discriminate.
Defined.

(** ** More on the timeline *)




(** ** More on the event streams *)

(** X17.  The activity stream.  When the server answers the events request,
    [_projectEvents] records that one request and returns exactly one event
    for each raw event whose action is neither a comment nor a push, in the
    order of the answer: its type is [merge-request], and its creation
    time, action and id are those of the raw event.  The request names the
    project only: the stream is the same whatever the internal id. *)
Theorem activity_stream_is_filtered (server : Server) (p : ParsedId) (st : State)
    (body : list RawProjectEvent) :
  let url := "/projects/" +:+ encodeURIComponent (projectFullPath p) +:+ "/events" in
  getEvents server (calls st) url = Answer body ->
  (exists events,
      _projectEvents server p st = (Ok (map NodeEvent events), record st (GET url))
      /\ Forall2 (fun raw e =>
                    ev_type e = "merge-request"
                    /\ ev_createdAt e = rpe_created_at raw
                    /\ ev_action e = rpe_action_name raw
                    /\ ev_id e = rpe_id raw)
           (List.filter (fun raw => negb (isCommentOrPush (rpe_action_name raw))) body)
           events)
  /\ forall i, _projectEvents server {| projectFullPath := projectFullPath p; iid := i |} st
               = _projectEvents server p st.
Proof.
  intros url Hget. split; [|reflexivity].
  exists (map projectEvent (List.filter keptActivity body)). split.
  - unfold _projectEvents, bind, restTyped, ret. fold url. rewrite Hget. simpl.
    rewrite map_map. reflexivity.
  - clear Hget. induction body as [|raw body IH]; [constructor|].
    simpl. unfold keptActivity at 1, isCommentOrPush at 1.
    rewrite <- negb_orb.
    destruct (String.eqb (rpe_action_name raw) "commented on"
              || String.eqb (rpe_action_name raw) "pushed to"); simpl; [exact IH|].
    constructor; [repeat split|exact IH].
Qed.

Lemma activity_stream_is_filtered_witness :
  getEvents Example.gitlab (calls Example.idle)
    ("/projects/" +:+ encodeURIComponent (projectFullPath Example.parsed) +:+ "/events")
  = Answer Example.activity
  /\ exists events,
       fst (_projectEvents Example.gitlab Example.parsed Example.idle)
       = Ok (map NodeEvent events)
       /\ length events = 1%nat.
Proof.
  split; [reflexivity|].
  destruct (proj1 (activity_stream_is_filtered Example.gitlab Example.parsed Example.idle
                     Example.activity eq_refl)) as (events & H & HF).
  exists events. split; [rewrite H; reflexivity|].
  apply Forall2_length in HF. rewrite <- HF. reflexivity.
Defined.

(** ** Which failures reach the caller *)

Lemma orUndefined_fst {A} (m : M A) (st : State) :
  fst (orUndefined m st)
  = Ok (match fst (m st) with Ok a => Some a | Throw _ => None end).
Proof.
  unfold orUndefined, catch, bind, ret. destruct (m st) as [[a|t] st1]; reflexivity.
Qed.

Lemma bind_throws {A B} (m : M A) (k : A -> M B) (st : State) (t : Thrown) :
  fst (m st) = Throw t -> fst (bind m k st) = Throw t.
Proof. unfold bind. destruct (m st) as [[a|t'] st1]; simpl; congruence. Qed.

Lemma rest_rejected (server : Server) (c : Call) (st : State) (ex : Ex) :
  respond server (calls st) c = Failure ex ->
  rest server c st = (Throw (Raised ex), record st c).
Proof. intros H. unfold rest. rewrite H. reflexivity. Qed.

Lemma mutate_rejected (server : Server) (operation : string)
    (variables : list (string * Value)) (st : State) :
  (exists ex, respond server (calls st) (GRAPHQL operation variables) = Failure ex) ->
  exists t, fst (mutate server operation variables st) = Throw t.
Proof.
  intros [ex H]. unfold mutate, bind, client.
  destruct (_client st); destruct (truthy _); simpl; try rewrite H; simpl; eauto.
Qed.

(** X18.  Operations that never throw.  Once the identifier decodes,
    [mergePullRequest], [toggleMilestoneOnPullRequest],
    [setWorkInProgressOnPullRequest] and [setLabelOnPullRequest] return
    whatever the server does and whatever the state of the connection; when
    the server rejects the request, what they return is undefined. *)
Theorem guarded_operations_never_throw (server : Server) (token : string) (p : ParsedId)
    (st : State) :
  parseId token = Ok p ->
  let rejects := forall c, exists ex, respond server (calls st) c = Failure ex in
  (forall message deleteSourceBranch squashCommits,
      exists r,
        fst (mergePullRequest server token message deleteSourceBranch squashCommits st) = Ok r
        /\ (rejects -> r = None))
  /\ (forall milestoneId,
         exists r,
           fst (toggleMilestoneOnPullRequest server token milestoneId st) = Ok r
           /\ (rejects -> r = None))
  /\ (forall onOff,
         exists r,
           fst (setWorkInProgressOnPullRequest server token onOff st) = Ok r
           /\ (rejects -> r = None))
  /\ (forall labelIds,
         exists r,
           fst (setLabelOnPullRequest server token labelIds st) = Ok r
           /\ (rejects -> r = None)).
Proof.
  intros Hparse rejects. split; [|split; [|split]].
  - intros message d s. unfold mergePullRequest, bind at 1, lift. rewrite Hparse.
    rewrite orUndefined_fst. eexists. split; [reflexivity|].
    intros Hrej. destruct (Hrej (PUT (mergeRequestUrl p +:+ "/merge")
      (Obj [ ("merge_commit_message", Str message);
             ("squash", match s with Some b => Bool b | None => Undefined end);
             ("should_remove_source_branch",
              match d with Some b => Bool b | None => Undefined end) ]))) as [ex Hex].
    erewrite bind_throws; [reflexivity|]. rewrite (rest_rejected _ _ _ _ Hex). reflexivity.
  - intros milestoneId. unfold toggleMilestoneOnPullRequest, bind at 1, lift. rewrite Hparse.
    rewrite orUndefined_fst. eexists. split; [reflexivity|].
    intros Hrej.
    destruct (Hrej (PUT (mergeRequestUrl p) (Obj [("milestone_id", Str milestoneId)])))
      as [ex Hex].
    erewrite bind_throws; [reflexivity|]. rewrite (rest_rejected _ _ _ _ Hex). reflexivity.
  - intros onOff. unfold setWorkInProgressOnPullRequest, bind at 1, lift. rewrite Hparse.
    rewrite orUndefined_fst. eexists. split; [reflexivity|].
    intros Hrej.
    destruct (mutate_rejected server "MergeRequestSetWip"
                [("projectPath", Str (projectFullPath p)); ("iid", ofOption (iid p));
                 ("wip", Bool onOff)] st (Hrej _)) as [t Ht].
    erewrite bind_throws; [reflexivity|exact Ht].
  - intros labelIds. unfold setLabelOnPullRequest, bind at 1, lift. rewrite Hparse.
    rewrite orUndefined_fst. eexists. split; [reflexivity|].
    intros Hrej.
    destruct (mutate_rejected server "MergeRequestSetLabels"
                [("projectPath", Str (projectFullPath p)); ("iid", ofOption (iid p));
                 ("labelIds", Arr (map Str labelIds))] st (Hrej _)) as [t Ht].
    erewrite bind_throws; [reflexivity|exact Ht].
Qed.

Lemma guarded_operations_never_throw_witness :
  parseId Example.token = Ok Example.parsed
  /\ fst (mergePullRequest Example.pagedServer Example.token "merge" None None Example.idle)
     = Ok None.
Proof.
  split; [reflexivity|].
  destruct (proj1 (guarded_operations_never_throw Example.pagedServer Example.token
                     Example.parsed Example.idle eq_refl) "merge" None None)
    as (r & Hr & Hnone).
  rewrite Hr. f_equal. apply Hnone. intros c. exists Example.down. reflexivity.
Defined.

(** X19.  Operations that pass a failure on.  When the server rejects the
    request, [lockPullRequest] and [unlockPullRequest] throw the failure the
    server gave, and so does [togglePullRequestApproval] when it approves;
    when it withdraws an approval the failure is swallowed and the directive
    is returned without data.  In each case the one request is on record
    and nothing else of the state has changed. *)
Theorem unguarded_operations_throw (server : Server) (token : string) (p : ParsedId)
    (st : State) :
  parseId token = Ok p ->
  let lock := PUT (mergeRequestUrl p) (Obj [("discussion_locked", Bool true)]) in
  let unlock := PUT (mergeRequestUrl p) (Obj [("discussion_locked", Bool false)]) in
  let approve := POST (mergeRequestUrl p +:+ "/approve") (Obj []) in
  let unapprove := POST (mergeRequestUrl p +:+ "/unapprove") (Obj []) in
  (forall ex, respond server (calls st) lock = Failure ex ->
              lockPullRequest server token st = (Throw (Raised ex), record st lock))
  /\ (forall ex, respond server (calls st) unlock = Failure ex ->
                 unlockPullRequest server token st = (Throw (Raised ex), record st unlock))
  /\ (forall ex, respond server (calls st) approve = Failure ex ->
                 togglePullRequestApproval server token true st
                 = (Throw (Raised ex), record st approve))
  /\ (forall ex, respond server (calls st) unapprove = Failure ex ->
                 togglePullRequestApproval server token false st
                 = (Ok [Directive_ "removeApprovedBy" Undefined], record st unapprove)).
Proof.
  intros Hparse lock unlock approve unapprove. split; [|split; [|split]]; intros ex Hex.
  - unfold lockPullRequest, setLocked, bind, lift. rewrite Hparse.
    fold lock. rewrite (rest_rejected _ _ _ _ Hex). reflexivity.
  - unfold unlockPullRequest, setLocked, bind, lift. rewrite Hparse.
    fold unlock. rewrite (rest_rejected _ _ _ _ Hex). reflexivity.
  - unfold togglePullRequestApproval, bind, lift. rewrite Hparse.
    fold approve. rewrite (rest_rejected _ _ _ _ Hex). reflexivity.
  - unfold togglePullRequestApproval, bind, lift. rewrite Hparse.
    unfold orUndefined, catch, bind. fold unapprove.
    rewrite (rest_rejected _ _ _ _ Hex). reflexivity.
Qed.

Lemma unguarded_operations_throw_witness :
  parseId Example.token = Ok Example.parsed
  /\ respond Example.pagedServer (calls Example.idle)
       (PUT (mergeRequestUrl Example.parsed) (Obj [("discussion_locked", Bool true)]))
     = Failure Example.down
  /\ fst (lockPullRequest Example.pagedServer Example.token Example.idle)
     = Throw (Raised Example.down).
Proof.
  split; [reflexivity|]. split; [reflexivity|].
  rewrite (proj1 (unguarded_operations_throw Example.pagedServer Example.token
                    Example.parsed Example.idle eq_refl) Example.down eq_refl).
  reflexivity.
Defined.

(** X20.  A failed comment leaves no trace.  When [createCommitComment] or
    [deletePullRequestComment] throws, be it on the identifier, on the
    connection or on the server's answer, the cache, the pending reviews and
    the notifications are as they were: the cached detail is dropped and the
    notification sent only after the server accepted the request. *)
Theorem failed_comment_leaves_no_trace (server : Server) (st : State) :
  (forall request t,
      fst (createCommitComment server request st) = Throw t ->
      let st' := snd (createCommitComment server request st) in
      _pullRequestCache st' = _pullRequestCache st
      /\ _pendingReviewStore st' = _pendingReviewStore st
      /\ notifications st' = notifications st)
  /\ (forall noteId token t,
         fst (deletePullRequestComment server noteId token st) = Throw t ->
         let st' := snd (deletePullRequestComment server noteId token st) in
         _pullRequestCache st' = _pullRequestCache st
         /\ _pendingReviewStore st' = _pendingReviewStore st
         /\ notifications st' = notifications st).
Proof.
  split.
  - intros request t. unfold createCommitComment, bind, lift, modify, ret, rest.
    destruct (JSON_parse (ic_pullRequestId request)) as [parsed|t0]; [|simpl; auto].
    destruct (splitFull parsed) as [p|t0]; [|simpl; auto].
    destruct (respond server (calls st) _) as [body|ex]; simpl; [discriminate|auto].
  - intros noteId token t.
    unfold deletePullRequestComment, mutate, client, bind, lift, modify, ret.
    destruct (actualPullRequestId token) as [key|t0]; [|simpl; auto].
    destruct (_client st); simpl accessToken; destruct (truthy (accessToken st)); simpl;
      try solve [auto];
      destruct (respond server (calls st) (GRAPHQL "DestroyNote" [("id", Str noteId)]))
        as [body|ex]; simpl; solve [discriminate|auto].
Qed.

Lemma failed_comment_leaves_no_trace_witness :
  fst (createCommitComment Example.gitlab
         (spread (Bare (Example.comment "first" 10)) Example.token) Example.staged)
  = Throw (Raised Example.down)
  /\ _pendingReviewStore
       (snd (createCommitComment Example.gitlab
               (spread (Bare (Example.comment "first" 10)) Example.token) Example.staged))
     = _pendingReviewStore Example.staged.
Proof.
  split; [vm_compute; reflexivity|].
  refine (proj1 (proj2 (proj1 (failed_comment_leaves_no_trace Example.gitlab Example.staged)
                          (spread (Bare (Example.comment "first" 10)) Example.token)
                          (Raised Example.down) _))).
  vm_compute. reflexivity.
Defined.

(** An answered query returns the answer and records the request. *)
Lemma query_answered (now : Z) {T} (operation : string) (variables : list (string * Value))
    (ask : list Call -> Reply T) (st : State) (a : T) :
  tokenError st = None ->
  truthy (accessToken st) = true ->
  ask (calls st) = Answer a ->
  query now operation variables ask st
  = (Ok a, record (if _client st then st else withClient st true)
             (GRAPHQL operation variables)).
Proof.
  intros Hte Htok Hask. unfold query, client. rewrite Hte.
  destruct (_client st); simpl accessToken; rewrite Htok; simpl calls; rewrite Hask;
    reflexivity.
Qed.

(** X21.  The awards request.  When the detail is not served from the
    cache and the query is answered with a current user and a merge
    request, [getPullRequest] records the user name and requests the awards
    of the merge request.  When that request is rejected, or answered with a
    body whose entries cannot all be read, [getPullRequest] does not throw:
    it returns the answer of the query with the viewer assigned and nothing
    else computed, after those two requests; the event streams are not
    requested, and nothing is cached. *)
Theorem failed_awards_gives_raw_response (server : Server) (now : Z) (nowISO : string)
    (providerId : option string) (token : string) (key : option string) (path0 i : string)
    (st : State) (a : QueryAnswer) (username : string) (m : MergeRequestAnswer) :
  identify token = Ok (key, Some {| projectFullPath := path0; iid := Some i |}) ->
  _pullRequestCache st !! key = None ->
  tokenError st = None ->
  truthy (accessToken st) = true ->
  requestGetPullRequest server (calls st) path0 i = Answer a ->
  qa_currentUser a = Some username ->
  qa_project a = Some (Some m) ->
  let sent := GRAPHQL "GetPullRequest" [("fullPath", Str path0); ("iid", Str i)] in
  let awards :=
    GET (mergeRequestUrl {| projectFullPath := path0; iid := Some i |} +:+ "/award_emoji") in
  (exists ex, respond server (calls st ++ [sent]) awards = Failure ex)
  \/ (exists body,
         respond server (calls st ++ [sent]) awards = Answer body
         /\ groupByName body = Throw TypeError) ->
  exists st',
    getPullRequest server now nowISO providerId token false st
    = (Ok (Interrupted a ViewerAssigned), st')
    /\ _pullRequestCache st' !! key = None
    /\ calls st' = calls st ++ [sent; awards]
    /\ _gitlabUsername st' = Some username.
Proof.
  intros Hid Hmiss Hte Htok Hquery Huser Hmr sent awards Hawards.
  unfold getPullRequest, bind, lift. rewrite Hid. simpl. rewrite Hmiss.
  unfold fetchPullRequest, assemble. simpl projectFullPath.
  rewrite (query_answered now _ _ _ st a Hte Htok Hquery), Hmr, Huser.
  fold sent. fold awards. unfold rest. simpl calls. rewrite connected_calls.
  destruct Hawards as [[ex Hex] | (body & Hbody & Hgroup)].
  - rewrite Hex. eexists. split; [reflexivity|]. simpl.
    rewrite connected_cache, connected_calls, <- app_assoc.
    split; [exact Hmiss|]. split; reflexivity.
  - rewrite Hbody, Hgroup. eexists. split; [reflexivity|]. simpl.
    rewrite connected_cache, connected_calls, <- app_assoc.
    split; [exact Hmiss|]. split; reflexivity.
Qed.

Lemma failed_awards_gives_raw_response_witness :
  identify Example.token = Ok (Example.key, Some Example.parsed)
  /\ _pullRequestCache Example.idle !! Example.key = None
  /\ exists st',
       getPullRequest Sample.noAwards Example.startedAt Example.startedAtISO None
         Example.token false Example.idle
       = (Ok (Interrupted (complete Example.data) ViewerAssigned), st')
       /\ _pullRequestCache st' !! Example.key = None.
Proof.
  split; [reflexivity|]. split; [reflexivity|].
  destruct (failed_awards_gives_raw_response Sample.noAwards Example.startedAt
              Example.startedAtISO None Example.token Example.key "group/proj" "3"
              Example.idle (complete Example.data) "ada"
              {| a_id := "gid://gitlab/MergeRequest/7";
                 a_iid := "3";
                 a_createdAt := "2021-03-01T09:00:00Z";
                 a_sourceBranch := "feature";
                 a_targetBranch := "main";
                 a_title := "Add pagination";
                 a_state := "opened";
                 a_mergedAt := None;
                 a_reference := "!3";
                 a_diffRefs := Some {| baseSha := "b1"; headSha := "h1"; startSha := "s1" |};
                 a_sourceProject := Some (q_sourceProject Example.data);
                 a_discussions := [Example.thread] |}
              eq_refl eq_refl eq_refl eq_refl eq_refl eq_refl eq_refl
              (or_introl (ex_intro _ Example.down eq_refl))) as (st' & H1 & H2 & _).
  exists st'. split; [exact H1|exact H2].
Defined.

(** X26.  An answer with a null.  When the detail is not served from the
    cache and the query is answered without a current user, without a
    project or without a merge request, [getPullRequest] does not throw: it
    returns the answer as it was received after that one request; the awards
    are not requested, the user name is not recorded and nothing is cached.
    When the answer has all three but the source project of the merge
    request is null, and the awards request is answered, [getPullRequest]
    returns the answer with the viewer, the reactions, the provider id and
    the base and head references assigned, after those two requests: the
    event streams are not requested, nothing is cached, and the pending
    reviews are as they were. *)
Theorem incomplete_answer_is_returned (server : Server) (now : Z) (nowISO : string)
    (providerId : option string) (token : string) (key : option string) (path0 i : string)
    (st : State) (a : QueryAnswer) :
  identify token = Ok (key, Some {| projectFullPath := path0; iid := Some i |}) ->
  _pullRequestCache st !! key = None ->
  tokenError st = None ->
  truthy (accessToken st) = true ->
  requestGetPullRequest server (calls st) path0 i = Answer a ->
  let sent := GRAPHQL "GetPullRequest" [("fullPath", Str path0); ("iid", Str i)] in
  let awards :=
    GET (mergeRequestUrl {| projectFullPath := path0; iid := Some i |} +:+ "/award_emoji") in
  (qa_currentUser a = None \/ qa_project a = None \/ qa_project a = Some None ->
   exists st',
     getPullRequest server now nowISO providerId token false st
     = (Ok (Interrupted a NothingAssigned), st')
     /\ _pullRequestCache st' !! key = None
     /\ calls st' = calls st ++ [sent]
     /\ _gitlabUsername st' = _gitlabUsername st)
  /\ (forall username m body,
         qa_currentUser a = Some username ->
         qa_project a = Some (Some m) ->
         a_sourceProject m = None ->
         respond server (calls st ++ [sent]) awards = Answer body ->
         groupByName body = Ok tt ->
         exists st',
           getPullRequest server now nowISO providerId token false st
           = (Ok (Interrupted a (RefsAssigned providerId)), st')
           /\ _pullRequestCache st' !! key = None
           /\ calls st' = calls st ++ [sent; awards]
           /\ _gitlabUsername st' = Some username
           /\ _pendingReviewStore st' = _pendingReviewStore st).
Proof.
  intros Hid Hmiss Hte Htok Hquery sent awards.
  unfold getPullRequest, bind, lift. rewrite Hid. simpl. rewrite Hmiss.
  unfold fetchPullRequest, assemble. simpl projectFullPath.
  rewrite (query_answered now _ _ _ st a Hte Htok Hquery). fold sent. fold awards.
  split.
  - intros Hnull.
    assert (Hstop : match qa_project a, qa_currentUser a with
                    | Some (Some _), Some _ => False
                    | _, _ => True
                    end).
    { destruct Hnull as [-> | [-> | ->]]; [destruct (qa_project a) as [[|]|]|..]; exact I. }
    destruct (qa_project a) as [[m|]|]; destruct (qa_currentUser a) as [u|];
      try destruct Hstop;
      (eexists; split; [reflexivity|]; simpl;
       rewrite connected_cache, connected_calls, connected_username;
       split; [exact Hmiss|]; split; reflexivity).
  - intros username m body Huser Hmr Horphan Hbody Hgroup. rewrite Hmr, Huser.
    unfold rest. simpl calls. rewrite connected_calls, Hbody, Hgroup, Horphan.
    eexists. split; [reflexivity|]. simpl.
    rewrite connected_cache, connected_calls, connected_pending, <- app_assoc.
    split; [exact Hmiss|]. repeat split.
Qed.

Lemma incomplete_answer_is_returned_witness :
  identify Example.token = Ok (Example.key, Some Example.parsed)
  /\ requestGetPullRequest Sample.orphaned (calls Example.staged) "group/proj" "3"
     = Answer Sample.orphan
  /\ exists st',
       getPullRequest Sample.orphaned Example.startedAt Example.startedAtISO None
         Example.token false Example.staged
       = (Ok (Interrupted Sample.orphan (RefsAssigned None)), st')
       /\ _pendingReviewStore st' = _pendingReviewStore Example.staged.
Proof.
  split; [reflexivity|]. split; [reflexivity|].
  assert (Hmiss : _pullRequestCache Example.staged !! Example.key = None)
    by (vm_compute; reflexivity).
  destruct (proj2 (incomplete_answer_is_returned Sample.orphaned Example.startedAt
                     Example.startedAtISO None Example.token Example.key "group/proj" "3"
                     Example.staged Sample.orphan eq_refl Hmiss eq_refl eq_refl eq_refl)
              "ada"
              {| a_id := "gid://gitlab/MergeRequest/7";
                 a_iid := "3";
                 a_createdAt := "2021-03-01T09:00:00Z";
                 a_sourceBranch := "feature";
                 a_targetBranch := "main";
                 a_title := "Add pagination";
                 a_state := "opened";
                 a_mergedAt := None;
                 a_reference := "!3";
                 a_diffRefs := None;
                 a_sourceProject := None;
                 a_discussions := [Example.thread] |}
              (Obj []) eq_refl eq_refl eq_refl eq_refl eq_refl)
    as (st' & H1 & _ & _ & _ & H2).
  exists st'. split; [exact H1|exact H2].
Defined.

Lemma rest_answered (server : Server) (c : Call) (st : State) (body : Value) :
  respond server (calls st) c = Answer body ->
  rest server c st = (Ok body, record st c).
Proof. intros H. unfold rest. rewrite H. reflexivity. Qed.

(** ** The GraphQL endpoint *)

Lemma prefix_cons (a b : ascii) (s1 s2 : string) :
  String.prefix (String a s1) (String b s2)
  = if ascii_dec a b then String.prefix s1 s2 else false.
Proof. reflexivity. Qed.

Lemma replace_first_v4 (p rest : string) :
  Js.includes "/v4" p = false ->
  Js.replace "/v4" "" (p +:+ "/v4" +:+ rest) = p +:+ rest.
Proof.
  induction p as [|c p IH]; intros H.
  - rewrite append_nil_l. apply replace_prefix.
  - rewrite includes_unfold in H. apply orb_false_iff in H as [H1 H2].
    rewrite append_cons, replace_unfold.
    assert (Hpre : String.prefix "/v4" (String c (p +:+ "/v4" +:+ rest)) = false).
    { rewrite prefix_cons in H1 |- *. destruct (ascii_dec "/" c) as [_|_]; [|reflexivity].
      destruct p as [|d p]; [reflexivity|].
      rewrite append_cons. rewrite prefix_cons in H1 |- *.
      destruct (ascii_dec "v" d) as [_|_]; [|reflexivity].
      destruct p as [|e p]; [reflexivity|].
      rewrite append_cons. rewrite prefix_cons in H1 |- *.
      destruct (ascii_dec "4" e) as [_|_]; [|reflexivity].
      destruct p; discriminate H1. }
    rewrite Hpre, (IH H2). reflexivity.
Qed.

(** X22.  The GraphQL endpoint.  [graphQlBaseUrl] removes the first [/v4]
    of the base URL, wherever it stands, and appends [/graphql]; what
    follows that first [/v4], a later [/v4] included, is kept.  A base URL
    without [/v4] only gets [/graphql] appended. *)
Theorem graphQlBaseUrl_removes_first_v4 (prefix rest : string) :
  Js.includes "/v4" prefix = false ->
  graphQlBaseUrl (prefix +:+ "/v4" +:+ rest) = prefix +:+ rest +:+ "/graphql"
  /\ graphQlBaseUrl prefix = prefix +:+ "/graphql".
Proof.
  intros H. unfold graphQlBaseUrl. split.
  - rewrite (replace_first_v4 _ _ H), append_assoc. reflexivity.
  - rewrite (replace_absent _ _ _ H). reflexivity.
Qed.

Lemma graphQlBaseUrl_removes_first_v4_witness :
  Js.includes "/v4" "https://gitlab.com/api" = false
  /\ graphQlBaseUrl ("https://gitlab.com/api" +:+ "/v4" +:+ "")
     = "https://gitlab.com/api" +:+ "" +:+ "/graphql".
Proof.
  split; [reflexivity|].
  exact (proj1 (graphQlBaseUrl_removes_first_v4 "https://gitlab.com/api" "" eq_refl)).
Defined.

(** ** Replies *)

(** X23.  A reply does not touch the provider.  [createCommentReply] sends
    one [POST] to the notes of the discussion and changes neither the
    cache, nor the pending reviews, nor the notifications: a cached detail
    is served without the reply until it is fetched with [force].  With an
    empty identifier the request goes to the project and the merge request
    called [undefined]. *)
Theorem reply_leaves_the_cache (server : Server) (token commentId text : string) (st : State) :
  let st' := snd (createCommentReply server token commentId text st) in
  _pullRequestCache st' = _pullRequestCache st
  /\ _pendingReviewStore st' = _pendingReviewStore st
  /\ notifications st' = notifications st
  /\ (token = "" ->
      calls st'
      = calls st ++ [POST ("/projects/undefined/merge_requests/undefined/discussions/"
                           +:+ commentId +:+ "/notes") (Obj [("body", Str text)])])
  /\ (forall key p,
         identify token = Ok (key, Some p) ->
         calls st'
         = calls st ++ [POST (mergeRequestUrl p +:+ "/discussions/" +:+ commentId +:+ "/notes")
                          (Obj [("body", Str text)])]).
Proof.
  unfold createCommentReply, bind, lift, rest. cbv zeta.
  split; [|split; [|split; [|split]]].
  - destruct (identify token) as [ids|t]; [|reflexivity].
    destruct (respond server (calls st) _); reflexivity.
  - destruct (identify token) as [ids|t]; [|reflexivity].
    destruct (respond server (calls st) _); reflexivity.
  - destruct (identify token) as [ids|t]; [|reflexivity].
    destruct (respond server (calls st) _); reflexivity.
  - intros ->. change (identify "") with (@Ok (option string * option ParsedId) (None, None)).
    cbv iota beta. simpl snd. cbv iota.
    change (encodeURIComponent "undefined") with "undefined".
    destruct (respond server (calls st) _); reflexivity.
  - intros key p Hid. rewrite Hid. cbv iota beta. unfold mergeRequestUrl.
    rewrite !append_assoc.
    destruct (respond server (calls st) _); reflexivity.
Qed.

(** ** Closing and reopening *)

Lemma createPullRequestComment_calls (server : Server) (token text : string) (st : State) :
  let st' := snd (createPullRequestComment server token text st) in
  calls st' = calls st \/ exists variables, calls st' = calls st ++ [GRAPHQL "CreateNote" variables].
Proof.
  unfold createPullRequestComment, bind, lift.
  destruct (identify token) as [[noteableId [[path0 [i|]]|]]|t]; simpl; auto.
  unfold mutate, client, bind.
  destruct (_client st); simpl accessToken; destruct (truthy (accessToken st)); simpl; auto;
    destruct (respond server (calls st) _) as [response|ex]; simpl; eauto;
    destruct (addedNode response); simpl; eauto.
Qed.

(** X24.  No state change after a failed comment.  When the comment of
    [createPullRequestCommentAndClose] or [createPullRequestCommentAndReopen]
    fails, the method throws that failure and the request that closes or
    reopens the merge request is never sent: at most the [CreateNote]
    mutation went out. *)
Theorem failed_comment_stops_state_change (server : Server) (token text : string)
    (p : ParsedId) (st : State) (t : Thrown) :
  parseId token = Ok p ->
  text <> "" ->
  fst (createPullRequestComment server token text st) = Throw t ->
  fst (createPullRequestCommentAndClose server token text st) = Throw t
  /\ fst (createPullRequestCommentAndReopen server token text st) = Throw t
  /\ snd (createPullRequestCommentAndClose server token text st)
     = snd (createPullRequestCommentAndReopen server token text st)
  /\ let st' := snd (createPullRequestCommentAndClose server token text st) in
     calls st' = calls st
     \/ exists variables, calls st' = calls st ++ [GRAPHQL "CreateNote" variables].
Proof.
  intros Hparse Htext Hfail.
  assert (Htruthy : truthy (Some text) = true).
  { simpl. apply negb_true_iff, String.eqb_neq. exact Htext. }
  assert (Hstep : forall stateEvent,
             commentAndSetState server stateEvent token text st
             = (Throw t, snd (createPullRequestComment server token text st))).
  { intros stateEvent. unfold commentAndSetState, bind at 1, lift. rewrite Hparse, Htruthy.
    unfold bind. destruct (createPullRequestComment server token text st) as [[ds|t'] st1];
      simpl in Hfail; [discriminate|]. injection Hfail as ->. reflexivity. }
  unfold createPullRequestCommentAndClose, createPullRequestCommentAndReopen.
  rewrite !Hstep. simpl. repeat split.
  apply createPullRequestComment_calls.
Qed.

Lemma failed_comment_stops_state_change_witness :
  parseId Example.token = Ok Example.parsed
  /\ fst (createPullRequestComment Example.pagedServer Example.token "closing" Example.idle)
     = Throw (Raised Example.down)
  /\ fst (createPullRequestCommentAndClose Example.pagedServer Example.token "closing"
            Example.idle)
     = Throw (Raised Example.down).
Proof.
  split; [reflexivity|]. split; [vm_compute; reflexivity|].
  refine (proj1 (failed_comment_stops_state_change Example.pagedServer Example.token "closing"
                   Example.parsed Example.idle (Raised Example.down) eq_refl _ _)).
  - discriminate.
  - vm_compute. reflexivity.
Defined.

Lemma commentAndSetState_cache (server : Server) (stateEvent token text : string) :
  preserves _pullRequestCache (commentAndSetState server stateEvent token text).
Proof.
  unfold commentAndSetState.
  apply preserves_bind; [apply preserves_lift|intros p].
  apply preserves_bind.
  { destruct (truthy (Some text)); [|apply preserves_ret].
    apply preserves_bind; [apply createPullRequestComment_cache|intros ?; apply preserves_ret]. }
  intros ds. apply preserves_bind; [apply preserves_rest; apply cache_local|intros body].
  repeat (apply preserves_bind; [apply preserves_lift|intros ?]).
  apply preserves_bind; [|intros ?; apply preserves_ret].
  unfold _projectEvents. apply preserves_bind; [|intros ?; apply preserves_ret].
  intros st. apply (restTyped_cache server).
Qed.

(** X25.  A failure after the state change.  Without a comment,
    [createPullRequestCommentAndClose] first sends the request that closes
    the merge request and then asks for the activity stream.  When the
    first is answered and the second rejected, the method throws that
    failure: the caller gets no directive although the merge request was
    closed.  In no case does the method touch the cache. *)
Theorem closed_but_thrown (server : Server) (token : string) (p : ParsedId) (st : State)
    (fields : list (string * Value)) (ex : Ex) :
  parseId token = Ok p ->
  let close := PUT (mergeRequestUrl p) (Obj [("state_event", Str "close")]) in
  let events := "/projects/" +:+ encodeURIComponent (projectFullPath p) +:+ "/events" in
  respond server (calls st) close = Answer (Obj fields) ->
  getEvents server (calls st ++ [close]) events = Failure ex ->
  let st' := snd (createPullRequestCommentAndClose server token "" st) in
  fst (createPullRequestCommentAndClose server token "" st) = Throw (Raised ex)
  /\ calls st' = calls st ++ [close; GET events]
  /\ _pullRequestCache st' = _pullRequestCache st.
Proof.
  intros Hparse close events Hclose Hevents st'.
  split; [|split].
  - unfold createPullRequestCommentAndClose, commentAndSetState, bind at 1, lift.
    rewrite Hparse. simpl truthy. cbv iota. unfold bind at 1, ret at 1.
    unfold bind at 1. fold close. rewrite (rest_answered _ _ _ _ Hclose).
    simpl. unfold bind at 1. unfold _projectEvents, bind, restTyped. simpl calls.
    fold events. rewrite Hevents. reflexivity.
  - subst st'. unfold createPullRequestCommentAndClose, commentAndSetState, bind at 1, lift.
    rewrite Hparse. simpl truthy. cbv iota. unfold bind at 1, ret at 1.
    unfold bind at 1. fold close. rewrite (rest_answered _ _ _ _ Hclose).
    simpl. unfold bind at 1. unfold _projectEvents, bind, restTyped. simpl calls.
    fold events. rewrite Hevents. simpl. rewrite <- app_assoc. reflexivity.
  - apply commentAndSetState_cache.
Qed.

Lemma closed_but_thrown_witness :
  parseId Example.token = Ok Example.parsed
  /\ respond Sample.noEvents (calls Example.idle)
       (PUT (mergeRequestUrl Example.parsed) (Obj [("state_event", Str "close")]))
     = Answer (Obj [("discussion_locked", Bool true)])
  /\ fst (createPullRequestCommentAndClose Sample.noEvents Example.token "" Example.idle)
     = Throw (Raised Example.down).
Proof.
  split; [reflexivity|]. split; [reflexivity|].
  exact (proj1 (closed_but_thrown Sample.noEvents Example.token Example.parsed Example.idle
                  [("discussion_locked", Bool true)] Example.down
                  eq_refl eq_refl eq_refl)).
Defined.
